(** * react-native-png: a shallow embedding of the PNG document model

    The development follows the layout of the JavaScript sources:
    - [Pixels]  : util/png-pixels (color-type tables);
    - [Chunk]   : chunks/chunk (framing constants);
    - [IDAT]    : chunks/idat (pixel-data chunk);
    - [PLTE], [TRNS], [BKGD] : palette, transparency, background chunks;
    - [RnPng]   : index.js (the document orchestrator).

    JavaScript numbers are modelled by [Z]: exact integers, which is what the
    code computes as long as every value stays below 2^53 in magnitude.  The
    size arithmetic of the pixel-data chunk is modelled a second time in
    [IDATNumber], with the rounding of binary64 numbers written out, and the
    two are compared.  Typed arrays are modelled by [list Z] with stdpp's
    lookup and insert (an out-of-range write on a typed array is dropped, an
    out-of-range read is [undefined] = [None]), and thrown errors by the
    [Result] type. *)

From Stdlib Require Import ZArith Lia Bool Floats.
From stdpp Require Import base list.

Open Scope Z_scope.

(** ** Errors and results *)

Inductive Error :=
| InvalidMetadata | NotAPng | InvalidCodec
| NoPalette | NoTransparency | NoBackground
| IndexOutOfRange | PaletteFull
| InsufficientSamples | SampleCountMismatch
| UnsupportedOperation
| TypeError.

Inductive Result (A : Type) :=
| Ok (a : A)
| Err (e : Error).
Arguments Ok {A} a.
Arguments Err {A} e.

Definition rbind {A B} (r : Result A) (k : A -> Result B) : Result B :=
  match r with
  | Ok a => k a
  | Err e => Err e
  end.

Notation "'do' x <- r ; k" := (rbind r (fun x => k))
  (at level 10, x name, r at level 100, k at level 200).

(** ** Color types (util/constants, [ColorTypes]) *)

Inductive ColorType :=
| GRAYSCALE | TRUECOLOR | INDEXED | GRAYSCALE_AND_ALPHA | TRUECOLOR_AND_ALPHA.

Definition ColorType_eqb (a b : ColorType) : bool :=
  match a, b with
  | GRAYSCALE, GRAYSCALE | TRUECOLOR, TRUECOLOR | INDEXED, INDEXED
  | GRAYSCALE_AND_ALPHA, GRAYSCALE_AND_ALPHA
  | TRUECOLOR_AND_ALPHA, TRUECOLOR_AND_ALPHA => true
  | _, _ => false
  end.

(** Modelled from the spec: util/constants is not among the sources; the five
    canonical color-type codes of the PNG header byte. *)
Definition colorTypeCode (ct : ColorType) : Z :=
  match ct with
  | GRAYSCALE => 0
  | TRUECOLOR => 2
  | INDEXED => 3
  | GRAYSCALE_AND_ALPHA => 4
  | TRUECOLOR_AND_ALPHA => 6
  end.

Definition colorTypeOfCode (c : Z) : option ColorType :=
  if c =? 0 then Some GRAYSCALE
  else if c =? 2 then Some TRUECOLOR
  else if c =? 3 then Some INDEXED
  else if c =? 4 then Some GRAYSCALE_AND_ALPHA
  else if c =? 6 then Some TRUECOLOR_AND_ALPHA
  else None.

(** A sample stored in a [Uint8ClampedArray] is clamped to 0..255. *)
Definition clamp8 (v : Z) : Z := Z.max 0 (Z.min 255 v).

(** [arr[i]] on a typed array: [undefined] outside the array. *)
Definition readAt (arr : list Z) (i : Z) : option Z :=
  if i <? 0 then None else arr !! Z.to_nat i.

(** [arr[i] = v] on a [Uint8ClampedArray]: clamped, dropped outside. *)
Definition writeAt (arr : list Z) (i : Z) (v : Z) : list Z :=
  if i <? 0 then arr else <[Z.to_nat i := clamp8 v]> arr.

(** ** util/png-pixels *)

Module Pixels.

(** Modelled from the spec: util/png-pixels is not among the sources.  The
    number of color samples of a pixel, alpha excluded (1 for grayscale and
    indexed, 3 for the truecolor family). *)
Definition determinePixelColorSize (ct : ColorType) : Z :=
  match ct with
  | GRAYSCALE | INDEXED | GRAYSCALE_AND_ALPHA => 1
  | TRUECOLOR | TRUECOLOR_AND_ALPHA => 3
  end.

(** Modelled from the spec: util/png-pixels is not among the sources. *)
Definition hasAlphaSample (ct : ColorType) : bool :=
  match ct with
  | GRAYSCALE_AND_ALPHA | TRUECOLOR_AND_ALPHA => true
  | _ => false
  end.

Definition isIndexed (ct : ColorType) : bool := ColorType_eqb ct INDEXED.
Definition isGrayscale (ct : ColorType) : bool := ColorType_eqb ct GRAYSCALE.
Definition isTruecolor (ct : ColorType) : bool := ColorType_eqb ct TRUECOLOR.

(** Modelled from the spec: fullPixelSize = colorSampleCount + (hasAlpha ? 1 : 0). *)
Definition determineFullPixelSize (ct : ColorType) : Z :=
  determinePixelColorSize ct + (if hasAlphaSample ct then 1 else 0).

Definition computeNumberOfPixels (width height : Z) : Z := width * height.

(** Modelled from the spec: palette capacity = 2^bitDepth. *)
Definition computeMaxNumberOfColors (depth : Z) : Z := 2 ^ depth.

(** Modelled from the spec: 1 sample for grayscale/indexed, 3 for the
    truecolor family (the same table as [_determineNumberOfSamples] of
    src/chunks/bkgd.js). *)
Definition determineBackgroundSamplesPerEntry (ct : ColorType) : Z :=
  match ct with
  | INDEXED | GRAYSCALE | GRAYSCALE_AND_ALPHA => 1
  | TRUECOLOR | TRUECOLOR_AND_ALPHA => 3
  end.

(** Samples per pixel of the internal raster as section 3 of the
    specification lists them. *)
Definition samplesPerPixel (ct : ColorType) : Z :=
  match ct with
  | GRAYSCALE | INDEXED => 1
  | GRAYSCALE_AND_ALPHA => 2
  | TRUECOLOR => 3
  | TRUECOLOR_AND_ALPHA => 4
  end.

End Pixels.

(** ** chunks/chunk *)

Module Chunk.

Definition CHUNK_LENGTH_SIZE : Z := 4.
Definition CHUNK_HEADER_SIZE : Z := 4.
Definition CHUNK_CRC32_SIZE : Z := 4.

(** Modelled from the spec: 4-byte length field + 4-byte type + 4-byte CRC
    (the payload is added by each chunk class). *)
Definition calculateChunkLength : Z :=
  CHUNK_LENGTH_SIZE + CHUNK_HEADER_SIZE + CHUNK_CRC32_SIZE.

(** Modelled from the spec: fixed offset past the length and type fields. *)
Definition calculateDataOffset : Z := CHUNK_LENGTH_SIZE + CHUNK_HEADER_SIZE.

End Chunk.

(** Mathematical ceiling of [a / b] for [b > 0] ([Z.div] rounds down). *)
Definition ceil_div (a b : Z) : Z :=
  if a mod b =? 0 then a / b else a / b + 1.

(** ** util/typed-array and the byte-buffer primitives *)

Module TypedArray.

(** A byte read that treats [undefined] as 0. *)
Definition byteAt (buf : list Z) (i : Z) : Z := default 0 (readAt buf i).

(** A value stored in a [Uint8Array]. *)
Definition toUint8 (v : Z) : Z := v mod 256.

(** Modelled from the spec: the byte-buffer primitives are external to the
    sources; fixed-width unsigned integers, big-endian as the chunk framing
    requires. *)
Definition writeUint32 (n : Z) : list Z :=
  [(n / 2 ^ 24) mod 256; (n / 2 ^ 16) mod 256; (n / 2 ^ 8) mod 256; n mod 256].

Definition writeUint16 (n : Z) : list Z := [(n / 2 ^ 8) mod 256; n mod 256].

Definition readUint32At (buf : list Z) (off : Z) : Z :=
  byteAt buf off * 2 ^ 24 + byteAt buf (off + 1) * 2 ^ 16
  + byteAt buf (off + 2) * 2 ^ 8 + byteAt buf (off + 3).

Definition readUint8At (buf : list Z) (off : Z) : Z := byteAt buf off.

Definition readUint16At (buf : list Z) (off : Z) (flag : bool) : Z :=
  byteAt buf off * 2 ^ 8 + byteAt buf (off + 1).

(** [bufView.subarray(begin)]; a negative [begin] counts from the end. *)
Definition subarrayFrom (buf : list Z) (b : Z) : list Z :=
  if b <? 0 then drop (length buf - Z.to_nat (- b)) buf
  else drop (Z.to_nat b) buf.

Fixpoint isPrefixOf (seq buf : list Z) : bool :=
  match seq, buf with
  | [], _ => true
  | s :: seq', b :: buf' => (s =? b) && isPrefixOf seq' buf'
  | _ :: _, [] => false
  end.

Fixpoint indexOfFrom (buf seq : list Z) (i : Z) : Z :=
  match buf with
  | [] => -1
  | _ :: rest => if isPrefixOf seq buf then i else indexOfFrom rest seq (i + 1)
  end.

(** Modelled from the spec: [indexOfSequence(buffer, sequence, start = 0)] of
    util/typed-array is not among the sources; the first position at or
    after [start] where the sequence occurs, -1 when there is none. *)
Definition indexOfSequence (buf seq : list Z) (start : Z) : Z :=
  indexOfFrom (drop (Z.to_nat start) buf) seq (Z.max 0 start).

(** [take n] of [l] continued with zeros: what reading [n] entries of a
    typed array copy gives when the source is shorter. *)
Definition takePad (n : nat) (l : list Z) : list Z := take n (l ++ replicate n 0).

(** Number of samples one byte holds at a bit depth below 8. *)
Definition samplesPerByte (depth : Z) : nat := Z.to_nat (8 / depth).

(** One output byte: the samples of a group, first sample in the
    high-order bits. *)
Definition packGroup (depth : Z) (group : list Z) : Z :=
  fold_left (fun acc s => acc * 2 ^ depth + s mod 2 ^ depth) group 0.

Fixpoint groupsOf (fuel k : nat) (l : list Z) : list (list Z) :=
  match fuel with
  | O => []
  | S fuel' =>
      match l with
      | [] => []
      | _ :: _ => takePad k l :: groupsOf fuel' k (drop k l)
      end
  end.

(** Modelled from the spec: [packByteData(data, depth)] of util/typed-array
    is not among the sources; several sub-byte samples are merged per output
    byte, depth 8 is a no-op. *)
Definition packByteData (data : list Z) (depth : Z) : list Z :=
  if 8 <=? depth then data
  else map (packGroup depth)
           (groupsOf (length data) (samplesPerByte depth) data).

Definition unpackByte (depth : Z) (b : Z) : list Z :=
  map (fun j : nat =>
         (b / 2 ^ (depth * Z.of_nat (samplesPerByte depth - 1 - j))) mod 2 ^ depth)
      (seq 0 (samplesPerByte depth)).

(** Modelled from the spec: [unpackByteData(data, depth)] of util/typed-array
    is not among the sources; the inverse of the packing. *)
Definition unpackByteData (data : list Z) (depth : Z) : list Z :=
  if 8 <=? depth then data
  else flat_map (unpackByte depth) data.

End TypedArray.

(** ** util/compress-decompress: scanline filters *)

Module Filters.

(** Modelled from the spec: [determineDataRowLength(depth, colorType, width)]
    of util/pixels is not among the sources; the bytes of one packed row. *)
Definition determineDataRowLength (depth : Z) (ct : ColorType) (width : Z) : Z :=
  (width * Pixels.determineFullPixelSize ct * depth + 7) / 8.

Fixpoint addFilterRows (rows rowLength : nat) (data : list Z) : list Z :=
  match rows with
  | O => []
  | S rows' =>
      0 :: TypedArray.takePad rowLength data
        ++ addFilterRows rows' rowLength (drop rowLength data)
  end.

(** Modelled from the spec: [addFilterFields(data, rowLength, height)] is not
    among the sources; a filter-type byte of value None (0) is prepended to
    every scanline. *)
Definition addFilterFields (data : list Z) (rowLength height : Z) : list Z :=
  addFilterRows (Z.to_nat height) (Z.to_nat rowLength) data.

Fixpoint removeFilterRows (rows rowLength : nat) (data : list Z) : list Z :=
  match rows with
  | O => []
  | S rows' =>
      TypedArray.takePad rowLength (drop 1 data)
        ++ removeFilterRows rows' rowLength (drop (S rowLength) data)
  end.

(** Modelled from the spec: [removeFilterFields(data, rowLength, height)] is
    not among the sources; the filter-type byte of every scanline is
    stripped. *)
Definition removeFilterFields (data : list Z) (rowLength height : Z) : list Z :=
  removeFilterRows (Z.to_nat height) (Z.to_nat rowLength) data.

Definition paethPredictor (a b c : Z) : Z :=
  let p := a + b - c in
  let pa := Z.abs (p - a) in
  let pb := Z.abs (p - b) in
  let pc := Z.abs (p - c) in
  if (pa <=? pb) && (pa <=? pc) then a
  else if pb <=? pc then b
  else c.

(** One reconstructed byte of a scanline of filter type [ft]: [a] is the
    byte one pixel to the left, [b] the byte above, [c] the byte above-left. *)
Definition reconstruct (ft x a b c : Z) : Z :=
  if ft =? 0 then x
  else if ft =? 1 then (x + a) mod 256
  else if ft =? 2 then (x + b) mod 256
  else if ft =? 3 then (x + (a + b) / 2) mod 256
  else if ft =? 4 then (x + paethPredictor a b c) mod 256
  else x.

Fixpoint defilterRow (ft : Z) (bpp : nat) (prior raw : list Z) (i : nat)
    (recon : list Z) : list Z :=
  match raw with
  | [] => recon
  | x :: raw' =>
      let a := if (i <? bpp)%nat then 0 else default 0 (recon !! (i - bpp)%nat) in
      let b := default 0 (prior !! i) in
      let c := if (i <? bpp)%nat then 0 else default 0 (prior !! (i - bpp)%nat) in
      defilterRow ft bpp prior raw' (S i) (recon ++ [reconstruct ft x a b c])
  end.

Fixpoint defilterRows (fuel rowLength bpp : nat) (prior data : list Z) : list Z :=
  match fuel with
  | O => data
  | S fuel' =>
      match data with
      | [] => []
      | ft :: rest =>
          let recon := defilterRow ft bpp prior (take rowLength rest) 0 [] in
          ft :: recon ++ defilterRows fuel' rowLength bpp recon (drop rowLength rest)
      end
  end.

(** Modelled from the spec: [defilter(data, width, fullPixelSize)] is not
    among the sources; the inverse of the standard scanline filters
    (None/Sub/Up/Average/Paeth), selected per scanline by its filter-type
    byte, leaving the filter-type bytes in place. *)
Definition defilter (data : list Z) (width fullPixelSize : Z) : list Z :=
  defilterRows (length data) (Z.to_nat (width * fullPixelSize))
               (Z.to_nat fullPixelSize) [] data.

End Filters.

(** ** Chunk framing *)

Inductive ChunkHeader := H_IHDR | H_PLTE | H_tRNS | H_bKGD | H_IDAT | H_IEND.

(** Modelled from the spec: util/constants is not among the sources; the
    chunks in their canonical order and the ASCII codes of their type tags. *)
Definition SupportedChunks : list ChunkHeader :=
  [H_IHDR; H_PLTE; H_tRNS; H_bKGD; H_IDAT; H_IEND].

Definition ChunkHeaderSequences (h : ChunkHeader) : list Z :=
  match h with
  | H_IHDR => [73; 72; 68; 82]
  | H_PLTE => [80; 76; 84; 69]
  | H_tRNS => [116; 82; 78; 83]
  | H_bKGD => [98; 75; 71; 68]
  | H_IDAT => [73; 68; 65; 84]
  | H_IEND => [73; 69; 78; 68]
  end.

(** The fixed 8-byte signature that precedes the chunks. *)
Definition PNG_SIGNATURE : list Z := [137; 80; 78; 71; 13; 10; 26; 10].

(** Modelled from the spec: chunks/chunk is not among the sources; a chunk is
    the 4-byte big-endian payload length, the 4-byte type, the payload and the
    4-byte CRC computed over type and payload.  The CRC routine [crc] is a
    primitive of the framework. *)
Definition frame (crc : list Z -> Z) (h : ChunkHeader) (payload : list Z) : list Z :=
  TypedArray.writeUint32 (Z.of_nat (length payload))
  ++ ChunkHeaderSequences h ++ payload
  ++ TypedArray.writeUint32 (crc (ChunkHeaderSequences h ++ payload)).

(** The payload bytes of a chunk that starts at its length field, cut at the
    end of the buffer. *)
Definition payloadOf (abuf : list Z) : list Z :=
  let payloadSize := TypedArray.readUint32At abuf 0 in
  take (Z.to_nat (Z.min payloadSize (Z.of_nat (length abuf))))
       (drop (Z.to_nat Chunk.calculateDataOffset) abuf).

(** Modelled from the spec: util/constants is not among the sources; the bit
    depths of the format, of which those above 8 are rejected. *)
Definition BitDepths : list Z := [1; 2; 4; 8; 16].
Definition BitDepths_EIGHT : Z := 8.
Definition DEFAULT_COMPRESSION : Z := 0.
Definition DEFAULT_FILTER : Z := 0.
Definition DEFAULT_INTERLACE : Z := 0.

(** ** chunks/idat: layout and size arithmetic *)

Module IDAT.

Definition DEFLATE_BLOCKS_SIZE : Z := 2.
Definition ZLIB_HEADER_SIZE : Z := 5.
Definition ADLER_CHECKSUM_SIZE : Z := 4.

Record t := mk {
  _width : Z;
  _height : Z;
  _depth : Z;
  _colorType : ColorType;
  _numberOfPixels : Z;
  _pixelColorSize : Z;
  _hasAlphaSample : bool;
  _pixelData : list Z
}.

Record LayoutInformation := mkLayout {
  li_width : Z;
  li_height : Z;
  li_depth : Z;
  li_colorType : ColorType;
  li_numberOfPixels : Z
}.

Definition applyLayoutInformation (c : t) (info : LayoutInformation) : t :=
  {| _width := li_width info;
     _height := li_height info;
     _depth := li_depth info;
     _colorType := li_colorType info;
     _numberOfPixels := li_numberOfPixels info;
     _pixelColorSize := Pixels.determinePixelColorSize (li_colorType info);
     _hasAlphaSample := Pixels.hasAlphaSample (li_colorType info);
     _pixelData := _pixelData c |}.

Definition fullPixelSize (c : t) : Z :=
  _pixelColorSize c + (if _hasAlphaSample c then 1 else 0).

(** [calculatePixelAndFilterSize()] in exact integers; the value of the code
    as long as it stays below 2^53 ([IDATNumber] has the rounding). *)
Definition calculatePixelAndFilterSize (c : t) : Z :=
  (_width c * fullPixelSize c + 1) * _height c.

(** [calculatePayloadSize(pixelAndFilterSize = -1)]: the default argument -1
    asks for the chunk's own size.  In exact integers, as above. *)
Definition calculatePayloadSize (c : t) (pixelAndFilterSize : Z) : Z :=
  let pixelAndFilterSize :=
    if pixelAndFilterSize =? -1 then calculatePixelAndFilterSize c
    else pixelAndFilterSize in
  DEFLATE_BLOCKS_SIZE
  + pixelAndFilterSize
  + ZLIB_HEADER_SIZE * ((0xfffe + pixelAndFilterSize) / 0xffff)
  + ADLER_CHECKSUM_SIZE.

Definition calculateChunkLength (c : t) (payloadSize : Z) : Z :=
  let payloadSize :=
    if payloadSize =? -1 then calculatePayloadSize c (-1) else payloadSize in
  Chunk.calculateChunkLength + payloadSize.

Definition translateXyToIndex (c : t) (x y : Z) : Z :=
  y * (_width c * fullPixelSize c) + x * fullPixelSize c.

(** The constructor: layout applied, then the sample buffer allocated (zero
    filled) with [calculatePixelAndFilterSize()] entries.  The
    [RangeError] that [new Uint8ClampedArray(n)] throws for a negative [n] or
    one beyond what the engine allocates is not modelled: the buffer is
    empty for a negative [n] and has [n] entries for every other. *)
Definition new (info : LayoutInformation) : t :=
  let c := applyLayoutInformation
             {| _width := 0; _height := 0; _depth := 0; _colorType := INDEXED;
                _numberOfPixels := 0; _pixelColorSize := 0;
                _hasAlphaSample := false; _pixelData := [] |} info in
  let pixelAndFilterSize := calculatePixelAndFilterSize c in
  {| _width := _width c; _height := _height c; _depth := _depth c;
     _colorType := _colorType c; _numberOfPixels := _numberOfPixels c;
     _pixelColorSize := _pixelColorSize c;
     _hasAlphaSample := _hasAlphaSample c;
     _pixelData := replicate (Z.to_nat pixelAndFilterSize) 0 |}.

Definition setPixelData (c : t) (d : list Z) : t :=
  {| _width := _width c; _height := _height c; _depth := _depth c;
     _colorType := _colorType c; _numberOfPixels := _numberOfPixels c;
     _pixelColorSize := _pixelColorSize c;
     _hasAlphaSample := _hasAlphaSample c;
     _pixelData := d |}.

(** [_setSingleValuePixel(index, value)] *)
Definition _setSingleValuePixel (c : t) (index value : Z) : t :=
  setPixelData c (writeAt (_pixelData c) index value).

Section WithZlib.
(** The injected codec [_zlibLib] and the CRC routine of the framework. *)
Variable deflate : list Z -> list Z.
Variable inflate : list Z -> list Z.
Variable calculateCrc32 : list Z -> Z.

(** The bytes handed to [deflate]: packed samples with one filter-type byte
    per scanline ([Uint8ClampedArray.from] clamps each entry). *)
Definition pixelAndFilterData (c : t) : list Z :=
  let packedPixelData :=
    map clamp8 (TypedArray.packByteData (_pixelData c) (_depth c)) in
  map clamp8
      (Filters.addFilterFields packedPixelData
         (Filters.determineDataRowLength (_depth c) (_colorType c) (_width c))
         (_height c)).

(** [update()]; the result is the chunk's buffer.  The buffer has
    [calculateChunkLength()] bytes: the compressed bytes are copied behind the
    type field into the [payloadSize] bytes reserved for them (bytes not
    covered stay 0, bytes beyond are dropped) and the CRC is written into the
    last four. *)
Definition update (c : t) : list Z :=
  let payloadSize := calculatePayloadSize c (-1) in
  let compressedPixelAndFilterData := deflate (pixelAndFilterData c) in
  let payload := TypedArray.takePad (Z.to_nat payloadSize) compressedPixelAndFilterData in
  TypedArray.writeUint32 payloadSize
  ++ ChunkHeaderSequences H_IDAT ++ payload
  ++ TypedArray.writeUint32 (calculateCrc32 (ChunkHeaderSequences H_IDAT ++ payload)).

(** [load(abuf)] *)
Definition load (c : t) (abuf : list Z) : t :=
  let dataOffset := Chunk.calculateDataOffset in
  let compressedZlibData := TypedArray.subarrayFrom abuf dataOffset in
  let uncompressedData := inflate compressedZlibData in
  let fullPixelSize := _pixelColorSize c + (if _hasAlphaSample c then 1 else 0) in
  let uncompressedData :=
    if (BitDepths_EIGHT <=? _depth c) && negb (ColorType_eqb INDEXED (_colorType c))
    then Filters.defilter uncompressedData (_width c) fullPixelSize
    else uncompressedData in
  let pixelOnlyData :=
    map clamp8
        (Filters.removeFilterFields uncompressedData
           (Filters.determineDataRowLength (_depth c) (_colorType c) (_width c))
           (_height c)) in
  setPixelData c (map clamp8 (TypedArray.unpackByteData pixelOnlyData (_depth c))).

End WithZlib.

End IDAT.

(** ** The size arithmetic in binary64 numbers *)

(** The quotient [n / d] rounded to the nearest integer, a tie to the even
    one. *)
Definition roundHalfEven (n d : Z) : Z :=
  let q := n / d in
  let r := n mod d in
  if 2 * r <? d then q
  else if d <? 2 * r then q + 1
  else if Z.even q then q else q + 1.

(** A JavaScript number is a binary64 value.  The size arithmetic only meets
    integers, so a number is rendered as the integer it holds, and [None]
    stands for a value that is not finite (an infinity or NaN, which every
    operation below hands on).  [roundToDouble x] is the number nearest to
    the exact result [x]: [x] itself below 2^53, and otherwise [x] rounded to
    a significand of 53 bits, a tie to the even significand. *)
Definition roundToDouble (x : Z) : option Z :=
  let a := Z.abs x in
  let r := if a <? 2 ^ 53 then a
           else let e := Z.log2 a - 52 in roundHalfEven a (2 ^ e) * 2 ^ e in
  if r <? 2 ^ 1024 then Some (Z.sgn x * r) else None.

(** [a + b] *)
Definition numAdd (a b : option Z) : option Z :=
  match a, b with
  | Some x, Some y => roundToDouble (x + y)
  | _, _ => None
  end.

(** [a * b] *)
Definition numMul (a b : option Z) : option Z :=
  match a, b with
  | Some x, Some y => roundToDouble (x * y)
  | _, _ => None
  end.

(** The fraction [n / b] scaled by [2 ^ (- e)], as numerator and
    denominator. *)
Definition scaleQuotient (n b e : Z) : Z * Z :=
  if 0 <=? e then (n, b * 2 ^ e) else (n * 2 ^ (- e), b).

(** The exponent [e] with [2 ^ 52 <= n / (b * 2 ^ e) < 2 ^ 53]. *)
Definition quotientExponent (n b : Z) : Z :=
  let e0 := Z.log2 n - Z.log2 b - 52 in
  if fst (scaleQuotient n b e0) <? 2 ^ 52 * snd (scaleQuotient n b e0)
  then e0 - 1 else e0.

(** [Math.floor(a / b)] for a positive integer [b]: the quotient is rounded
    to a significand [m] of 53 bits at the exponent [e], and the floor of
    [m * 2 ^ e] is taken (with its sign). *)
Definition numFloorDiv (a : option Z) (b : Z) : option Z :=
  match a with
  | None => None
  | Some x =>
      if x =? 0 then Some 0
      else
        let n := Z.abs x in
        let e := quotientExponent n b in
        let m := roundHalfEven (fst (scaleQuotient n b e)) (snd (scaleQuotient n b e)) in
        if 0 <? x
        then Some (if 0 <=? e then m * 2 ^ e else m / 2 ^ (- e))
        else Some (- (if 0 <=? e then m * 2 ^ e else (m + 2 ^ (- e) - 1) / 2 ^ (- e)))
  end.

(** The size methods of the pixel-data chunk, every operation rounded. *)
Module IDATNumber.
Import IDAT.

Definition fullPixelSize (c : t) : option Z :=
  numAdd (Some (_pixelColorSize c)) (Some (if _hasAlphaSample c then 1 else 0)).

Definition calculatePixelAndFilterSize (c : t) : option Z :=
  numMul (numAdd (numMul (Some (_width c)) (fullPixelSize c)) (Some 1))
         (Some (_height c)).

Definition calculatePayloadSize (c : t) (pixelAndFilterSize : option Z) : option Z :=
  let pixelAndFilterSize :=
    match pixelAndFilterSize with
    | Some (-1) => calculatePixelAndFilterSize c
    | _ => pixelAndFilterSize
    end in
  numAdd
    (numAdd
       (numAdd (Some DEFLATE_BLOCKS_SIZE) pixelAndFilterSize)
       (numMul (Some ZLIB_HEADER_SIZE)
               (numFloorDiv (numAdd (Some 0xfffe) pixelAndFilterSize) 0xffff)))
    (Some ADLER_CHECKSUM_SIZE).

End IDATNumber.

(** The same methods on the binary64 numbers of the kernel, against which
    the rounding above is checked at given inputs.  [ofInteger] is exact for
    0 <= z < 2^53. *)
Module IDATFloat.
Import IDAT.

Definition ofInteger (z : Z) : float := PrimFloat.of_uint63 (Uint63.of_Z z).

(** The integer a number holds; [None] when it holds none. *)
Definition toInteger (f : float) : option Z :=
  match Prim2SF f with
  | S754_zero _ => Some 0
  | S754_finite s m e =>
      let sign := if s then -1 else 1 in
      if 0 <=? e then Some (sign * (Z.pos m * 2 ^ e))
      else if Z.pos m mod 2 ^ (- e) =? 0 then Some (sign * (Z.pos m / 2 ^ (- e)))
      else None
  | _ => None
  end.

(** [Math.floor] *)
Definition floor (f : float) : float :=
  match Prim2SF f with
  | S754_finite s m e =>
      if 0 <=? e then f
      else if s
           then PrimFloat.opp (ofInteger ((Z.pos m + 2 ^ (- e) - 1) / 2 ^ (- e)))
           else ofInteger (Z.pos m / 2 ^ (- e))
  | _ => f
  end.

Definition calculatePixelAndFilterSize (c : t) : float :=
  let fullPixelSize :=
    (ofInteger (_pixelColorSize c) + (if _hasAlphaSample c then 1 else 0))%float in
  ((ofInteger (_width c) * fullPixelSize + 1) * ofInteger (_height c))%float.

Definition calculatePayloadSize (c : t) (pixelAndFilterSize : float) : float :=
  let pixelAndFilterSize :=
    if (pixelAndFilterSize =? -1)%float then calculatePixelAndFilterSize c
    else pixelAndFilterSize in
  (ofInteger DEFLATE_BLOCKS_SIZE
   + pixelAndFilterSize
   + ofInteger ZLIB_HEADER_SIZE
     * floor ((ofInteger 0xfffe + pixelAndFilterSize) / ofInteger 0xffff)
   + ofInteger ADLER_CHECKSUM_SIZE)%float.

End IDATFloat.

(** ** JavaScript values that cross the public interface *)

(** A position argument: a linear index, or an [[x, y]] pair. *)
Inductive Pos :=
| Index (i : Z)
| XY (x y : Z).

(** The [data]/[value] argument of the setters: a number or an array. *)
Inductive Data :=
| Scalar (v : Z)
| Array (l : list Z).

(** [if (!Array.isArray(data)) data = [data];] *)
Definition samplesOf (data : Data) : list Z :=
  match data with
  | Array l => l
  | Scalar v => [v]
  end.

(** What the pixel getters return: [undefined], one sample, or a tuple. *)
Inductive Pixel :=
| PUndefined
| PSample (v : Z)
| PTuple (l : list Z).

(** [Array.prototype.slice(0, n)] *)
Definition slice0 {A} (n : Z) (l : list A) : list A := take (Z.to_nat n) l.

(** [l.slice(i, i + n)] on a typed array, all samples present or nothing. *)
Definition readTuple (arr : list Z) (i n : Z) : option (list Z) :=
  if (i <? 0) || (Z.of_nat (length arr) <? i + n) then None
  else Some (take (Z.to_nat n) (drop (Z.to_nat i) arr)).

(** Consecutive typed-array writes [arr[i++] = v] for each [v] of [vs]. *)
Fixpoint writeTuple (arr : list Z) (i : Z) (vs : list Z) : list Z :=
  match vs with
  | [] => arr
  | v :: vs' => writeTuple (writeAt arr i v) (i + 1) vs'
  end.

(** ** Pixel access of the pixel-data chunk *)

Module IDATAccess.
Import IDAT.

(** [_setRgbPixel(index, pixel)]: three writes; an absent [pixel[k]] is
    [undefined], which a clamped array stores as 0. *)
Definition _setRgbPixel (c : t) (index : Z) (pixel : list Z) : t :=
  let d0 := writeAt (_pixelData c) index (default 0 (pixel !! 0%nat)) in
  let d1 := writeAt d0 (index + 1) (default 0 (pixel !! 1%nat)) in
  let d2 := writeAt d1 (index + 2) (default 0 (pixel !! 2%nat)) in
  setPixelData c d2.

(** [setPixel(pos, pixel)] as the pixel-data chunk under src/ defines it. *)
Definition setPixel (c : t) (pos : Pos) (pixel : Data) : t :=
  let index := match pos with
               | XY x y => translateXyToIndex c x y
               | Index i => i
               end in
  match pixel with
  | Array l => _setRgbPixel c index l
  | Scalar v => _setSingleValuePixel c index v
  end.

(** Modelled from the spec: [getValueAt] is called by the orchestrator but
    not defined by the pixel-data chunk under src/; raw single-sample read. *)
Definition getValueAt (c : t) (index : Z) : option Z :=
  readAt (_pixelData c) index.

(** Modelled from the spec: [getPixelOf] is called by the orchestrator but not
    defined by the pixel-data chunk under src/; it reads a single byte (one
    sample per pixel) or a tuple of [fullPixelSize] samples at the offset.
    Outside 0 <= index < buffer length the specification leaves the result
    undefined. *)
Definition getPixelOf (c : t) (index : Z) : Pixel :=
  if fullPixelSize c =? 1 then
    match readAt (_pixelData c) index with
    | Some v => PSample v
    | None => PUndefined
    end
  else
    match readTuple (_pixelData c) index (fullPixelSize c) with
    | Some l => PTuple l
    | None => PUndefined
    end.

(** Modelled from the spec: [setPixelOf] is called by the orchestrator but not
    defined by the pixel-data chunk under src/; it writes a single byte or
    the samples of a tuple (at most [fullPixelSize] of them) at the offset. *)
Definition setPixelOf (c : t) (index : Z) (value : Data) : t :=
  match value with
  | Scalar v => _setSingleValuePixel c index v
  | Array l =>
      setPixelData c (writeTuple (_pixelData c) index (slice0 (fullPixelSize c) l))
  end.

(** Modelled from the spec: [setAlpha(value, index)] writes the alpha sample
    of the pixel that starts at [index]. *)
Definition setAlpha (c : t) (value index : Z) : t :=
  setPixelData c (writeAt (_pixelData c) (index + _pixelColorSize c) value).

End IDATAccess.

(** ** chunks/plte *)

Module PLTE.

Record t := mk {
  _maxNumberOfColors : Z;
  _palette : list (list Z)
}.

Definition new (maxNumberOfColors : Z) : t := mk maxNumberOfColors [].

Definition colorEqb (a b : list Z) : bool := bool_decide (a = b).

Fixpoint indexFrom (p : list (list Z)) (color : list Z) (i : Z) : Z :=
  match p with
  | [] => -1
  | e :: p' => if colorEqb e color then i else indexFrom p' color (i + 1)
  end.

(** Modelled from the spec: chunks/plte is not among the sources; linear
    equality search, first match, -1 when absent. *)
Definition getPaletteIndex (c : t) (color : list Z) : Z :=
  indexFrom (_palette c) color 0.

(** Modelled from the spec: chunks/plte is not among the sources. *)
Definition isColorInPalette (c : t) (color : list Z) : bool :=
  negb (getPaletteIndex c color =? -1).

(** Modelled from the spec: chunks/plte is not among the sources; appends and
    returns the new index, fails with [PaletteFull] when the length would
    exceed the capacity. *)
Definition addColor (c : t) (color : list Z) : Result (t * Z) :=
  let n := Z.of_nat (length (_palette c)) in
  if _maxNumberOfColors c <? n + 1 then Err PaletteFull
  else Ok (mk (_maxNumberOfColors c) (_palette c ++ [color]), n).

(** Modelled from the spec: chunks/plte is not among the sources; the entry
    is overwritten in place, the assignment [this._palette[index] = color] on
    the array that holds the table.  On an array such an assignment at the
    length appends the entry and one past the length extends the array up to
    the index; the entries skipped that way, holes of the array, are rendered
    as empty entries.  A negative index names no entry. *)
Definition setColorOf (c : t) (index : Z) (color : list Z) : t :=
  if index <? 0 then c
  else
    let i := Z.to_nat index in
    mk (_maxNumberOfColors c)
       (if (i <? length (_palette c))%nat then <[i := color]> (_palette c)
        else _palette c ++ replicate (i - length (_palette c)) [] ++ [color]).

(** Modelled from the spec: chunks/plte is not among the sources; fails with
    [IndexOutOfRange] when index >= length. *)
Definition getColorOf (c : t) (index : Z) : Result (list Z) :=
  if Z.of_nat (length (_palette c)) <=? index then Err IndexOutOfRange
  else if index <? 0 then Err IndexOutOfRange
  else match _palette c !! Z.to_nat index with
       | Some color => Ok color
       | None => Err IndexOutOfRange
       end.

Definition getPalette (c : t) : list (list Z) := _palette c.

Definition payloadBytes (c : t) : list Z :=
  flat_map (fun color => map TypedArray.toUint8 (TypedArray.takePad 3 color))
           (_palette c).

(** Modelled from the spec: chunks/plte is not among the sources; the payload
    is the table, three bytes per entry. *)
Definition update (crc : list Z -> Z) (c : t) : list Z :=
  frame crc H_PLTE (payloadBytes c).

Fixpoint colorsOf (payload : list Z) : list (list Z) :=
  match payload with
  | r :: g :: b :: rest => [r; g; b] :: colorsOf rest
  | _ => []
  end.

(** Modelled from the spec: chunks/plte is not among the sources; the table
    is read back from the payload, three bytes per entry. *)
Definition load (c : t) (abuf : list Z) : t :=
  mk (_maxNumberOfColors c) (colorsOf (payloadOf abuf)).

End PLTE.

(** ** chunks/trns *)

Module TRNS.

Record t := mk {
  _colorType : ColorType;
  _numberOfPixels : Z;
  _maxNumberOfColors : Z;
  (** alpha per palette index; a hole ([None]) is an index never written *)
  _alphas : list (option Z);
  (** literal colors that are fully transparent wherever they occur *)
  _colorKeys : list (list Z)
}.

Definition new (ct : ColorType) (numberOfPixels maxNumberOfColors : Z) : t :=
  mk ct numberOfPixels maxNumberOfColors [] [].

(** [arr[i] = v] on a JavaScript array: extends the array with holes. *)
Definition arraySet {A} (arr : list (option A)) (i : nat) (v : A) : list (option A) :=
  if (i <? length arr)%nat then <[i := Some v]> arr
  else arr ++ replicate (i - length arr) None ++ [Some v].

Definition colorOfData (value : Data) : list Z :=
  match value with
  | Scalar v => [v]
  | Array l => l
  end.

(** Modelled from the spec: chunks/trns is not among the sources; tests
    color-key membership. *)
Definition isTransparencySet (c : t) (colorData : list Z) : bool :=
  existsb (PLTE.colorEqb colorData) (_colorKeys c).

(** Modelled from the spec: chunks/trns is not among the sources.  With an
    index (the orchestrator passes -1 for none), [value] is the alpha byte of
    that palette index; without, [value] is a literal color key. *)
Definition setTransparency (c : t) (value : Data) (index : Z) : t :=
  if index =? -1 then
    let key := colorOfData value in
    if isTransparencySet c key then c
    else mk (_colorType c) (_numberOfPixels c) (_maxNumberOfColors c)
            (_alphas c) (_colorKeys c ++ [key])
  else
    match value with
    | Scalar a =>
        if index <? 0 then c
        else mk (_colorType c) (_numberOfPixels c) (_maxNumberOfColors c)
                (arraySet (_alphas c) (Z.to_nat index) a) (_colorKeys c)
    | Array _ => c
    end.

(** Modelled from the spec: chunks/trns is not among the sources; the stored
    alpha of a palette index, or [undefined]. *)
Definition getValueOf (c : t) (index : Z) : option Z :=
  if index <? 0 then None else mjoin (_alphas c !! Z.to_nat index).

(** Modelled from the spec: chunks/trns is not among the sources; deletes the
    color-key entry. *)
Definition removeTransparency (c : t) (colorKey : list Z) : t :=
  mk (_colorType c) (_numberOfPixels c) (_maxNumberOfColors c) (_alphas c)
     (filter (fun k => k <> colorKey) (_colorKeys c)).

(** Modelled from the spec: chunks/trns is not among the sources; deletes the
    alpha entry of a palette index. *)
Definition removeTransparencyOf (c : t) (index : Z) : t :=
  if index <? 0 then c
  else mk (_colorType c) (_numberOfPixels c) (_maxNumberOfColors c)
          (<[Z.to_nat index := None]> (_alphas c)) (_colorKeys c).

Definition getTransparencies (c : t) : list (list Z) := _colorKeys c.

Definition payloadBytes (c : t) : list Z :=
  if Pixels.isIndexed (_colorType c)
  then map (fun a => TypedArray.toUint8 (default 255 a)) (_alphas c)
  else flat_map (flat_map TypedArray.writeUint16) (_colorKeys c).

(** Modelled from the spec: chunks/trns is not among the sources; one alpha
    byte per palette index for an indexed image (an index never written is
    opaque), 16-bit samples of each color key otherwise. *)
Definition update (crc : list Z -> Z) (c : t) : list Z :=
  frame crc H_tRNS (payloadBytes c).

Fixpoint samples16 (payload : list Z) : list Z :=
  match payload with
  | hi :: lo :: rest => (hi * 2 ^ 8 + lo) :: samples16 rest
  | _ => []
  end.

(** Modelled from the spec: chunks/trns is not among the sources. *)
Definition load (c : t) (abuf : list Z) : t :=
  let payload := payloadOf abuf in
  if Pixels.isIndexed (_colorType c)
  then mk (_colorType c) (_numberOfPixels c) (_maxNumberOfColors c)
          (map Some payload) []
  else
    let samples := samples16 payload in
    mk (_colorType c) (_numberOfPixels c) (_maxNumberOfColors c) []
       (TypedArray.groupsOf (length samples)
          (Z.to_nat (Pixels.determinePixelColorSize (_colorType c))) samples).

End TRNS.

(** ** chunks/bkgd (the implementation that imports util/png-pixels) *)

Module BKGD.

Record t := mk {
  _colorType : ColorType;
  _backgroundColor : list Z
}.

(** The constructor allocates one clamped byte per background sample. *)
Definition new (ct : ColorType) : t :=
  mk ct (replicate (Z.to_nat (Pixels.determineBackgroundSamplesPerEntry ct)) 0).

Definition calculatePayloadSize (c : t) : Z :=
  if Pixels.isIndexed (_colorType c) then 1
  else Pixels.determineBackgroundSamplesPerEntry (_colorType c) * 2.

Definition calculateChunkLength (c : t) : Z :=
  Chunk.calculateChunkLength + calculatePayloadSize c.

Definition calculateDataOffset (c : t) : Z := Chunk.calculateDataOffset.

Definition setBackgroundColor (c : t) (color : list Z) : Result t :=
  let requiredSamples := Pixels.determineBackgroundSamplesPerEntry (_colorType c) in
  if negb (Z.of_nat (length color) =? requiredSamples) then Err SampleCountMismatch
  else Ok (mk (_colorType c) (writeTuple (_backgroundColor c) 0 color)).

Definition getBackgroundColor (c : t) : list Z := _backgroundColor c.

(** [update()]; the result is the chunk's buffer. *)
Definition update (crc : list Z -> Z) (c : t) : list Z :=
  let payloadSize := calculatePayloadSize c in
  let payload :=
    if Pixels.isIndexed (_colorType c)
    then [TypedArray.toUint8 (default 0 (_backgroundColor c !! 0%nat))]
    else flat_map TypedArray.writeUint16 (_backgroundColor c) in
  TypedArray.writeUint32 payloadSize
  ++ ChunkHeaderSequences H_bKGD ++ payload
  ++ TypedArray.writeUint32 (crc (ChunkHeaderSequences H_bKGD ++ payload)).

(** [abuf.subarray(begin, end)] *)
Definition subarray (abuf : list Z) (b e : Z) : list Z :=
  take (Z.to_nat (e - b)) (drop (Z.to_nat b) abuf).

Section Load.
(** The byte-buffer read primitives of util/typed-array are external to
    the sources at hand and are taken as given. *)
Variable readUint8At : list Z -> Z -> Z.
Variable readUint16At : list Z -> Z -> bool -> Z.

(** The sample loop of [load]:
    [for (let i = 0, offset = dataOffset; i < numberOfSamples; i++, offset += 2)
       color.push(readUint16At(backgroundInfo, dataOffset, true));]
    [remaining] counts the iterations left; [offset] is threaded exactly as
    the loop header does. *)
Fixpoint loadSamples (remaining : nat) (backgroundInfo : list Z)
    (dataOffset offset : Z) (color : list Z) : list Z :=
  match remaining with
  | O => color
  | S k =>
      loadSamples k backgroundInfo dataOffset (offset + 2)
        (color ++ [readUint16At backgroundInfo dataOffset true])
  end.

Definition load (c : t) (abuf : list Z) : Result t :=
  let backgroundInfo :=
    subarray abuf (calculateDataOffset c)
             (calculateDataOffset c + calculatePayloadSize c) in
  let dataOffset := calculateDataOffset c in
  let color :=
    if Pixels.isIndexed (_colorType c) then
      [readUint8At backgroundInfo dataOffset]
    else
      let numberOfSamples :=
        Pixels.determineBackgroundSamplesPerEntry (_colorType c) in
      loadSamples (Z.to_nat numberOfSamples) backgroundInfo dataOffset dataOffset []
  in
  setBackgroundColor c color.
End Load.

End BKGD.

(** ** src/chunks/bkgd.js (the implementation on [ColorTypes] alone) *)

Module SrcChunksBkgd.

Record t := mk {
  _colorType : ColorType;
  _backgroundColor : list Z
}.

Definition _determineNumberOfSamples (ct : ColorType) : Z :=
  if ColorType_eqb INDEXED ct || ColorType_eqb GRAYSCALE ct
     || ColorType_eqb GRAYSCALE_AND_ALPHA ct
  then 1 else 3.

Definition calculatePayloadSize (c : t) : Z :=
  if ColorType_eqb INDEXED (_colorType c) then 1
  else _determineNumberOfSamples (_colorType c) * 2.

Definition calculateChunkLength (c : t) : Z :=
  Chunk.calculateChunkLength + calculatePayloadSize c.

Definition setBackgroundColor (c : t) (color : list Z) : Result t :=
  let requiredSamples := _determineNumberOfSamples (_colorType c) in
  if negb (Z.of_nat (length color) =? requiredSamples) then Err SampleCountMismatch
  else Ok (mk (_colorType c) (writeTuple (_backgroundColor c) 0 color)).

Section LoadFromChunkBuffer.
(** The chunk's own buffer object is external to the sources at hand:
    [chunkBuffer chunkLength abuf] stands for [this.buffer] after
    [initialize(chunkLength)] and [this.buffer.copyInto(abuf, chunkLength)],
    and the two reads are its methods. *)
Variable chunkBuffer : Z -> list Z -> list Z.
Variable readUint8At : list Z -> Z -> Z.
Variable readUint16At : list Z -> Z -> Z.

Fixpoint loadSamples (remaining : nat) (buffer : list Z)
    (dataOffset offset : Z) (color : list Z) : list Z :=
  match remaining with
  | O => color
  | S k =>
      loadSamples k buffer dataOffset (offset + 2)
        (color ++ [readUint16At buffer dataOffset])
  end.

Definition load (c : t) (abuf : list Z) : Result t :=
  let chunkLength := calculateChunkLength c in
  let buffer := chunkBuffer chunkLength abuf in
  let dataOffset := Chunk.calculateDataOffset in
  let color :=
    if ColorType_eqb INDEXED (_colorType c) then
      [readUint8At buffer dataOffset]
    else
      let numberOfSamples := _determineNumberOfSamples (_colorType c) in
      loadSamples (Z.to_nat numberOfSamples) buffer dataOffset dataOffset []
  in
  setBackgroundColor c color.
End LoadFromChunkBuffer.

End SrcChunksBkgd.

(** ** Header metadata *)

Record MetaData := mkMeta {
  m_width : Z;
  m_height : Z;
  m_depth : Z;
  m_colorType : Z;
  m_compression : Z;
  m_filter : Z;
  m_interlace : Z
}.

(** ** chunks/ihdr, chunks/iend, chunks/prefix *)

Module IHDR.

Definition payloadBytes (m : MetaData) : list Z :=
  TypedArray.writeUint32 (m_width m) ++ TypedArray.writeUint32 (m_height m)
  ++ map TypedArray.toUint8
       [m_depth m; m_colorType m; m_compression m; m_filter m; m_interlace m].

(** Modelled from the spec: chunks/ihdr is not among the sources; the 13-byte
    payload is the 4-byte width, the 4-byte height and one byte each for
    depth, color type, compression, filter and interlace. *)
Definition update (crc : list Z -> Z) (m : MetaData) : list Z :=
  frame crc H_IHDR (payloadBytes m).

(** Modelled from the spec: chunks/ihdr is not among the sources. *)
Definition load (abuf : list Z) : MetaData :=
  let o := Chunk.calculateDataOffset in
  mkMeta (TypedArray.readUint32At abuf o) (TypedArray.readUint32At abuf (o + 4))
         (TypedArray.byteAt abuf (o + 8)) (TypedArray.byteAt abuf (o + 9))
         (TypedArray.byteAt abuf (o + 10)) (TypedArray.byteAt abuf (o + 11))
         (TypedArray.byteAt abuf (o + 12)).

End IHDR.

Module IEND.

(** Modelled from the spec: chunks/iend is not among the sources; the end
    marker has an empty payload. *)
Definition update (crc : list Z -> Z) : list Z := frame crc H_IEND [].

End IEND.


(** ** index.js: the document *)

Module RnPng.

(** The chunk collection [_chunks]: the mandatory chunks and one optional
    slot per ancillary chunk (a key that is absent from the JavaScript object
    is [None]). *)
Record Chunks := mkChunks {
  c_IHDR : MetaData;
  c_PLTE : option PLTE.t;
  c_tRNS : option TRNS.t;
  c_bKGD : option BKGD.t;
  c_IDAT : IDAT.t
}.

(** The per-instance private fields ([WeakMap]s keyed by the document). *)
Record t := mk {
  _width : Z;
  _height : Z;
  _depth : Z;
  _colorType : ColorType;
  _compression : Z;
  _filter : Z;
  _interlace : Z;
  _chunks : Chunks
}.

Definition setChunks (d : t) (ch : Chunks) : t :=
  mk (_width d) (_height d) (_depth d) (_colorType d)
     (_compression d) (_filter d) (_interlace d) ch.

Definition setIDAT (d : t) (c : IDAT.t) : t :=
  let ch := _chunks d in
  setChunks d (mkChunks (c_IHDR ch) (c_PLTE ch) (c_tRNS ch) (c_bKGD ch) c).

Definition setPLTE (d : t) (c : option PLTE.t) : t :=
  let ch := _chunks d in
  setChunks d (mkChunks (c_IHDR ch) c (c_tRNS ch) (c_bKGD ch) (c_IDAT ch)).

Definition settRNS (d : t) (c : option TRNS.t) : t :=
  let ch := _chunks d in
  setChunks d (mkChunks (c_IHDR ch) (c_PLTE ch) c (c_bKGD ch) (c_IDAT ch)).

Definition setbKGD (d : t) (c : option BKGD.t) : t :=
  let ch := _chunks d in
  setChunks d (mkChunks (c_IHDR ch) (c_PLTE ch) (c_tRNS ch) c (c_IDAT ch)).

Definition setIHDR (d : t) (m : MetaData) : t :=
  let ch := _chunks d in
  setChunks d (mkChunks m (c_PLTE ch) (c_tRNS ch) (c_bKGD ch) (c_IDAT ch)).

(** [_applyMetaData]: validation; a color-type code that passes it is one of
    the five constructors of [ColorType]. *)
Definition _applyMetaData (ctxt : t) (metaData : MetaData) : Result t :=
  if negb (existsb (Z.eqb (m_depth metaData)) BitDepths) then Err InvalidMetadata
  else if BitDepths_EIGHT <? m_depth metaData then Err InvalidMetadata
  else match colorTypeOfCode (m_colorType metaData) with
       | None => Err InvalidMetadata
       | Some ct =>
           Ok (mk (m_width metaData) (m_height metaData) (m_depth metaData) ct
                  (m_compression metaData) (m_filter metaData)
                  (m_interlace metaData) (_chunks ctxt))
       end.

Definition getMetaData (d : t) : MetaData :=
  mkMeta (_width d) (_height d) (_depth d) (colorTypeCode (_colorType d))
         (_compression d) (_filter d) (_interlace d).

Definition isIndexed (d : t) : bool := Pixels.isIndexed (_colorType d).
Definition hasAlphaChannel (d : t) : bool := Pixels.hasAlphaSample (_colorType d).

(** [_initializeChunks], called with the document's own [getMetaData()]. *)
Definition _initializeChunks (ctxt : t) : t :=
  let numberOfPixels := Pixels.computeNumberOfPixels (_width ctxt) (_height ctxt) in
  let maxNumberOfColors := Pixels.computeMaxNumberOfColors (_depth ctxt) in
  setChunks ctxt
    {| c_IHDR := getMetaData ctxt;
       c_PLTE := if Pixels.isIndexed (_colorType ctxt)
                 then Some (PLTE.new maxNumberOfColors) else None;
       c_tRNS := None;
       c_bKGD := None;
       c_IDAT := IDAT.new (IDAT.mkLayout (_width ctxt) (_height ctxt) (_depth ctxt)
                                         (_colorType ctxt) numberOfPixels) |}.

(** Constructor options; [None] is an absent key. *)
Record Options := mkOptions {
  o_width : option Z;
  o_height : option Z;
  o_depth : option Z;
  o_colorType : option Z
}.

(** [options.k || dflt]: an absent key and the number 0 both give [dflt]. *)
Definition orDefault (o : option Z) (dflt : Z) : Z :=
  match o with
  | Some v => if v =? 0 then dflt else v
  | None => dflt
  end.

Definition blank : t :=
  mk 0 0 0 INDEXED 0 0 0
     (mkChunks (mkMeta 0 0 0 0 0 0 0) None None None
               (IDAT.mk 0 0 0 INDEXED 0 0 false [])).

Definition new (options : Options) : Result t :=
  let width := orDefault (o_width options) 0 in
  let height := orDefault (o_height options) 0 in
  let depth := orDefault (o_depth options) BitDepths_EIGHT in
  let colorType := orDefault (o_colorType options) (colorTypeCode INDEXED) in
  do d <- _applyMetaData blank
            (mkMeta width height depth colorType
                    DEFAULT_COMPRESSION DEFAULT_FILTER DEFAULT_INTERLACE);
  Ok (_initializeChunks d).

Definition _translateXyToIndex (ctxt : t) (x y : Z) : Z :=
  let width := _width ctxt in
  let colorType := _colorType ctxt in
  let pixelColorSize := Pixels.determinePixelColorSize colorType in
  let fullPixelSize :=
    pixelColorSize + (if Pixels.hasAlphaSample colorType then 1 else 0) in
  y * (width * fullPixelSize) + x * fullPixelSize.

Definition resolvePos (d : t) (pos : Pos) : Z :=
  match pos with
  | XY x y => _translateXyToIndex d x y
  | Index i => i
  end.

Definition getPalette (d : t) : Result (list (list Z)) :=
  match c_PLTE (_chunks d) with
  | None => Err NoPalette
  | Some plte => Ok (PLTE.getPalette plte)
  end.

(** [getPaletteIndexAt]; the stored index is [None] when the read falls
    outside the sample buffer ([undefined >= n] is false). *)
Definition getPaletteIndexAt (d : t) (pos : Pos) : Result (option Z) :=
  match c_PLTE (_chunks d) with
  | None => Err NoPalette
  | Some _ =>
      let index := resolvePos d pos in
      let paletteIndex := IDATAccess.getValueAt (c_IDAT (_chunks d)) index in
      do palette <- getPalette d;
      match paletteIndex with
      | Some i =>
          if Z.of_nat (length palette) <=? i then Err IndexOutOfRange
          else Ok (Some i)
      | None => Ok None
      end
  end.

Definition getPaletteColorAt (d : t) (pos : Pos) : Result Pixel :=
  match c_PLTE (_chunks d) with
  | None => Err NoPalette
  | Some plte =>
      do paletteIndex <- getPaletteIndexAt d pos;
      match paletteIndex with
      | Some i => do color <- PLTE.getColorOf plte i; Ok (PTuple color)
      | None => Ok PUndefined
      end
  end.

Definition doesColorExistInTransparencies (d : t) (colorData : list Z) : bool :=
  match c_tRNS (_chunks d) with
  | Some trns => TRNS.isTransparencySet trns colorData
  | None => false
  end.

(** [getBackground]; [None] is [undefined]. *)
Definition getBackground (d : t) : option (list Z) :=
  match c_bKGD (_chunks d) with
  | Some bkgd => Some (BKGD.getBackgroundColor bkgd)
  | None => None
  end.

Definition getPixelAt (d : t) (pos : Pos) : Result Pixel :=
  let index := resolvePos d pos in
  if hasAlphaChannel d then Ok (IDATAccess.getPixelOf (c_IDAT (_chunks d)) index)
  else
    let pixel := IDATAccess.getPixelOf (c_IDAT (_chunks d)) index in
    if isIndexed d then
      match c_PLTE (_chunks d) with
      | None => Err TypeError
      | Some plte =>
          match pixel with
          | PSample pixelIndex =>
              do color <- PLTE.getColorOf plte pixelIndex;
              match c_tRNS (_chunks d) with
              | Some trns =>
                  let opacity := TRNS.getValueOf trns pixelIndex in
                  Ok (PTuple (color ++ [default 255 opacity]))
              | None => Ok (PTuple color)
              end
          | _ => Ok PUndefined
          end
      end
    else Ok pixel.

Definition setTransparency (d : t) (value : Data) (index : Z) : t :=
  let trns :=
    match c_tRNS (_chunks d) with
    | Some trns => trns
    | None =>
        TRNS.new (_colorType d)
                 (Pixels.computeNumberOfPixels (_width d) (_height d))
                 (Pixels.computeMaxNumberOfColors (_depth d))
    end in
  settRNS d (Some (TRNS.setTransparency trns value index)).

(** [removeTransparency]; the indexed branch looks the color up in the
    palette ([getPaletteIndexOf] in the source) and clears that index. *)
Definition removeTransparency (d : t) (colorData : list Z) : Result t :=
  match c_tRNS (_chunks d) with
  | None => Err NoTransparency
  | Some trns =>
      if isIndexed d then
        match c_PLTE (_chunks d) with
        | None => Err TypeError
        | Some plte =>
            let paletteIndex := PLTE.getPaletteIndex plte colorData in
            Ok (settRNS d (Some (TRNS.removeTransparencyOf trns paletteIndex)))
        end
      else Ok (settRNS d (Some (TRNS.removeTransparency trns colorData)))
  end.

(** The sample count [setPixelAt] requires. *)
Definition requiredSamples (d : t) : Z :=
  if isIndexed d then 3 else Pixels.determineFullPixelSize (_colorType d).

Definition setPixelAt (d : t) (pos : Pos) (data : Data) : Result t :=
  let index := resolvePos d pos in
  let data := samplesOf data in
  let fullPixelSize := requiredSamples d in
  if Z.of_nat (length data) <? fullPixelSize then Err InsufficientSamples
  else if hasAlphaChannel d then
    let data := slice0 fullPixelSize data in
    Ok (setIDAT d (IDATAccess.setPixelOf (c_IDAT (_chunks d)) index (Array data)))
  else
    let data := slice0 (fullPixelSize + 1) data in
    let colorData := slice0 fullPixelSize data in
    let opacityData :=
      if fullPixelSize <? Z.of_nat (length data) then last data else None in
    if isIndexed d then
      match c_PLTE (_chunks d) with
      | None => Err TypeError
      | Some plte =>
          do r <- (if PLTE.isColorInPalette plte colorData
                   then Ok (plte, PLTE.getPaletteIndex plte colorData)
                   else PLTE.addColor plte colorData);
          let d1 := setPLTE d (Some (fst r)) in
          let paletteIndex := snd r in
          let d2 := setIDAT d1 (IDATAccess.setPixelOf (c_IDAT (_chunks d1)) index
                                                     (Scalar paletteIndex)) in
          match opacityData with
          | Some o => Ok (setTransparency d2 (Scalar o) paletteIndex)
          | None => Ok d2
          end
      end
    else
      let d1 := setIDAT d (IDATAccess.setPixelOf (c_IDAT (_chunks d)) index
                                                (Array colorData)) in
      match opacityData with
      | Some o =>
          if (255 =? o) && doesColorExistInTransparencies d1 colorData
          then removeTransparency d1 colorData
          else Ok (setTransparency d1 (Array colorData) (-1))
      | None => Ok d1
      end.

(** [setBackground(colorData)].  An [Err] result carries no document; what
    a refused call leaves behind is [afterSetBackground] below. *)
Definition setBackground (d : t) (colorData : list Z) : Result t :=
  match c_PLTE (_chunks d), c_bKGD (_chunks d) with
  | Some plte, None => Ok (setPLTE d (Some (PLTE.setColorOf plte 0 colorData)))
  | _, _ =>
      let bkgd := match c_bKGD (_chunks d) with
                  | Some bkgd => bkgd
                  | None => BKGD.new (_colorType d)
                  end in
      do bkgd' <- BKGD.setBackgroundColor bkgd colorData;
      Ok (setbKGD d (Some bkgd'))
  end.

(** The document as a call of [setBackground] leaves it, whether the call
    returns or throws: the new bKGD chunk is attached before
    [setBackgroundColor] checks the color, and stays when the color is
    refused. *)
Definition afterSetBackground (d : t) (colorData : list Z) : t :=
  match c_PLTE (_chunks d), c_bKGD (_chunks d) with
  | Some plte, None => setPLTE d (Some (PLTE.setColorOf plte 0 colorData))
  | _, _ =>
      let bkgd := match c_bKGD (_chunks d) with
                  | Some bkgd => bkgd
                  | None => BKGD.new (_colorType d)
                  end in
      match BKGD.setBackgroundColor bkgd colorData with
      | Ok bkgd' => setbKGD d (Some bkgd')
      | Err _ => setbKGD d (Some bkgd)
      end
  end.

Definition setOpacityAt (d : t) (pos : Pos) (value : Z) : Result t :=
  let index := resolvePos d pos in
  if negb (hasAlphaChannel d) && negb (isIndexed d) then Err UnsupportedOperation
  else if hasAlphaChannel d then
    Ok (setIDAT d (IDATAccess.setAlpha (c_IDAT (_chunks d)) value index))
  else
    match c_PLTE (_chunks d) with
    | None => Err NoPalette
    | Some plte =>
        match IDATAccess.getValueAt (c_IDAT (_chunks d)) index with
        | Some paletteIndex =>
            if Z.of_nat (length (PLTE.getPalette plte)) <=? paletteIndex
            then Err IndexOutOfRange
            else Ok (setTransparency d (Scalar value) paletteIndex)
        | None =>
            (* an [undefined] index triggers the default argument -1 *)
            Ok (setTransparency d (Scalar value) (-1))
        end
    end.

Section WithCodec.
(** The injected codec ([_zlibLib]) and the CRC routine of the chunk
    framework. *)
Variable deflate : list Z -> list Z.
Variable inflate : list Z -> list Z.
Variable calculateCrc32 : list Z -> Z.

(** The buffer of a chunk after its [update()]; [None] for an absent chunk. *)
Definition chunkBuffer (d : t) (chunkType : ChunkHeader) : option (list Z) :=
  let chunks := _chunks d in
  match chunkType with
  | H_IHDR => Some (IHDR.update calculateCrc32 (c_IHDR chunks))
  | H_PLTE => PLTE.update calculateCrc32 <$> c_PLTE chunks
  | H_tRNS => TRNS.update calculateCrc32 <$> c_tRNS chunks
  | H_bKGD => BKGD.update calculateCrc32 <$> c_bKGD chunks
  | H_IDAT => Some (IDAT.update deflate calculateCrc32 (c_IDAT chunks))
  | H_IEND => Some (IEND.update calculateCrc32)
  end.

(** [getBuffer()]: [_updateChunks] refreshes every present chunk and
    [_buildBuffer] lays the signature and then the buffers of the present
    chunks, in the order of [SupportedChunks], end to end. *)
Definition getBuffer (d : t) : list Z :=
  PNG_SIGNATURE ++ concat (omap (chunkBuffer d) SupportedChunks).

Definition _loadChunk (ctxt : t) (chunkHeader : ChunkHeader) (bufView : list Z)
    : Result t :=
  match chunkHeader with
  | H_IHDR =>
      let metaData := IHDR.load bufView in
      _applyMetaData (setIHDR ctxt metaData) metaData
  | H_tRNS =>
      let chunk :=
        TRNS.new (_colorType ctxt)
                 (Pixels.computeNumberOfPixels (_width ctxt) (_height ctxt))
                 (Pixels.computeMaxNumberOfColors (_depth ctxt)) in
      Ok (settRNS ctxt (Some (TRNS.load chunk bufView)))
  | H_PLTE =>
      let chunk := PLTE.new (Pixels.computeMaxNumberOfColors (_depth ctxt)) in
      Ok (setPLTE ctxt (Some (PLTE.load chunk bufView)))
  | H_bKGD =>
      do chunk <- BKGD.load TypedArray.readUint8At TypedArray.readUint16At
                    (BKGD.new (_colorType ctxt)) bufView;
      Ok (setbKGD ctxt (Some chunk))
  | H_IDAT =>
      let chunk :=
        IDAT.applyLayoutInformation (c_IDAT (_chunks ctxt))
          (IDAT.mkLayout (_width ctxt) (_height ctxt) (_depth ctxt) (_colorType ctxt)
             (Pixels.computeNumberOfPixels (_width ctxt) (_height ctxt))) in
      Ok (setIDAT ctxt (IDAT.load inflate chunk bufView))
  | H_IEND => Ok ctxt
  end.

(** [chunk.verify(bufView)]: the type sequence occurs in the buffer. *)
Definition verify (bufView seq : list Z) : bool :=
  negb (TypedArray.indexOfSequence bufView seq 0 =? -1).

(** One round of the [SupportedChunks.forEach] of [from]; the state is the
    document and [startIndex]. *)
Definition fromStep (bufView : list Z) (acc : Result (t * Z))
    (chunkHeader : ChunkHeader) : Result (t * Z) :=
  do st <- acc;
  match chunkHeader with
  | H_IEND => Ok st
  | _ =>
      let tmpHeaderIndex :=
        TypedArray.indexOfSequence bufView (ChunkHeaderSequences chunkHeader) (snd st) in
      if tmpHeaderIndex =? -1 then Ok st
      else
        let chunkHeaderIndex := tmpHeaderIndex in
        let startIndex := chunkHeaderIndex + 4 in
        do d <- _loadChunk (fst st) chunkHeader
                  (TypedArray.subarrayFrom bufView
                     (chunkHeaderIndex - Chunk.CHUNK_LENGTH_SIZE));
        Ok (d, startIndex)
  end.

Definition from (d : t) (bufView : list Z) : Result t :=
  if negb (verify bufView PNG_SIGNATURE)
     || negb (verify bufView (ChunkHeaderSequences H_IHDR))
     || negb (verify bufView (ChunkHeaderSequences H_IDAT))
     || negb (verify bufView (ChunkHeaderSequences H_IEND))
  then Err NotAPng
  else
    let d0 := setPLTE d None in
    do st <- fold_left (fromStep bufView) SupportedChunks (Ok (d0, 0));
    Ok (fst st).

End WithCodec.

End RnPng.

(** ** Instances of the external collaborators, for the examples *)

(** The checksum of the chunk framework: the standard CRC-32 (reflected
    polynomial 0xEDB88320), bit by bit. *)
Fixpoint crcBits (n : nat) (c : Z) : Z :=
  match n with
  | O => c
  | S n' =>
      crcBits n' (if Z.odd c then Z.lxor (Z.shiftr c 1) 0xEDB88320
                  else Z.shiftr c 1)
  end.

Definition crc32 (data : list Z) : Z :=
  Z.lxor (fold_left (fun c b => crcBits 8 (Z.lxor c b)) data 0xFFFFFFFF) 0xFFFFFFFF.

(** A codec of the kind the size prediction is designed for: a zlib stream
    of stored (uncompressed) deflate blocks of at most 0xFFFF bytes, closed by
    the Adler-32 checksum. *)
Module StoredZlib.

Definition BLOCK_SIZE : nat := Z.to_nat 65535.

Definition adler32 (data : list Z) : Z :=
  let sums :=
    fold_left (fun s b =>
                 let s1 := (fst s + b) mod 65521 in
                 (s1, (snd s + s1) mod 65521))
              data (1, 0) in
  snd sums * 65536 + fst sums.

Fixpoint storedBlocks (fuel : nat) (data : list Z) : list Z :=
  match fuel with
  | O => []
  | S fuel' =>
      let block := take BLOCK_SIZE data in
      let rest := drop BLOCK_SIZE data in
      let len := Z.of_nat (length block) in
      let final := match rest with [] => true | _ :: _ => false end in
      [if final then 1 else 0;
       len mod 256; len / 256; (65535 - len) mod 256; (65535 - len) / 256]
      ++ block ++ (if final then [] else storedBlocks fuel' rest)
  end.

Definition deflate (data : list Z) : list Z :=
  [120; 1] ++ storedBlocks (S (length data)) data
  ++ TypedArray.writeUint32 (adler32 data).

Fixpoint readBlocks (fuel : nat) (input : list Z) : list Z :=
  match fuel with
  | O => []
  | S fuel' =>
      match input with
      | final :: l0 :: l1 :: _ :: _ :: rest =>
          let len := Z.to_nat (l0 + 256 * l1) in
          take len rest
          ++ (if final =? 1 then [] else readBlocks fuel' (drop len rest))
      | _ => []
      end
  end.

(** [inflate] reads the blocks up to the final one and ignores what follows
    the stream. *)
Definition inflate (input : list Z) : list Z :=
  readBlocks (length input) (drop 2 input).

End StoredZlib.

(** ** Predicates of the statements *)

(** All samples of a stored color are equal to one another. *)
Definition allSamplesEqual (color : list Z) : Prop :=
  forall i j a b, color !! i = Some a -> color !! j = Some b -> a = b.

(** The pixel-data chunk has been given the layout of the document's color
    type (the constructor and [from] both do so). *)
Definition layoutApplied (d : RnPng.t) : Prop :=
  IDAT.fullPixelSize (RnPng.c_IDAT (RnPng._chunks d))
  = Pixels.determineFullPixelSize (RnPng._colorType d).

(** The sample buffer of a document. *)
Definition pixelDataOf (d : RnPng.t) : list Z :=
  IDAT._pixelData (RnPng.c_IDAT (RnPng._chunks d)).

(** The alpha sample of a resolved indexed pixel: the fourth sample. *)
Definition alphaOf (p : Pixel) : option Z :=
  match p with
  | PTuple l => l !! 3%nat
  | _ => None
  end.

(** An indexed 1x1 document whose only pixel was set to red. *)
Definition redPixelDocument : Result RnPng.t :=
  do d <- RnPng.new (RnPng.mkOptions (Some 1) (Some 1) (Some 8) (Some 3));
  RnPng.setPixelAt d (XY 0 0) (Array [255; 0; 0]).

Definition orBlank (r : Result RnPng.t) : RnPng.t :=
  match r with
  | Ok d => d
  | Err _ => RnPng.blank
  end.

(** The document [redPixelDocument] evaluates to. *)
Definition redDoc : RnPng.t := Eval vm_compute in orBlank redPixelDocument.

(** What the linear search returns: -1, or the offset of an entry that holds
    the color. *)
Definition indexFrom_result_absent_or_found (p : list (list Z)) (color : list Z)
    (i : Z) : Prop :=
  PLTE.indexFrom p color i = -1
  \/ exists k : nat, PLTE.indexFrom p color i = i + Z.of_nat k
                     /\ p !! k = Some color /\ (k < length p)%nat.

(** A fresh 2x1 truecolor document of depth 8. *)
Definition truecolorOptions : RnPng.Options :=
  RnPng.mkOptions (Some 2) (Some 1) (Some 8) (Some 2).

Definition truecolorDoc : RnPng.t :=
  Eval vm_compute in orBlank (RnPng.new truecolorOptions).

(** A value a byte buffer holds. *)
Definition isByte (v : Z) : Prop := 0 <= v <= 255.

(** A sample the bit depth can represent. *)
Definition sampleInRange (depth v : Z) : Prop := 0 <= v < 2 ^ depth.

(** The sample buffer that [load] rebuilds from the bytes [update] hands to
    the codec, for [h] rows of [rl] packed bytes. *)
Definition reloadedSamples (depth : Z) (h rl : nat) (data : list Z) : list Z :=
  map clamp8
    (TypedArray.unpackByteData
       (map clamp8
          (Filters.removeFilterRows h rl
             (map clamp8
                (Filters.addFilterRows h rl
                   (map clamp8 (TypedArray.packByteData data depth))))))
       depth).

(** A palette entry that a palette chunk can hold: three byte samples. *)
Definition isByteTriple (color : list Z) : Prop :=
  length color = 3%nat /\ Forall isByte color.

(** An alpha table whose written entries are bytes. *)
Definition alphasAreBytes (alphas : list (option Z)) : Prop :=
  Forall (fun o => forall a, o = Some a -> isByte a) alphas.

(** ** Conditions of the save/load round trip *)

(** The layout the orchestrator hands to the pixel-data chunk. *)
Definition layoutOf (d : RnPng.t) : IDAT.LayoutInformation :=
  IDAT.mkLayout (RnPng._width d) (RnPng._height d) (RnPng._depth d)
                (RnPng._colorType d)
                (Pixels.computeNumberOfPixels (RnPng._width d) (RnPng._height d)).

(** Metadata the 13-byte header payload can carry and [_applyMetaData]
    accepts. *)
Definition validMetaData (d : RnPng.t) : Prop :=
  0 <= RnPng._width d < 2 ^ 32
  /\ 0 <= RnPng._height d < 2 ^ 32
  /\ (RnPng._depth d = 1 \/ RnPng._depth d = 2
      \/ RnPng._depth d = 4 \/ RnPng._depth d = 8)
  /\ 0 <= RnPng._compression d < 256
  /\ 0 <= RnPng._filter d < 256
  /\ 0 <= RnPng._interlace d < 256.

(** The chunks carry the document's metadata, as they do after the
    constructor and after [from]. *)
Definition chunksAgree (d : RnPng.t) : Prop :=
  RnPng.c_IHDR (RnPng._chunks d) = RnPng.getMetaData d
  /\ IDAT.applyLayoutInformation (RnPng.c_IDAT (RnPng._chunks d)) (layoutOf d)
     = RnPng.c_IDAT (RnPng._chunks d)
  /\ (forall trns, RnPng.c_tRNS (RnPng._chunks d) = Some trns ->
                   TRNS._colorType trns = RnPng._colorType d).

(** The sample buffer covers every pixel, with samples of the bit depth. *)
Definition fullyWritten (d : RnPng.t) : Prop :=
  RnPng._width d * RnPng._height d * Pixels.determineFullPixelSize (RnPng._colorType d)
  <= Z.of_nat (length (pixelDataOf d))
  /\ Forall (sampleInRange (RnPng._depth d)) (pixelDataOf d).

(** Palette entries are byte triples; the alphas of an indexed image are
    bytes. *)
Definition tablesStorable (d : RnPng.t) : Prop :=
  (forall plte, RnPng.c_PLTE (RnPng._chunks d) = Some plte ->
                Forall isByteTriple (PLTE._palette plte)
                /\ 3 * Z.of_nat (length (PLTE._palette plte)) < 2 ^ 32)
  /\ (RnPng.isIndexed d = true ->
      forall trns, RnPng.c_tRNS (RnPng._chunks d) = Some trns ->
                   alphasAreBytes (TRNS._alphas trns)
                   /\ Z.of_nat (length (TRNS._alphas trns)) < 2 ^ 32).

(** The codec on the bytes of this document: the compressed bytes fit the
    predicted payload and [inflate] recovers the input whatever follows the
    compressed bytes. *)
Definition codecFits (deflate inflate : list Z -> list Z) (d : RnPng.t) : Prop :=
  let data := IDAT.pixelAndFilterData (RnPng.c_IDAT (RnPng._chunks d)) in
  Z.of_nat (length (deflate data))
  <= IDAT.calculatePayloadSize (RnPng.c_IDAT (RnPng._chunks d)) (-1)
  /\ forall trailing, inflate (deflate data ++ trailing) = data.

(** The scan of [from] over a buffer that [getBuffer] laid out: every present
    chunk's type sequence is found at the chunk's own type field, and the
    search for an absent chunk finds nothing.  [offset] is where the next
    chunk starts, [startIndex] where the next search starts. *)
Fixpoint scanInPlace (buf : list Z) (chunkTypes : list ChunkHeader)
    (buffers : ChunkHeader -> option (list Z)) (offset startIndex : Z) : bool :=
  match chunkTypes with
  | [] => true
  | H_IEND :: rest => scanInPlace buf rest buffers offset startIndex
  | h :: rest =>
      let found := TypedArray.indexOfSequence buf (ChunkHeaderSequences h) startIndex in
      match buffers h with
      | Some bytes =>
          (found =? offset + 4)
          && scanInPlace buf rest buffers (offset + Z.of_nat (length bytes)) (offset + 8)
      | None => (found =? -1) && scanInPlace buf rest buffers offset startIndex
      end
  end.

Definition headersFoundInPlace (deflate : list Z -> list Z) (crc : list Z -> Z)
    (d : RnPng.t) : bool :=
  scanInPlace (RnPng.getBuffer deflate crc d) SupportedChunks
              (RnPng.chunkBuffer deflate crc d) 8 0.

(** A document as the constructor leaves it: no transparency and no
    background chunk. *)
Definition isFresh (d : RnPng.t) : Prop :=
  RnPng.c_tRNS (RnPng._chunks d) = None /\ RnPng.c_bKGD (RnPng._chunks d) = None.

(** Two documents a reader cannot tell apart through [getPixelAt] inside the
    image. *)
Definition sameView (d d' : RnPng.t) : Prop :=
  RnPng._width d' = RnPng._width d
  /\ RnPng._colorType d' = RnPng._colorType d
  /\ IDAT.fullPixelSize (RnPng.c_IDAT (RnPng._chunks d'))
     = IDAT.fullPixelSize (RnPng.c_IDAT (RnPng._chunks d))
  /\ (let n := Z.to_nat (RnPng._width d * RnPng._height d
                         * Pixels.determineFullPixelSize (RnPng._colorType d)) in
      take n (pixelDataOf d') = take n (pixelDataOf d))
  /\ (PLTE._palette <$> RnPng.c_PLTE (RnPng._chunks d'))
     = (PLTE._palette <$> RnPng.c_PLTE (RnPng._chunks d))
  /\ (RnPng.isIndexed d = true ->
      match RnPng.c_tRNS (RnPng._chunks d'), RnPng.c_tRNS (RnPng._chunks d) with
      | Some t', Some t =>
          forall i, default 255 (TRNS.getValueOf t' i) = default 255 (TRNS.getValueOf t i)
      | None, None => True
      | _, _ => False
      end).

(** ** Example documents *)

Definition defaultOptions : RnPng.Options := RnPng.mkOptions None None None None.

(** [new RnPng()] *)
Definition freshDocument : RnPng.t :=
  Eval vm_compute in orBlank (RnPng.new defaultOptions).

(** A 1x1 indexed document with palette [[255,0,0],[1,2,3]], its pixel set to
    (1,2,3) with opacity 77. *)
Definition indexedDoc : RnPng.t :=
  Eval vm_compute in
    orBlank (RnPng.setPixelAt redDoc (XY 0 0) (Array [1; 2; 3; 77])).

(** The 2x1 truecolor document with pixels (1,2,3) and (4,5,6). *)
Definition numberedDoc : RnPng.t :=
  Eval vm_compute in
    orBlank (do d <- RnPng.setPixelAt truecolorDoc (XY 0 0) (Array [1; 2; 3]);
             RnPng.setPixelAt d (XY 1 0) (Array [4; 5; 6])).

(** The 2x1 truecolor document with pixels (80,76,84) and (69,0,0): its
    first four samples are the ASCII codes of "PLTE". *)
Definition plteSpellingDoc : RnPng.t :=
  Eval vm_compute in
    orBlank (do d <- RnPng.setPixelAt truecolorDoc (XY 0 0) (Array [80; 76; 84]);
             RnPng.setPixelAt d (XY 1 0) (Array [69; 0; 0])).

(** The options of a truecolor document of height 0 whose width is
    0x504c5445: as the four bytes of the header field, "PLTE". *)
Definition plteWideOptions : RnPng.Options :=
  RnPng.mkOptions (Some 1347179589) (Some 0) (Some 8) (Some 2).

(** The pixel-data chunk of a fresh 1x1 grayscale document. *)
Definition onePixelChunk : IDAT.t := IDAT.new (IDAT.mkLayout 1 1 8 GRAYSCALE 1).

(** That chunk once [_loadChunk] has applied the layout of a header that
    declares width = height = 2^32 - 1 and truecolor with alpha. *)
Definition widestLayoutChunk : IDAT.t :=
  IDAT.applyLayoutInformation onePixelChunk
    (IDAT.mkLayout (2 ^ 32 - 1) (2 ^ 32 - 1) 8 TRUECOLOR_AND_ALPHA
       (Pixels.computeNumberOfPixels (2 ^ 32 - 1) (2 ^ 32 - 1))).

(** A 2x2 indexed document of depth 8 whose pixel (0,0) was set to red, and
    the same document with its pixel (1,1) set to green as well. *)
Definition redCornerDoc : RnPng.t :=
  Eval vm_compute in
    orBlank (do d <- RnPng.new (RnPng.mkOptions (Some 2) (Some 2) (Some 8) (Some 3));
             RnPng.setPixelAt d (XY 0 0) (Array [255; 0; 0])).

Definition twoCornersDoc : RnPng.t :=
  Eval vm_compute in
    orBlank (RnPng.setPixelAt redCornerDoc (XY 1 1) (Array [0; 255; 0])).

(** ** chunks/idat: the data readers and the checksum routine *)

(** A JavaScript number as the checksum loop handles it: an integer, or
    [NaN] once [undefined] has entered a sum. *)
Inductive JsNumber :=
| NaN
| Num (z : Z).

Definition jsAdd (a b : JsNumber) : JsNumber :=
  match a, b with
  | Num x, Num y => Num (x + y)
  | _, _ => NaN
  end.

(** [a + arr[i]]: a read outside a typed array is [undefined], and a sum
    with [undefined] is [NaN]. *)
Definition jsAddSample (a : JsNumber) (sample : option Z) : JsNumber :=
  match sample with
  | Some v => jsAdd a (Num v)
  | None => NaN
  end.

(** [a % m]: the remainder takes the sign of the dividend. *)
Definition jsRem (a : JsNumber) (m : Z) : JsNumber :=
  match a with
  | Num x => if m =? 0 then NaN else Num (Z.rem x m)
  | NaN => NaN
  end.

(** [new Set(values)]: the distinct values in the order of their first
    occurrence. *)
Definition newSet (values : list Z) : list Z :=
  fold_left (fun acc v => if existsb (Z.eqb v) acc then acc else acc ++ [v])
            values [].

(** One insertion of the stable sort under the comparator [(a, b) => a - b]:
    [v] goes behind every entry that does not exceed it. *)
Fixpoint insertAscending (v : Z) (sorted : list Z) : list Z :=
  match sorted with
  | [] => [v]
  | x :: rest => if v - x <? 0 then v :: x :: rest else x :: insertAscending v rest
  end.

(** [values.sort((a, b) => a - b)] *)
Definition sortAscending (values : list Z) : list Z :=
  fold_left (fun acc v => insertAscending v acc) values [].

Module IDATReaders.
Import IDAT.

Definition ADLER_BASE : Z := 65521.
Definition ADLER_NMAX : Z := 5552.

(** [getData(inRgbaFormat)]: the argument is not used. *)
Definition getData (c : t) : list Z := _pixelData c.

(** [getPixelPaletteIndices()]; the returned [Set] is listed in its
    iteration order. *)
Definition getPixelPaletteIndices (c : t) : list Z :=
  if negb (ColorType_eqb (_colorType c) INDEXED) then []
  else newSet (sortAscending (newSet (_pixelData c))).

(** The variables [s1], [s2] and [n] of [calculateAdler32]. *)
Record AdlerState := mkAdler {
  s1 : JsNumber;
  s2 : JsNumber;
  n : Z
}.

(** The body of the inner loop of [calculateAdler32] at column [x] of row
    [y]. *)
Definition adlerStep (c : t) (st : AdlerState) (x y : Z) : AdlerState :=
  let s1' := jsAddSample (s1 st) (readAt (_pixelData c) (translateXyToIndex c x y)) in
  let s2' := jsAdd (s2 st) s1' in
  let n' := n st - 1 in
  if n' =? 0
  then mkAdler (jsRem s1' ADLER_BASE) (jsRem s2' ADLER_BASE) ADLER_NMAX
  else mkAdler s1' s2' n'.

(** [for (let x = -1; x < this._width; x++)]; [remaining] counts the
    iterations left. *)
Fixpoint adlerColumns (c : t) (remaining : nat) (x y : Z) (st : AdlerState)
    : AdlerState :=
  match remaining with
  | O => st
  | S k => adlerColumns c k (x + 1) y (adlerStep c st x y)
  end.

(** [for (let y = 0; y < this._height; y++)] *)
Fixpoint adlerRows (c : t) (remaining : nat) (y : Z) (st : AdlerState)
    : AdlerState :=
  match remaining with
  | O => st
  | S k =>
      adlerRows c k (y + 1) (adlerColumns c (Z.to_nat (_width c + 1)) (-1) y st)
  end.

(** [calculateAdler32()]; the result is the pair [[s1, s2]]. *)
Definition calculateAdler32 (c : t) : JsNumber * JsNumber :=
  let st := adlerRows c (Z.to_nat (_height c)) 0 (mkAdler (Num 1) (Num 0) ADLER_NMAX) in
  (jsRem (s1 st) ADLER_BASE, jsRem (s2 st) ADLER_BASE).

End IDATReaders.

(** ** index.js: the remaining operations of the document *)

Module Document.
Import RnPng.

Definition isGrayscaleWithAlpha (d : t) : bool :=
  ColorType_eqb (_colorType d) GRAYSCALE_AND_ALPHA.

Definition isTruecolorWithAlpha (d : t) : bool :=
  ColorType_eqb (_colorType d) TRUECOLOR_AND_ALPHA.

Definition getTransparencies (d : t) : list (list Z) :=
  match c_tRNS (_chunks d) with
  | Some trns => TRNS.getTransparencies trns
  | None => []
  end.

(** [removeTransparencies()]: [delete _chunks.get(this).tRNS] *)
Definition removeTransparencies (d : t) : t := settRNS d None.

(** [removeBackground()]: [delete _chunks.get(this).bKGD] *)
Definition removeBackground (d : t) : t := setbKGD d None.

Definition setPaletteColorOf (d : t) (index : Z) (colorData : list Z) : Result t :=
  match c_PLTE (_chunks d) with
  | None => Err NoPalette
  | Some plte => Ok (setPLTE d (Some (PLTE.setColorOf plte index colorData)))
  end.

(** The callback of [data.reduce] in [getOpacities]: every
    [numberOfSamples]-th entry is kept. *)
Fixpoint reduceOpacities (numberOfSamples : Z) (data : list Z) (ind : Z)
    (acc : list Z) : list Z :=
  match data with
  | [] => acc
  | curr :: rest =>
      reduceOpacities numberOfSamples rest (ind + 1)
        (if (ind + 1) mod numberOfSamples =? 0 then acc ++ [curr] else acc)
  end.

Section WithPaletteConversion.
(** [convertToPixels] of chunks/plte is external to the sources at hand.
    Only whether it throws is visible here: [getData] of the pixel-data chunk
    returns the sample buffer whatever it is handed. *)
Variable convertToPixels : PLTE.t -> Result unit.

Definition getData (d : t) : Result (list Z) :=
  do _ <- (if isIndexed d
           then match c_PLTE (_chunks d) with
                | Some plte => convertToPixels plte
                | None => Err TypeError
                end
           else Ok tt);
  Ok (IDATReaders.getData (c_IDAT (_chunks d))).

(** [getOpacities()]; the array of the second branch has one entry per
    pixel. *)
Definition getOpacities (d : t) : Result (list Z) :=
  if isGrayscaleWithAlpha d || isTruecolorWithAlpha d then
    do data <- getData d;
    let numberOfSamples := Pixels.determinePixelColorSize (_colorType d) + 1 in
    Ok (reduceOpacities numberOfSamples data 0 [])
  else
    Ok (replicate (Z.to_nat (Pixels.computeNumberOfPixels (_width d) (_height d))) 255).

End WithPaletteConversion.

End Document.

(** ** Predicates of the further statements *)

(** Each entry is smaller than every later one. *)
Definition strictlyAscending (l : list Z) : Prop :=
  forall (i j : nat) (a b : Z),
    (i < j)%nat -> l !! i = Some a -> l !! j = Some b -> a < b.

(** A background chunk as its constructor sizes it: one stored sample per
    background sample of the color type. *)
Definition backgroundSized (c : BKGD.t) : Prop :=
  Z.of_nat (length (BKGD._backgroundColor c))
  = Pixels.determineBackgroundSamplesPerEntry (BKGD._colorType c).

(** The depths and the color-type codes that [_applyMetaData] lets pass. *)
Definition acceptedDepth (depth : Z) : Prop :=
  depth = 1 \/ depth = 2 \/ depth = 4 \/ depth = 8.

Definition acceptedColorTypeCode (code : Z) : Prop :=
  code = 0 \/ code = 2 \/ code = 3 \/ code = 4 \/ code = 6.

(** The coordinates lie inside the image. *)
Definition insideImage (d : RnPng.t) (x y : Z) : Prop :=
  0 <= x < RnPng._width d /\ 0 <= y < RnPng._height d.

(** The sample buffer holds a sample for every pixel of the image. *)
Definition bufferCoversImage (d : RnPng.t) : Prop :=
  RnPng._width d * RnPng._height d * Pixels.determineFullPixelSize (RnPng._colorType d)
  <= Z.of_nat (length (pixelDataOf d)).

(** A list in ascending order. *)
Fixpoint ascending (l : list Z) : Prop :=
  match l with
  | [] => True
  | x :: rest => Forall (Z.le x) rest /\ ascending rest
  end.

(** The optional chunk of kind [slot] is the same in both documents. *)
Definition slotKept (slot : ChunkHeader) (d d' : RnPng.t) : Prop :=
  match slot with
  | H_PLTE => RnPng.c_PLTE (RnPng._chunks d') = RnPng.c_PLTE (RnPng._chunks d)
  | H_tRNS => RnPng.c_tRNS (RnPng._chunks d') = RnPng.c_tRNS (RnPng._chunks d)
  | H_bKGD => RnPng.c_bKGD (RnPng._chunks d') = RnPng.c_bKGD (RnPng._chunks d)
  | _ => True
  end.

(** The mutators of the document. *)
Inductive Mutation :=
| SetPixelAt (pos : Pos) (data : Data)
| SetOpacityAt (pos : Pos) (value : Z)
| SetTransparency (value : Data) (index : Z)
| RemoveTransparency (colorData : list Z)
| RemoveTransparencies
| SetBackground (colorData : list Z)
| RemoveBackground
| SetPaletteColorOf (index : Z) (colorData : list Z).

Definition mutate (d : RnPng.t) (m : Mutation) : Result RnPng.t :=
  match m with
  | SetPixelAt pos data => RnPng.setPixelAt d pos data
  | SetOpacityAt pos value => RnPng.setOpacityAt d pos value
  | SetTransparency value index => Ok (RnPng.setTransparency d value index)
  | RemoveTransparency colorData => RnPng.removeTransparency d colorData
  | RemoveTransparencies => Ok (Document.removeTransparencies d)
  | SetBackground colorData => RnPng.setBackground d colorData
  | RemoveBackground => Ok (Document.removeBackground d)
  | SetPaletteColorOf index colorData => Document.setPaletteColorOf d index colorData
  end.

(** A chain of calls [d.m1(...).m2(...)...]; it stops at the first call
    that throws. *)
Definition mutateAll (d : RnPng.t) (ms : list Mutation) : Result RnPng.t :=
  fold_left (fun acc m => do d' <- acc; mutate d' m) ms (Ok d).

(* ================================================================== *)
(** * Properties *)

(** Digit arithmetic of one packed byte at bit depth [n]. *)
Ltac unpack_arith n :=
  unfold TypedArray.unpackByte, TypedArray.packGroup, TypedArray.samplesPerByte;
  let k := eval vm_compute in (Z.to_nat (8 / n)) in
  change (Z.to_nat (8 / n)) with k;
  cbn [seq map fold_left Nat.sub];
  repeat match goal with
         | |- context [2 ^ ?e] =>
             let v := eval vm_compute in (2 ^ e) in change (2 ^ e) with v
         end;
  repeat f_equal; Z.div_mod_to_equations; lia.

(** Closed arithmetic side conditions on concrete documents. *)
Ltac by_compute :=
  vm_compute; repeat split; solve [reflexivity | intro; discriminate | lia].

(** ** Size prediction of the pixel-data chunk *)

Lemma floor_is_ceil (P : Z) : (0xfffe + P) / 0xffff = ceil_div P 65535.
Proof.
  unfold ceil_div.
  pose proof (Z.div_mod P 65535 ltac:(lia)) as Hdm.
  pose proof (Z.mod_pos_bound P 65535 ltac:(lia)) as Hb.
  destruct (Z.eqb_spec (P mod 65535) 0) as [E|E]; symmetry.
  - apply (Z.div_unique (65534 + P) 65535 (P / 65535) 65534); lia.
  - apply (Z.div_unique (65534 + P) 65535 (P / 65535 + 1) (P mod 65535 - 1)); lia.
Qed.

(** The exact prediction: in integers the payload size is
    2 + P + 5 * ceil(P / 65535) + 4 for the chunk's own size P. *)
Lemma calculatePayloadSize_exact (c : IDAT.t) :
  IDAT.calculatePayloadSize c (-1)
  = 2 + IDAT.calculatePixelAndFilterSize c
    + 5 * ceil_div (IDAT.calculatePixelAndFilterSize c) 65535 + 4.
Proof.
  unfold IDAT.calculatePayloadSize. simpl (_ =? _). cbv iota.
  rewrite floor_is_ceil. reflexivity.
Qed.

(** *** Rounding leaves the integers below 2^53 alone *)

Lemma roundToDouble_exact (x : Z) : Z.abs x < 2 ^ 53 -> roundToDouble x = Some x.
Proof.
  intros Hx. unfold roundToDouble.
  destruct (Z.ltb_spec (Z.abs x) (2 ^ 53)) as [_|]; [|lia].
  assert (H1024 : 2 ^ 53 < 2 ^ 1024) by (apply Z.pow_lt_mono_r; lia).
  destruct (Z.ltb_spec (Z.abs x) (2 ^ 1024)); [|lia].
  f_equal. rewrite Z.mul_comm. apply Z.abs_sgn.
Qed.

Lemma roundHalfEven_cases (n d : Z) :
  roundHalfEven n d = n / d
  \/ (roundHalfEven n d = n / d + 1 /\ d <= 2 * (n mod d)).
Proof.
  unfold roundHalfEven.
  destruct (Z.ltb_spec (2 * (n mod d)) d); [now left|].
  destruct (Z.ltb_spec d (2 * (n mod d))); [right; split; [reflexivity|lia]|].
  destruct (Z.even (n / d)); [now left|right; split; [reflexivity|lia]].
Qed.

(** Rounding the quotient at a scale [s] with [b < 2 * s] does not carry it
    to the next integer: the floor of the rounded quotient is the floor of
    the quotient. *)
Lemma floor_of_rounded_quotient (n b s : Z) :
  0 <= n -> 0 < b -> 0 < s -> b < 2 * s ->
  roundHalfEven (n * s) b / s = n / b.
Proof.
  intros Hn Hb Hs Hbs.
  pose proof (Z.div_mod n b ltac:(lia)) as Hq.
  pose proof (Z.mod_pos_bound n b Hb) as Hr.
  pose proof (Z.div_mod (n * s) b ltac:(lia)) as HQ.
  pose proof (Z.mod_pos_bound (n * s) b Hb) as HR.
  set (q := n / b) in *. set (r := n mod b) in *.
  set (Q := (n * s) / b) in *. set (R := (n * s) mod b) in *.
  assert (Hq0 : 0 <= q) by (subst q; apply Z.div_pos; lia).
  assert (Hlow : q * s <= Q).
  { assert (q * s * b <= Q * b + R) by nia.
    assert (q * s * b < (Q + 1) * b) by lia.
    apply Z.lt_succ_r. apply (Z.mul_lt_mono_pos_r b); lia. }
  assert (Hup0 : Q < (q + 1) * s).
  { assert (Q * b <= n * s) by lia.
    assert (n * s < (q + 1) * s * b) by nia.
    apply (Z.mul_lt_mono_pos_r b); lia. }
  assert (Hm : q * s <= roundHalfEven (n * s) b < (q + 1) * s).
  { destruct (roundHalfEven_cases (n * s) b) as [-> | [-> Hhalf]].
    - fold Q. lia.
    - fold Q. fold R in Hhalf. split; [lia|].
      assert (n * s <= (q + 1) * b * s - s) by nia.
      assert (2 * (Q * b) <= 2 * ((q + 1) * b * s) - 2 * s - b) by lia.
      assert (Q * b < ((q + 1) * s - 1) * b) by nia.
      assert (Q < (q + 1) * s - 1) by (apply (Z.mul_lt_mono_pos_r b); lia).
      lia. }
  symmetry. apply (Z.div_unique _ s q (roundHalfEven (n * s) b - q * s)); lia.
Qed.

(** [Math.floor(a / 0xffff)] is the integer quotient for 0 <= a < 2^53. *)
Lemma numFloorDiv_exact (a : Z) :
  0 <= a < 2 ^ 53 -> numFloorDiv (Some a) 0xffff = Some (a / 0xffff).
Proof.
  intros [H0 Hlt]. unfold numFloorDiv.
  destruct (Z.eqb_spec a 0) as [->|Hne]; [reflexivity|].
  assert (Hpos : 0 < a) by lia.
  rewrite (Z.abs_eq a) by lia. cbv zeta.
  destruct (Z.ltb_spec 0 a); [|lia].
  assert (Hlog : Z.log2 a <= 52).
  { assert (Z.log2 a < 53); [|lia]. apply Z.log2_lt_pow2; lia. }
  assert (He : quotientExponent a 65535 <= -15).
  { unfold quotientExponent. change (Z.log2 65535) with 15.
    cbv zeta. destruct (_ <? _); lia. }
  set (e := quotientExponent a 65535) in *.
  unfold scaleQuotient.
  destruct (Z.leb_spec 0 e); [lia|]. cbn [fst snd].
  assert (Hs : 2 ^ 15 <= 2 ^ (- e)) by (apply Z.pow_le_mono_r; lia).
  change (2 ^ 15) with 32768 in Hs.
  f_equal. apply floor_of_rounded_quotient; lia.
Qed.

Lemma ceil_div_bounds (P : Z) :
  0 <= P -> 0 <= ceil_div P 65535 <= P /\ 65535 * ceil_div P 65535 <= P + 65534.
Proof.
  intros HP. unfold ceil_div.
  destruct (Z.eqb_spec (P mod 65535) 0); Z.div_mod_to_equations; lia.
Qed.

(** The block count and the payload size for a pixel-and-filter size passed
    as the argument, up to 2^52. *)
Lemma calculatePayloadSize_of_argument (c : IDAT.t) (P : Z) :
  0 <= P <= 2 ^ 52 ->
  numMul (Some 5) (numFloorDiv (numAdd (Some 0xfffe) (Some P)) 0xffff)
  = Some (5 * ceil_div P 65535)
  /\ IDATNumber.calculatePayloadSize c (Some P)
     = Some (2 + P + 5 * ceil_div P 65535 + 4).
Proof.
  intros [H0 HP].
  change (2 ^ 52) with 4503599627370496 in HP.
  assert (E53 : 2 ^ 53 = 9007199254740992) by reflexivity.
  pose proof (ceil_div_bounds P H0) as [Hc Hc2].
  assert (Hfl : numFloorDiv (numAdd (Some 0xfffe) (Some P)) 0xffff
                = Some (ceil_div P 65535)).
  { unfold numAdd. rewrite roundToDouble_exact by (rewrite E53; lia).
    rewrite numFloorDiv_exact by (rewrite E53; lia).
    now rewrite floor_is_ceil. }
  assert (Hmul : numMul (Some 5) (Some (ceil_div P 65535))
                 = Some (5 * ceil_div P 65535)).
  { unfold numMul. apply roundToDouble_exact. rewrite E53. lia. }
  split; [now rewrite Hfl|].
  unfold IDATNumber.calculatePayloadSize.
  assert (Hs : match Some P with
               | Some (-1) => IDATNumber.calculatePixelAndFilterSize c
               | _ => Some P
               end = Some P).
  { destruct P as [|p|p]; try reflexivity. lia. }
  unfold IDAT.DEFLATE_BLOCKS_SIZE, IDAT.ZLIB_HEADER_SIZE, IDAT.ADLER_CHECKSUM_SIZE.
  rewrite Hs, Hfl, Hmul. unfold numAdd.
  rewrite roundToDouble_exact by (rewrite E53; lia).
  rewrite roundToDouble_exact by (rewrite E53; lia).
  rewrite roundToDouble_exact by (rewrite E53; lia).
  reflexivity.
Qed.

(** The chunk's own pixel-and-filter size, when a row and the whole stay up
    to 2^52. *)
Lemma calculatePixelAndFilterSize_in_range (c : IDAT.t) :
  0 <= IDAT._width c -> 0 <= IDAT._height c ->
  0 <= IDAT._pixelColorSize c <= 2 ^ 52 ->
  IDAT._width c * IDAT.fullPixelSize c + 1 <= 2 ^ 52 ->
  IDAT.calculatePixelAndFilterSize c <= 2 ^ 52 ->
  IDATNumber.calculatePixelAndFilterSize c = Some (IDAT.calculatePixelAndFilterSize c).
Proof.
  unfold IDAT.calculatePixelAndFilterSize, IDATNumber.calculatePixelAndFilterSize,
    IDATNumber.fullPixelSize, IDAT.fullPixelSize.
  set (a := if IDAT._hasAlphaSample c then 1 else 0).
  assert (Ha : 0 <= a <= 1) by (subst a; destruct (IDAT._hasAlphaSample c); lia).
  change (2 ^ 52) with 4503599627370496.
  assert (E53 : 2 ^ 53 = 9007199254740992) by reflexivity.
  intros Hw Hh Hs Hrow HP.
  assert (0 <= IDAT._width c * (IDAT._pixelColorSize c + a)) by nia.
  assert (0 <= (IDAT._width c * (IDAT._pixelColorSize c + a) + 1) * IDAT._height c) by nia.
  unfold numAdd, numMul.
  rewrite roundToDouble_exact by (rewrite E53; lia).
  rewrite roundToDouble_exact by (rewrite E53; lia).
  rewrite roundToDouble_exact by (rewrite E53; lia).
  apply roundToDouble_exact. rewrite E53. lia.
Qed.




(** At sizes in the exact range the binary64 numbers of the kernel, the
    rounding model and the exact integers agree. *)
Lemma sizes_agree_on_examples :
  Forall (fun c : IDAT.t =>
            IDATFloat.toInteger (IDATFloat.calculatePayloadSize c (-1))
            = IDATNumber.calculatePayloadSize c (Some (-1))
            /\ IDATNumber.calculatePayloadSize c (Some (-1))
               = Some (IDAT.calculatePayloadSize c (-1)))
         [onePixelChunk;
          IDAT.applyLayoutInformation onePixelChunk (IDAT.mkLayout 0 0 8 INDEXED 0);
          IDAT.applyLayoutInformation onePixelChunk (IDAT.mkLayout 640 480 8 TRUECOLOR 307200);
          IDAT.applyLayoutInformation onePixelChunk
            (IDAT.mkLayout 65535 65535 8 TRUECOLOR_AND_ALPHA 4294836225);
          IDAT.applyLayoutInformation onePixelChunk
            (IDAT.mkLayout 21845 1 1 GRAYSCALE_AND_ALPHA 21845)].
Proof. repeat constructor; vm_compute; reflexivity. Qed.

(** ** Arity validation of [setPixelAt] *)

Lemma removeTransparency_not_insufficient (d : RnPng.t) (colorData : list Z) :
  RnPng.removeTransparency d colorData <> Err InsufficientSamples.
Proof.
  unfold RnPng.removeTransparency.
  destruct (RnPng.c_tRNS _); [|discriminate].
  destruct (RnPng.isIndexed d); [|discriminate].
  destruct (RnPng.c_PLTE _); discriminate.
Qed.

Lemma addColor_not_insufficient (plte : PLTE.t) (color : list Z) :
  PLTE.addColor plte color <> Err InsufficientSamples.
Proof. unfold PLTE.addColor. destruct (_ <? _); discriminate. Qed.

(** C6: [setPixelAt(pos, data)] fails with InsufficientSamples exactly when
    [data] has fewer samples than the required tuple length, which is 3 for
    an indexed image and determineFullPixelSize(colorType) otherwise; once the
    check passes, the arity validation raises nothing. *)
Theorem setPixelAt_InsufficientSamples_iff (d : RnPng.t) (pos : Pos) (data : Data) :
  RnPng.setPixelAt d pos data = Err InsufficientSamples
  <-> Z.of_nat (length (samplesOf data))
      < (if RnPng.isIndexed d then 3
         else Pixels.determineFullPixelSize (RnPng._colorType d)).
Proof.
  unfold RnPng.setPixelAt, RnPng.requiredSamples.
  set (req := if RnPng.isIndexed d then 3 else _).
  destruct (Z.ltb_spec (Z.of_nat (length (samplesOf data))) req) as [Hlt|Hge].
  - split; [intros _; exact Hlt | reflexivity].
  - split; [|lia]. intros H. exfalso.
    destruct (RnPng.hasAlphaChannel d); [discriminate|].
    destruct (RnPng.isIndexed d).
    + destruct (RnPng.c_PLTE _) as [plte|]; [|discriminate].
      destruct (PLTE.isColorInPalette plte _).
      * cbn in H. destruct (if _ <? _ then _ else _); discriminate.
      * pose proof (addColor_not_insufficient plte
                      (slice0 req (slice0 (req + 1) (samplesOf data)))) as Hadd.
        destruct (PLTE.addColor plte _) as [r|e]; cbn in H.
        -- destruct (if _ <? _ then _ else _); discriminate.
        -- congruence.
    + destruct (if _ <? _ then _ else _) as [o|]; [|discriminate].
      destruct (_ && _); [|discriminate].
      eapply removeTransparency_not_insufficient; eassumption.
Qed.

(** ** Palette lookups *)

Lemma getColorOf_lookup (plte : PLTE.t) (i : Z) :
  0 <= i < Z.of_nat (length (PLTE._palette plte)) ->
  exists color, PLTE._palette plte !! Z.to_nat i = Some color
                /\ PLTE.getColorOf plte i = Ok color.
Proof.
  intros [H0 Hlt]. unfold PLTE.getColorOf.
  destruct (Z.leb_spec (Z.of_nat (length (PLTE._palette plte))) i); [lia|].
  destruct (Z.ltb_spec i 0); [lia|].
  destruct (lookup_lt_is_Some_2 (PLTE._palette plte) (Z.to_nat i)) as [color Hc]; [lia|].
  exists color. now rewrite Hc.
Qed.

(** C7: [getPaletteIndexAt] and [getPaletteColorAt] fail with NoPalette when
    no palette chunk is present, fail with IndexOutOfRange when the index
    stored in the sample buffer at the resolved position is at or beyond the
    palette length, and otherwise [getPaletteColorAt] returns the palette
    entry at the stored index. *)
Theorem getPaletteColorAt_cases (d : RnPng.t) (pos : Pos) :
  (RnPng.c_PLTE (RnPng._chunks d) = None ->
     RnPng.getPaletteIndexAt d pos = Err NoPalette
     /\ RnPng.getPaletteColorAt d pos = Err NoPalette)
  /\ (forall plte i,
        RnPng.c_PLTE (RnPng._chunks d) = Some plte ->
        IDATAccess.getValueAt (RnPng.c_IDAT (RnPng._chunks d)) (RnPng.resolvePos d pos)
          = Some i ->
        Z.of_nat (length (PLTE.getPalette plte)) <= i ->
        RnPng.getPaletteIndexAt d pos = Err IndexOutOfRange
        /\ RnPng.getPaletteColorAt d pos = Err IndexOutOfRange)
  /\ (forall plte i,
        RnPng.c_PLTE (RnPng._chunks d) = Some plte ->
        IDATAccess.getValueAt (RnPng.c_IDAT (RnPng._chunks d)) (RnPng.resolvePos d pos)
          = Some i ->
        0 <= i < Z.of_nat (length (PLTE.getPalette plte)) ->
        RnPng.getPaletteIndexAt d pos = Ok (Some i)
        /\ exists color,
             PLTE.getPalette plte !! Z.to_nat i = Some color
             /\ RnPng.getPaletteColorAt d pos = Ok (PTuple color)).
Proof.
  unfold RnPng.getPaletteColorAt, RnPng.getPaletteIndexAt, RnPng.getPalette.
  split; [|split].
  - intros ->. split; reflexivity.
  - intros plte i Hp Hv Hr. rewrite Hp, Hv. cbn.
    destruct (Z.leb_spec (Z.of_nat (length (PLTE.getPalette plte))) i); [|lia].
    split; reflexivity.
  - intros plte i Hp Hv Hr. rewrite Hp, Hv. cbn.
    destruct (Z.leb_spec (Z.of_nat (length (PLTE.getPalette plte))) i); [lia|].
    split; [reflexivity|].
    cbn. destruct (getColorOf_lookup plte i Hr) as [color [Hl Hc]].
    exists color. split; [exact Hl|]. now rewrite Hc.
Qed.

Lemma getPaletteColorAt_cases_witness :
  RnPng.getPaletteIndexAt truecolorDoc (XY 0 0) = Err NoPalette
  /\ RnPng.getPaletteColorAt truecolorDoc (XY 0 0) = Err NoPalette
  /\ RnPng.getPaletteIndexAt redDoc (XY 0 0) = Ok (Some 0)
  /\ exists color,
       PLTE.getPalette (PLTE.mk 256 [[255; 0; 0]]) !! Z.to_nat 0 = Some color
       /\ RnPng.getPaletteColorAt redDoc (XY 0 0) = Ok (PTuple color).
Proof.
  destruct (getPaletteColorAt_cases truecolorDoc (XY 0 0)) as (Hnone & _ & _).
  destruct (getPaletteColorAt_cases redDoc (XY 0 0)) as (_ & _ & Hin).
  destruct (Hnone eq_refl) as [H1 H2].
  destruct (Hin (PLTE.mk 256 [[255; 0; 0]]) 0 eq_refl eq_refl ltac:(cbn; lia))
    as [H3 H4].
  split; [exact H1|]. split; [exact H2|]. split; [exact H3|exact H4].
Defined.

(** ** Background *)

(** The table after [setColorOf(0, color)]: the color, followed by the
    entries that came after entry 0. *)
Lemma setColorOf_first (plte : PLTE.t) (color : list Z) :
  PLTE.getPalette (PLTE.setColorOf plte 0 color) = color :: tail (PLTE.getPalette plte).
Proof.
  unfold PLTE.setColorOf, PLTE.getPalette. cbn.
  destruct (PLTE._palette plte); reflexivity.
Qed.

(** [setColorOf] at an index below the length replaces that entry. *)
Lemma setColorOf_in_range (plte : PLTE.t) (index : Z) (color : list Z) :
  0 <= index < Z.of_nat (length (PLTE.getPalette plte)) ->
  PLTE.setColorOf plte index color
  = PLTE.mk (PLTE._maxNumberOfColors plte)
            (<[Z.to_nat index := color]> (PLTE.getPalette plte)).
Proof.
  unfold PLTE.setColorOf, PLTE.getPalette. intros [H0 Hlt].
  destruct (Z.ltb_spec index 0); [lia|]. cbv zeta.
  destruct (Nat.ltb_spec (Z.to_nat index) (length (PLTE._palette plte))); [reflexivity|lia].
Qed.

(** C9: with a palette chunk and no background chunk, [setBackground]
    overwrites palette entry 0 only: the palette chunk receives
    [setColorOf(0, colorData)], after which entry 0 holds the color; no bKGD
    chunk is added, every other chunk and the metadata are unchanged, every
    palette entry other than index 0 is unchanged, and [getBackground()] still
    returns undefined. *)
Theorem setBackground_palette_alias (d : RnPng.t) (plte : PLTE.t) (colorData : list Z) :
  RnPng.c_PLTE (RnPng._chunks d) = Some plte ->
  RnPng.c_bKGD (RnPng._chunks d) = None ->
  exists d',
    let plte' := PLTE.setColorOf plte 0 colorData in
    RnPng.setBackground d colorData = Ok d'
    /\ RnPng.c_PLTE (RnPng._chunks d') = Some plte'
    /\ RnPng.c_bKGD (RnPng._chunks d') = None
    /\ RnPng.c_IHDR (RnPng._chunks d') = RnPng.c_IHDR (RnPng._chunks d)
    /\ RnPng.c_tRNS (RnPng._chunks d') = RnPng.c_tRNS (RnPng._chunks d)
    /\ RnPng.c_IDAT (RnPng._chunks d') = RnPng.c_IDAT (RnPng._chunks d)
    /\ RnPng.getMetaData d' = RnPng.getMetaData d
    /\ PLTE.getPalette plte' !! 0%nat = Some colorData
    /\ (forall i, i <> 0%nat -> PLTE.getPalette plte' !! i = PLTE.getPalette plte !! i)
    /\ length (PLTE.getPalette plte') = Nat.max 1 (length (PLTE.getPalette plte))
    /\ PLTE._maxNumberOfColors plte' = PLTE._maxNumberOfColors plte
    /\ RnPng.getBackground d' = None.
Proof.
  intros Hp Hb.
  exists (RnPng.setPLTE d (Some (PLTE.setColorOf plte 0 colorData))).
  cbv zeta. rewrite setColorOf_first.
  unfold RnPng.setBackground, RnPng.getBackground. rewrite Hp, Hb.
  cbn -[PLTE.setColorOf PLTE.getPalette Nat.max lookup].
  rewrite Hb. repeat (split; [reflexivity|]).
  split; [|split; [|split; reflexivity]].
  - intros [|i] Hi; [congruence|].
    destruct (PLTE.getPalette plte); reflexivity.
  - destruct (PLTE.getPalette plte); reflexivity.
Qed.

Lemma setBackground_palette_alias_witness :
  (exists d',
     RnPng.setBackground
       (RnPng.setPLTE RnPng.blank (Some (PLTE.mk 256 [[1; 2; 3]; [4; 5; 6]]))) [9; 9; 9]
     = Ok d'
     /\ RnPng.getPalette d' = Ok [[9; 9; 9]; [4; 5; 6]]
     /\ RnPng.getBackground d' = None)
  /\ (exists d',
        RnPng.setBackground freshDocument [9; 9; 9] = Ok d'
        /\ RnPng.getPalette d' = Ok [[9; 9; 9]]
        /\ RnPng.getBackground d' = None).
Proof.
  split.
  - destruct (setBackground_palette_alias
                (RnPng.setPLTE RnPng.blank (Some (PLTE.mk 256 [[1; 2; 3]; [4; 5; 6]])))
                (PLTE.mk 256 [[1; 2; 3]; [4; 5; 6]]) [9; 9; 9] eq_refl eq_refl)
      as (d' & Hs & Hp & _ & _ & _ & _ & _ & _ & _ & _ & _ & Hbg).
    exists d'. split; [exact Hs|]. split; [|exact Hbg].
    unfold RnPng.getPalette. rewrite Hp. reflexivity.
  - destruct (setBackground_palette_alias freshDocument (PLTE.mk 256 []) [9; 9; 9]
                eq_refl eq_refl)
      as (d' & Hs & Hp & _ & _ & _ & _ & _ & _ & _ & _ & _ & Hbg).
    exists d'. split; [exact Hs|]. split; [|exact Hbg].
    unfold RnPng.getPalette. rewrite Hp. reflexivity.
Defined.

(** ** Loading a background chunk *)

Lemma writeTuple_length (vs arr : list Z) (i : Z) :
  length (writeTuple arr i vs) = length arr.
Proof.
  revert arr i. induction vs as [|v vs IH]; intros arr i; cbn; [reflexivity|].
  rewrite IH. unfold writeAt. destruct (i <? 0); [reflexivity|apply length_insert].
Qed.

Lemma writeTuple_replicate (n : nat) (v : Z) (arr : list Z) :
  length arr = n -> writeTuple arr 0 (replicate n v) = replicate n (clamp8 v).
Proof.
  assert (G : forall (m : nat) (pre arr' : list Z),
             length arr' = m ->
             writeTuple (pre ++ arr') (Z.of_nat (length pre)) (replicate m v)
             = pre ++ replicate m (clamp8 v)).
  { induction m as [|m IH]; intros pre arr' Hl.
    - destruct arr'; [reflexivity|discriminate].
    - destruct arr' as [|a arr']; [discriminate|]. cbn [replicate writeTuple].
      unfold writeAt. destruct (Z.ltb_spec (Z.of_nat (length pre)) 0); [lia|].
      rewrite Nat2Z.id.
      replace (<[length pre := clamp8 v]> (pre ++ a :: arr'))
        with ((pre ++ [clamp8 v]) ++ arr').
      2:{ rewrite insert_app_r_alt by lia. rewrite Nat.sub_diag. cbn.
          now rewrite <- app_assoc. }
      replace (Z.of_nat (length pre) + 1) with (Z.of_nat (length (pre ++ [clamp8 v])))
        by (rewrite length_app; cbn; lia).
      rewrite IH by (cbn in Hl; lia). now rewrite <- app_assoc. }
  intros Hl. apply (G n [] arr Hl).
Qed.

Lemma allSamplesEqual_replicate (n : nat) (v : Z) : allSamplesEqual (replicate n v).
Proof.
  intros i j a b Ha Hb.
  apply lookup_replicate in Ha as [-> _]. apply lookup_replicate in Hb as [-> _].
  reflexivity.
Qed.

Lemma BKGD_loadSamples_replicate (rd : list Z -> Z -> bool -> Z) (n : nat)
    (info : list Z) (dataOffset offset : Z) (color : list Z) :
  BKGD.loadSamples rd n info dataOffset offset color
  = color ++ replicate n (rd info dataOffset true).
Proof.
  revert offset color. induction n as [|n IH]; intros offset color; cbn.
  - now rewrite app_nil_r.
  - rewrite IH. now rewrite <- app_assoc.
Qed.

Lemma SrcChunksBkgd_loadSamples_replicate (rd : list Z -> Z -> Z) (n : nat)
    (buffer : list Z) (dataOffset offset : Z) (color : list Z) :
  SrcChunksBkgd.loadSamples rd n buffer dataOffset offset color
  = color ++ replicate n (rd buffer dataOffset).
Proof.
  revert offset color. induction n as [|n IH]; intros offset color; cbn.
  - now rewrite app_nil_r.
  - rewrite IH. now rewrite <- app_assoc.
Qed.

Lemma BKGD_load_non_indexed (rd8 : list Z -> Z -> Z) (rd16 : list Z -> Z -> bool -> Z)
    (c : BKGD.t) (abuf : list Z) :
  Pixels.isIndexed (BKGD._colorType c) = false ->
  length (BKGD._backgroundColor c)
  = Z.to_nat (Pixels.determineBackgroundSamplesPerEntry (BKGD._colorType c)) ->
  BKGD.load rd8 rd16 c abuf
  = Ok (BKGD.mk (BKGD._colorType c)
          (replicate (Z.to_nat (Pixels.determineBackgroundSamplesPerEntry (BKGD._colorType c)))
             (clamp8 (rd16 (BKGD.subarray abuf Chunk.calculateDataOffset
                              (Chunk.calculateDataOffset + BKGD.calculatePayloadSize c))
                           Chunk.calculateDataOffset true)))).
Proof.
  intros Hni Hlen. unfold BKGD.load. rewrite Hni.
  rewrite BKGD_loadSamples_replicate. cbn [app].
  unfold BKGD.setBackgroundColor. rewrite length_replicate.
  destruct (BKGD._colorType c); cbn in Hni; try discriminate; cbn [negb Z.eqb];
    cbn in Hlen |- *; now rewrite writeTuple_replicate.
Qed.

Lemma SrcChunksBkgd_load_non_indexed (cb : Z -> list Z -> list Z)
    (rd8 rd16 : list Z -> Z -> Z) (c : SrcChunksBkgd.t) (abuf : list Z) :
  SrcChunksBkgd._colorType c <> INDEXED ->
  length (SrcChunksBkgd._backgroundColor c)
  = Z.to_nat (SrcChunksBkgd._determineNumberOfSamples (SrcChunksBkgd._colorType c)) ->
  SrcChunksBkgd.load cb rd8 rd16 c abuf
  = Ok (SrcChunksBkgd.mk (SrcChunksBkgd._colorType c)
          (replicate (Z.to_nat (SrcChunksBkgd._determineNumberOfSamples
                                  (SrcChunksBkgd._colorType c)))
             (clamp8 (rd16 (cb (SrcChunksBkgd.calculateChunkLength c) abuf)
                           Chunk.calculateDataOffset)))).
Proof.
  intros Hni Hlen. unfold SrcChunksBkgd.load, SrcChunksBkgd.setBackgroundColor.
  destruct (SrcChunksBkgd._colorType c); try congruence;
    cbn [ColorType_eqb]; cbv iota;
    rewrite SrcChunksBkgd_loadSamples_replicate; cbn [app];
    rewrite length_replicate; cbn in Hlen |- *;
    now rewrite writeTuple_replicate.
Qed.

(** C10: for every non-indexed color type and every input buffer, [bKGD.load]
    reads each background sample from the same fixed data offset (the loop's
    [offset] variable is never used by the read), so after [load] all samples
    of the stored background color are equal to one another; this holds for
    both implementations of the background chunk. *)
Theorem bKGD_load_samples_all_equal :
  (forall (rd8 : list Z -> Z -> Z) (rd16 : list Z -> Z -> bool -> Z)
          (c : BKGD.t) (abuf : list Z),
      Pixels.isIndexed (BKGD._colorType c) = false ->
      length (BKGD._backgroundColor c)
      = Z.to_nat (Pixels.determineBackgroundSamplesPerEntry (BKGD._colorType c)) ->
      exists c',
        BKGD.load rd8 rd16 c abuf = Ok c'
        /\ length (BKGD.getBackgroundColor c') = length (BKGD._backgroundColor c)
        /\ (forall i a, BKGD.getBackgroundColor c' !! i = Some a ->
              a = clamp8 (rd16 (BKGD.subarray abuf (BKGD.calculateDataOffset c)
                                   (BKGD.calculateDataOffset c + BKGD.calculatePayloadSize c))
                               (BKGD.calculateDataOffset c) true))
        /\ allSamplesEqual (BKGD.getBackgroundColor c'))
  /\ (forall (cb : Z -> list Z -> list Z) (rd8 rd16 : list Z -> Z -> Z)
             (c : SrcChunksBkgd.t) (abuf : list Z),
      SrcChunksBkgd._colorType c <> INDEXED ->
      length (SrcChunksBkgd._backgroundColor c)
      = Z.to_nat (SrcChunksBkgd._determineNumberOfSamples (SrcChunksBkgd._colorType c)) ->
      exists c',
        SrcChunksBkgd.load cb rd8 rd16 c abuf = Ok c'
        /\ length (SrcChunksBkgd._backgroundColor c')
           = length (SrcChunksBkgd._backgroundColor c)
        /\ (forall i a, SrcChunksBkgd._backgroundColor c' !! i = Some a ->
              a = clamp8 (rd16 (cb (SrcChunksBkgd.calculateChunkLength c) abuf)
                               Chunk.calculateDataOffset))
        /\ allSamplesEqual (SrcChunksBkgd._backgroundColor c')).
Proof.
  split.
  - intros rd8 rd16 c abuf Hni Hlen. eexists. split.
    + apply BKGD_load_non_indexed; assumption.
    + unfold BKGD.getBackgroundColor, BKGD.calculateDataOffset.
      cbn [BKGD._backgroundColor]. rewrite length_replicate.
      split; [now rewrite Hlen|]. split.
      * intros i a Ha. now apply lookup_replicate in Ha as [-> _].
      * apply allSamplesEqual_replicate.
  - intros cb rd8 rd16 c abuf Hni Hlen. eexists. split.
    + apply SrcChunksBkgd_load_non_indexed; assumption.
    + cbn [SrcChunksBkgd._backgroundColor]. rewrite length_replicate.
      split; [now rewrite Hlen|]. split.
      * intros i a Ha. now apply lookup_replicate in Ha as [-> _].
      * apply allSamplesEqual_replicate.
Qed.

Lemma bKGD_load_samples_all_equal_witness :
  let rd16 := fun (buf : list Z) (off : Z) (_ : bool) =>
                default 0 (readAt buf off) * 256 + default 0 (readAt buf (off + 1)) in
  let abuf := [0; 0; 0; 6; 98; 75; 71; 68; 0; 10; 0; 20; 0; 30; 1; 2; 3; 4; 0; 77] in
  exists c',
    BKGD.load (fun buf off => default 0 (readAt buf off)) rd16 (BKGD.new TRUECOLOR) abuf
    = Ok c'
    /\ allSamplesEqual (BKGD.getBackgroundColor c').
Proof.
  intros rd16 abuf.
  destruct (proj1 bKGD_load_samples_all_equal
              (fun buf off => default 0 (readAt buf off)) rd16
              (BKGD.new TRUECOLOR) abuf eq_refl eq_refl)
    as (c' & Hl & _ & _ & Heq).
  exists c'. split; [exact Hl | exact Heq].
Defined.

(** ** Reading an indexed pixel *)

Lemma indexed_fullPixelSize (d : RnPng.t) :
  RnPng.isIndexed d = true -> layoutApplied d ->
  IDAT.fullPixelSize (RnPng.c_IDAT (RnPng._chunks d)) = 1.
Proof.
  unfold RnPng.isIndexed, layoutApplied. intros Hi ->.
  destruct (RnPng._colorType d); try discriminate. reflexivity.
Qed.

Lemma redPixelDocument_value : redPixelDocument = Ok redDoc.
Proof. reflexivity. Qed.

(** C3, the claim as stated fails: on an indexed image without a tRNS chunk
    [getPixelAt] returns the bare palette entry, which has no alpha sample. *)
Lemma getPixelAt_indexed_no_tRNS_has_no_alpha :
  redPixelDocument = Ok redDoc
  /\ RnPng.isIndexed redDoc = true
  /\ RnPng.c_tRNS (RnPng._chunks redDoc) = None
  /\ RnPng.getPixelAt redDoc (XY 0 0) = Ok (PTuple [255; 0; 0])
  /\ ~ (exists p, RnPng.getPixelAt redDoc (XY 0 0) = Ok p /\ alphaOf p = Some 255).
Proof.
  repeat (split; [reflexivity|]).
  intros (p & Hp & Ha). cbv in Hp. injection Hp as <-. discriminate.
Qed.

(** C3 (amended): on an indexed image, at a position whose stored palette
    index lies within the palette, [getPixelAt] returns the palette entry of
    that index; without a tRNS chunk nothing is appended (the pixel has no
    alpha sample), and with a tRNS chunk the stored alpha of the index is
    appended, 255 when the chunk holds none for it. *)
Theorem getPixelAt_indexed (d : RnPng.t) (pos : Pos) (plte : PLTE.t) (i : Z) :
  RnPng.isIndexed d = true ->
  layoutApplied d ->
  RnPng.c_PLTE (RnPng._chunks d) = Some plte ->
  IDATAccess.getValueAt (RnPng.c_IDAT (RnPng._chunks d)) (RnPng.resolvePos d pos) = Some i ->
  0 <= i < Z.of_nat (length (PLTE.getPalette plte)) ->
  exists color,
    PLTE.getPalette plte !! Z.to_nat i = Some color
    /\ RnPng.getPixelAt d pos
       = Ok (PTuple (match RnPng.c_tRNS (RnPng._chunks d) with
                     | None => color
                     | Some trns =>
                         color ++ [match TRNS.getValueOf trns i with
                                   | Some a => a
                                   | None => 255
                                   end]
                     end)).
Proof.
  intros Hi Hl Hp Hv Hr.
  destruct (getColorOf_lookup plte i Hr) as (color & Hc & Hg).
  exists color. split; [exact Hc|].
  unfold RnPng.getPixelAt.
  assert (Ha : RnPng.hasAlphaChannel d = false).
  { unfold RnPng.hasAlphaChannel. unfold RnPng.isIndexed in Hi.
    destruct (RnPng._colorType d); try discriminate; reflexivity. }
  rewrite Ha, Hi, Hp. unfold IDATAccess.getPixelOf.
  rewrite (indexed_fullPixelSize d Hi Hl). cbn [Z.eqb Pos.eqb].
  unfold IDATAccess.getValueAt in Hv. rewrite Hv, Hg. cbn.
  destruct (RnPng.c_tRNS _) as [trns|]; [|reflexivity].
  destruct (TRNS.getValueOf trns i); reflexivity.
Qed.

Lemma getPixelAt_indexed_witness :
  exists color,
    PLTE.getPalette (PLTE.mk 256 [[255; 0; 0]]) !! Z.to_nat 0 = Some color
    /\ RnPng.getPixelAt redDoc (XY 0 0)
       = Ok (PTuple (match RnPng.c_tRNS (RnPng._chunks redDoc) with
                     | None => color
                     | Some trns =>
                         color ++ [match TRNS.getValueOf trns 0 with
                                   | Some a => a
                                   | None => 255
                                   end]
                     end)).
Proof.
  apply (getPixelAt_indexed redDoc (XY 0 0) (PLTE.mk 256 [[255; 0; 0]]) 0).
  - reflexivity.
  - reflexivity.
  - reflexivity.
  - reflexivity.
  - cbn. lia.
Defined.

(** ** Palette growth on [setPixelAt] *)

Lemma indexFrom_spec (p : list (list Z)) (color : list Z) (i : Z) :
  indexFrom_result_absent_or_found p color i.
Proof.
  revert i. induction p as [|e p IH]; intros i; unfold indexFrom_result_absent_or_found.
  - left. reflexivity.
  - cbn [PLTE.indexFrom]. unfold PLTE.colorEqb. case_bool_decide as He.
    + right. exists 0%nat. subst e. split; [lia|]. split; [reflexivity|cbn; lia].
    + destruct (IH (i + 1)) as [Hm|(k & Hk & Hl & Hlt)].
      * left. exact Hm.
      * right. exists (S k). split; [lia|]. split; [exact Hl|cbn; lia].
Qed.

Lemma readAt_writeAt_same (arr : list Z) (i v : Z) :
  0 <= i < Z.of_nat (length arr) -> readAt (writeAt arr i v) i = Some (clamp8 v).
Proof.
  intros [H0 Hlt]. unfold readAt, writeAt.
  destruct (Z.ltb_spec i 0); [lia|]. apply list_lookup_insert_eq. lia.
Qed.

Lemma clamp8_id (v : Z) : 0 <= v <= 255 -> clamp8 v = v.
Proof. unfold clamp8. lia. Qed.

Lemma indexed_no_alpha (d : RnPng.t) :
  RnPng.isIndexed d = true -> RnPng.hasAlphaChannel d = false.
Proof.
  unfold RnPng.isIndexed, RnPng.hasAlphaChannel.
  destruct (RnPng._colorType d); try discriminate; reflexivity.
Qed.

(** What [setPixelAt] does on an indexed image once the arity check passed:
    the palette entry is found or appended, its index is written, and an
    optional fourth sample goes to the transparency chunk. *)
Lemma setPixelAt_indexed (d : RnPng.t) (pos : Pos) (data : Data) (plte : PLTE.t) :
  RnPng.isIndexed d = true ->
  RnPng.c_PLTE (RnPng._chunks d) = Some plte ->
  3 <= Z.of_nat (length (samplesOf data)) ->
  forall plte' paletteIndex,
    (if PLTE.isColorInPalette plte (take 3 (samplesOf data))
     then Ok (plte, PLTE.getPaletteIndex plte (take 3 (samplesOf data)))
     else PLTE.addColor plte (take 3 (samplesOf data))) = Ok (plte', paletteIndex) ->
    exists d',
      RnPng.setPixelAt d pos data = Ok d'
      /\ RnPng.c_PLTE (RnPng._chunks d') = Some plte'
      /\ RnPng.resolvePos d' pos = RnPng.resolvePos d pos
      /\ pixelDataOf d' = writeAt (pixelDataOf d) (RnPng.resolvePos d pos) paletteIndex.
Proof.
  intros Hi Hp Hlen plte' paletteIndex Hr.
  unfold RnPng.setPixelAt, RnPng.requiredSamples.
  rewrite Hi, (indexed_no_alpha d Hi), Hp.
  destruct (Z.ltb_spec (Z.of_nat (length (samplesOf data))) 3); [lia|].
  unfold slice0. rewrite take_take. change (Z.to_nat 3 `min` Z.to_nat (3 + 1))%nat with 3%nat.
  rewrite Hr. cbn [rbind fst snd].
  destruct (if 3 <? _ then _ else _) as [o|]; eexists; (split; [reflexivity|]);
    repeat split; destruct pos; reflexivity.
Qed.

(** On an indexed image a pixel takes one sample, so a pair [[x, y]] is
    translated to [y * width + x]. *)
Lemma resolvePos_indexed (d : RnPng.t) (pos : Pos) :
  RnPng.isIndexed d = true ->
  RnPng.resolvePos d pos
  = match pos with XY x y => y * RnPng._width d + x | Index i => i end.
Proof.
  unfold RnPng.isIndexed, RnPng.resolvePos, RnPng._translateXyToIndex.
  destruct pos as [i|x y]; [reflexivity|].
  destruct (RnPng._colorType d); try discriminate. intros _. cbn. lia.
Qed.

Lemma writeAt_insert (arr : list Z) (i v : Z) :
  0 <= i -> 0 <= v <= 255 -> writeAt arr i v = <[Z.to_nat i := v]> arr.
Proof.
  intros Hi Hv. unfold writeAt. destruct (Z.ltb_spec i 0); [lia|].
  now rewrite clamp8_id.
Qed.

(** C5: on an indexed image whose palette is not full, [setPixelAt] with an
    RGB color that is not yet in the palette makes the palette exactly one
    entry longer and stores at the pixel the index new length - 1; with a
    color already in the palette the palette is unchanged and the index of the
    existing entry is stored.  The pixel is the sample at [y * width + x] for
    a pair [[x, y]] and at [i] for a linear index [i]; the index is stored
    there and every other sample keeps its value. *)
Theorem setPixelAt_palette_growth (d : RnPng.t) (pos : Pos) (data : Data) (plte : PLTE.t) :
  let loc := match pos with XY x y => y * RnPng._width d + x | Index i => i end in
  let colorData := take 3 (samplesOf data) in
  RnPng.isIndexed d = true ->
  RnPng.c_PLTE (RnPng._chunks d) = Some plte ->
  3 <= Z.of_nat (length (samplesOf data)) ->
  0 <= loc < Z.of_nat (length (pixelDataOf d)) ->
  Z.of_nat (length (PLTE.getPalette plte)) <= PLTE._maxNumberOfColors plte <= 256 ->
  (PLTE.isColorInPalette plte colorData = false ->
   Z.of_nat (length (PLTE.getPalette plte)) < PLTE._maxNumberOfColors plte ->
   exists d' plte',
     RnPng.setPixelAt d pos data = Ok d'
     /\ RnPng.c_PLTE (RnPng._chunks d') = Some plte'
     /\ PLTE.getPalette plte' = PLTE.getPalette plte ++ [colorData]
     /\ length (PLTE.getPalette plte') = S (length (PLTE.getPalette plte))
     /\ pixelDataOf d'
        = <[Z.to_nat loc := Z.of_nat (length (PLTE.getPalette plte')) - 1]> (pixelDataOf d)
     /\ RnPng.resolvePos d' pos = loc
     /\ IDATAccess.getValueAt (RnPng.c_IDAT (RnPng._chunks d')) loc
        = Some (Z.of_nat (length (PLTE.getPalette plte')) - 1)
     /\ PLTE.getPalette plte' !! Z.to_nat (Z.of_nat (length (PLTE.getPalette plte')) - 1)
        = Some colorData)
  /\ (PLTE.isColorInPalette plte colorData = true ->
      exists d' k,
        RnPng.setPixelAt d pos data = Ok d'
        /\ RnPng.c_PLTE (RnPng._chunks d') = Some plte
        /\ k = PLTE.getPaletteIndex plte colorData
        /\ pixelDataOf d' = <[Z.to_nat loc := k]> (pixelDataOf d)
        /\ RnPng.resolvePos d' pos = loc
        /\ IDATAccess.getValueAt (RnPng.c_IDAT (RnPng._chunks d')) loc = Some k
        /\ PLTE.getPalette plte !! Z.to_nat k = Some colorData).
Proof.
  intros loc colorData Hi Hp Hlen Hpos Hcap.
  pose proof (resolvePos_indexed d pos Hi) as Hloc. fold loc in Hloc.
  unfold PLTE.getPalette in *. split.
  - intros Hnew Hroom.
    destruct (setPixelAt_indexed d pos data plte Hi Hp Hlen
                (PLTE.mk (PLTE._maxNumberOfColors plte) (PLTE._palette plte ++ [colorData]))
                (Z.of_nat (length (PLTE._palette plte))))
      as (d' & Hs & Hp' & Hres & Hpx).
    { fold colorData. rewrite Hnew. unfold PLTE.addColor.
      destruct (Z.ltb_spec (PLTE._maxNumberOfColors plte)
                  (Z.of_nat (length (PLTE._palette plte)) + 1)); [lia|reflexivity]. }
    rewrite Hloc in Hres, Hpx. rewrite writeAt_insert in Hpx by lia.
    exists d', (PLTE.mk (PLTE._maxNumberOfColors plte) (PLTE._palette plte ++ [colorData])).
    split; [exact Hs|]. split; [exact Hp'|]. cbn [PLTE._palette].
    split; [reflexivity|].
    rewrite length_app. cbn [length]. split; [lia|].
    replace (Z.of_nat (length (PLTE._palette plte) + 1) - 1)
      with (Z.of_nat (length (PLTE._palette plte))) by lia.
    split; [exact Hpx|]. split; [exact Hres|]. split.
    + unfold IDATAccess.getValueAt, readAt. fold (pixelDataOf d'). rewrite Hpx.
      destruct (Z.ltb_spec loc 0); [lia|]. apply list_lookup_insert_eq. lia.
    + rewrite Nat2Z.id. rewrite lookup_app_r by lia.
      now rewrite Nat.sub_diag.
  - intros Hold.
    destruct (setPixelAt_indexed d pos data plte Hi Hp Hlen plte
                (PLTE.getPaletteIndex plte colorData))
      as (d' & Hs & Hp' & Hres & Hpx).
    { fold colorData. now rewrite Hold. }
    rewrite Hloc in Hres, Hpx.
    exists d', (PLTE.getPaletteIndex plte colorData).
    split; [exact Hs|]. split; [exact Hp'|]. split; [reflexivity|].
    unfold PLTE.isColorInPalette in Hold. unfold PLTE.getPaletteIndex in *.
    destruct (indexFrom_spec (PLTE._palette plte) colorData 0) as [Hm|(k & Hk & Hl & Hlt)].
    { rewrite Hm in Hold. discriminate. }
    rewrite Hk in *. rewrite writeAt_insert in Hpx by lia.
    split; [exact Hpx|]. split; [exact Hres|]. split.
    + unfold IDATAccess.getValueAt, readAt. fold (pixelDataOf d'). rewrite Hpx.
      destruct (Z.ltb_spec loc 0); [lia|]. apply list_lookup_insert_eq. lia.
    + replace (Z.to_nat (0 + Z.of_nat k)) with k by lia. exact Hl.
Qed.

Lemma setPixelAt_palette_growth_witness :
  (exists d',
     RnPng.setPixelAt redCornerDoc (XY 1 1) (Array [0; 255; 0]) = Ok d'
     /\ RnPng.getPalette d' = Ok [[255; 0; 0]; [0; 255; 0]]
     /\ pixelDataOf redCornerDoc = [0; 0; 0; 0; 0; 0]
     /\ pixelDataOf d' = [0; 0; 0; 1; 0; 0])
  /\ (exists d',
        RnPng.setPixelAt twoCornersDoc (XY 0 1) (Array [0; 255; 0]) = Ok d'
        /\ RnPng.getPalette d' = Ok [[255; 0; 0]; [0; 255; 0]]
        /\ pixelDataOf twoCornersDoc = [0; 0; 0; 1; 0; 0]
        /\ pixelDataOf d' = [0; 0; 1; 1; 0; 0]).
Proof.
  split.
  - destruct (proj1 (setPixelAt_palette_growth redCornerDoc (XY 1 1) (Array [0; 255; 0])
                       (PLTE.mk 256 [[255; 0; 0]]) eq_refl eq_refl
                       ltac:(by_compute) ltac:(by_compute) ltac:(by_compute))
                eq_refl ltac:(by_compute))
      as (d' & plte' & Hs & Hp & Hpal & _ & Hpx & _).
    rewrite Hpal in Hpx.
    exists d'. split; [exact Hs|]. unfold RnPng.getPalette. rewrite Hp, Hpal, Hpx.
    repeat split; reflexivity.
  - destruct (proj2 (setPixelAt_palette_growth twoCornersDoc (XY 0 1) (Array [0; 255; 0])
                       (PLTE.mk 256 [[255; 0; 0]; [0; 255; 0]]) eq_refl eq_refl
                       ltac:(by_compute) ltac:(by_compute) ltac:(by_compute))
                eq_refl)
      as (d' & k & Hs & Hp & Hk & Hpx & _).
    exists d'. split; [exact Hs|]. unfold RnPng.getPalette. rewrite Hp, Hpx, Hk.
    repeat split; reflexivity.
Defined.

(** ** Color-key transparency on [setPixelAt] *)

Lemma isTransparencySet_removeTransparency (trns : TRNS.t) (color : list Z) :
  TRNS.isTransparencySet (TRNS.removeTransparency trns color) color = false.
Proof.
  unfold TRNS.isTransparencySet, TRNS.removeTransparency. cbn [TRNS._colorKeys].
  induction (TRNS._colorKeys trns) as [|k ks IH]; [reflexivity|].
  rewrite filter_cons. destruct (decide (k <> color)) as [Hne|Heq]; [|exact IH].
  cbn [existsb]. rewrite IH. unfold PLTE.colorEqb.
  rewrite bool_decide_eq_false_2 by congruence. reflexivity.
Qed.

Lemma isTransparencySet_removeTransparency_other (trns : TRNS.t) (color other : list Z) :
  other <> color ->
  TRNS.isTransparencySet (TRNS.removeTransparency trns color) other
  = TRNS.isTransparencySet trns other.
Proof.
  intros Hne. unfold TRNS.isTransparencySet, TRNS.removeTransparency.
  cbn [TRNS._colorKeys].
  induction (TRNS._colorKeys trns) as [|k ks IH]; [reflexivity|].
  rewrite filter_cons. destruct (decide (k <> color)) as [Hk|Hk]; cbn [existsb].
  - now rewrite IH.
  - rewrite IH. unfold PLTE.colorEqb.
    rewrite (bool_decide_eq_false_2 (other = k)); [reflexivity|].
    intros ->. apply Hk. exact Hne.
Qed.

Lemma existsb_app_singleton (f : list Z -> bool) (ks : list (list Z)) (k : list Z) :
  existsb f (ks ++ [k]) = existsb f ks || f k.
Proof. rewrite existsb_app. cbn. now rewrite orb_false_r. Qed.

Lemma isTransparencySet_setTransparency (trns : TRNS.t) (color : list Z) :
  TRNS.isTransparencySet (TRNS.setTransparency trns (Array color) (-1)) color = true.
Proof.
  unfold TRNS.setTransparency. cbn [Z.eqb Pos.eqb TRNS.colorOfData].
  destruct (TRNS.isTransparencySet trns color) eqn:E; [exact E|].
  unfold TRNS.isTransparencySet. cbn [TRNS._colorKeys].
  rewrite existsb_app_singleton. unfold PLTE.colorEqb.
  rewrite (bool_decide_eq_true_2 (color = color)) by reflexivity. apply orb_true_r.
Qed.

Lemma isTransparencySet_setTransparency_other (trns : TRNS.t) (color other : list Z) :
  other <> color ->
  TRNS.isTransparencySet (TRNS.setTransparency trns (Array color) (-1)) other
  = TRNS.isTransparencySet trns other.
Proof.
  intros Hne. unfold TRNS.setTransparency. cbn [Z.eqb Pos.eqb TRNS.colorOfData].
  destruct (TRNS.isTransparencySet trns color); [reflexivity|].
  unfold TRNS.isTransparencySet. cbn [TRNS._colorKeys].
  rewrite existsb_app_singleton. unfold PLTE.colorEqb.
  rewrite (bool_decide_eq_false_2 (other = color)) by exact Hne. apply orb_false_r.
Qed.

(** C8: on a grayscale or truecolor image, [setPixelAt] with a tuple that
    carries one trailing opacity sample writes the color samples to the pixel
    buffer; when the opacity is 255 and the color is registered as a color
    key, that entry is removed; in every other case a color-key entry for the
    color is inserted, in a transparency chunk created if there was none. *)
Theorem setPixelAt_color_key (d : RnPng.t) (pos : Pos) (color : list Z) (o : Z) :
  RnPng._colorType d = GRAYSCALE \/ RnPng._colorType d = TRUECOLOR ->
  layoutApplied d ->
  Z.of_nat (length color) = Pixels.determineFullPixelSize (RnPng._colorType d) ->
  exists d',
    RnPng.setPixelAt d pos (Array (color ++ [o])) = Ok d'
    /\ pixelDataOf d' = writeTuple (pixelDataOf d) (RnPng.resolvePos d pos) color
    /\ RnPng.c_PLTE (RnPng._chunks d') = RnPng.c_PLTE (RnPng._chunks d)
    /\ if (255 =? o) && RnPng.doesColorExistInTransparencies d color
       then (exists trns,
               RnPng.c_tRNS (RnPng._chunks d) = Some trns
               /\ RnPng.c_tRNS (RnPng._chunks d')
                  = Some (TRNS.removeTransparency trns color))
            /\ RnPng.doesColorExistInTransparencies d' color = false
       else RnPng.c_tRNS (RnPng._chunks d')
            = Some (TRNS.setTransparency
                      (match RnPng.c_tRNS (RnPng._chunks d) with
                       | Some trns => trns
                       | None =>
                           TRNS.new (RnPng._colorType d)
                             (Pixels.computeNumberOfPixels (RnPng._width d) (RnPng._height d))
                             (Pixels.computeMaxNumberOfColors (RnPng._depth d))
                       end)
                      (Array color) (-1))
            /\ RnPng.doesColorExistInTransparencies d' color = true.
Proof.
  intros Hct Hlay Hlen.
  assert (Hfps : Pixels.determineFullPixelSize (RnPng._colorType d)
                 = Z.of_nat (length color)) by lia.
  assert (Hni : RnPng.isIndexed d = false).
  { unfold RnPng.isIndexed. destruct Hct as [-> | ->]; reflexivity. }
  assert (Hna : RnPng.hasAlphaChannel d = false).
  { unfold RnPng.hasAlphaChannel. destruct Hct as [-> | ->]; reflexivity. }
  unfold RnPng.setPixelAt, RnPng.requiredSamples. rewrite Hni, Hna.
  cbn [samplesOf]. rewrite Hfps, length_app. cbn [length].
  destruct (Z.ltb_spec (Z.of_nat (length color + 1)) (Z.of_nat (length color))); [lia|].
  unfold slice0.
  replace (Z.to_nat (Z.of_nat (length color) + 1)) with (length (color ++ [o]))
    by (rewrite length_app; cbn; lia).
  rewrite firstn_all, Nat2Z.id, take_app_length.
  destruct (Z.ltb_spec (Z.of_nat (length color)) (Z.of_nat (length (color ++ [o]))));
    [|rewrite length_app in *; cbn in *; lia].
  rewrite last_snoc.
  set (d1 := RnPng.setIDAT d _).
  assert (Hpx : pixelDataOf d1 = writeTuple (pixelDataOf d) (RnPng.resolvePos d pos) color).
  { unfold d1, pixelDataOf. cbn. unfold slice0. rewrite Hlay, Hfps, Nat2Z.id.
    now rewrite firstn_all. }
  assert (Hex : RnPng.doesColorExistInTransparencies d1 color
                = RnPng.doesColorExistInTransparencies d color) by reflexivity.
  rewrite Hex.
  destruct ((255 =? o) && RnPng.doesColorExistInTransparencies d color) eqn:Hc.
  - apply andb_true_iff in Hc as [_ Hreg].
    unfold RnPng.doesColorExistInTransparencies in Hreg.
    destruct (RnPng.c_tRNS (RnPng._chunks d)) as [trns|] eqn:Ht; [|discriminate].
    unfold RnPng.removeTransparency.
    change (RnPng.c_tRNS (RnPng._chunks d1)) with (RnPng.c_tRNS (RnPng._chunks d)).
    change (RnPng.isIndexed d1) with (RnPng.isIndexed d). rewrite Ht, Hni.
    eexists. split; [reflexivity|]. split; [exact Hpx|]. split; [reflexivity|].
    split; [exists trns; split; reflexivity|].
    unfold RnPng.doesColorExistInTransparencies. cbn.
    apply isTransparencySet_removeTransparency.
  - eexists. split; [reflexivity|]. split; [exact Hpx|]. split; [reflexivity|].
    split; [reflexivity|].
    unfold RnPng.doesColorExistInTransparencies. cbn.
    apply isTransparencySet_setTransparency.
Qed.

Lemma setPixelAt_color_key_witness :
  exists d',
    RnPng.setPixelAt truecolorDoc (XY 1 0) (Array ([10; 20; 30] ++ [128])) = Ok d'
    /\ pixelDataOf d' = [0; 0; 0; 10; 20; 30; 0]
    /\ RnPng.doesColorExistInTransparencies d' [10; 20; 30] = true.
Proof.
  destruct (setPixelAt_color_key truecolorDoc (XY 1 0) [10; 20; 30] 128
              (or_intror eq_refl) eq_refl eq_refl)
    as (d' & Hs & Hpx & _ & _ & Hreg).
  exists d'. split; [exact Hs|]. split; [exact Hpx|exact Hreg].
Defined.

(** ** Length of the sample buffer *)

Lemma samplesPerPixel_fullPixelSize (ct : ColorType) :
  Pixels.samplesPerPixel ct = Pixels.determineFullPixelSize ct.
Proof. destruct ct; reflexivity. Qed.

(** The constructor allocates one entry per sample and one more per row. *)
Lemma IDAT_new_buffer_length (width height depth : Z) (ct : ColorType) (n : Z) :
  0 <= width -> 0 <= height ->
  Z.of_nat (length (IDAT._pixelData (IDAT.new (IDAT.mkLayout width height depth ct n))))
  = width * height * Pixels.samplesPerPixel ct + height.
Proof.
  intros Hw Hh. unfold IDAT.new. cbn [IDAT._pixelData]. rewrite length_replicate.
  rewrite samplesPerPixel_fullPixelSize.
  unfold IDAT.calculatePixelAndFilterSize, IDAT.fullPixelSize, IDAT.applyLayoutInformation.
  cbn [IDAT._width IDAT._height IDAT._pixelColorSize IDAT._hasAlphaSample
       IDAT.li_width IDAT.li_height IDAT.li_colorType].
  fold (Pixels.determineFullPixelSize ct).
  assert (0 <= Pixels.determineFullPixelSize ct) by (destruct ct; cbv; discriminate).
  rewrite Z2Nat.id by nia. ring.
Qed.

Lemma writeAt_length (arr : list Z) (i v : Z) : length (writeAt arr i v) = length arr.
Proof. unfold writeAt. destruct (i <? 0); [reflexivity|apply length_insert]. Qed.

(** The pixel writes of the pixel-data chunk keep the buffer length. *)
Lemma setPixelOf_length (c : IDAT.t) (index : Z) (value : Data) :
  length (IDAT._pixelData (IDATAccess.setPixelOf c index value))
  = length (IDAT._pixelData c).
Proof.
  destruct value; cbn; [apply writeAt_length|apply writeTuple_length].
Qed.

Lemma setPixel_length (c : IDAT.t) (pos : Pos) (pixel : Data) :
  length (IDAT._pixelData (IDATAccess.setPixel c pos pixel))
  = length (IDAT._pixelData c).
Proof.
  destruct pixel; cbn; now rewrite ?writeAt_length.
Qed.

Lemma setAlpha_length (c : IDAT.t) (value index : Z) :
  length (IDAT._pixelData (IDATAccess.setAlpha c value index))
  = length (IDAT._pixelData c).
Proof. cbn. apply writeAt_length. Qed.

Lemma removeTransparency_pixelData (d d' : RnPng.t) (color : list Z) :
  RnPng.removeTransparency d color = Ok d' -> pixelDataOf d' = pixelDataOf d.
Proof.
  unfold RnPng.removeTransparency.
  destruct (RnPng.c_tRNS _); [|discriminate].
  destruct (RnPng.isIndexed d).
  - destruct (RnPng.c_PLTE _); [|discriminate]. now intros [= <-].
  - now intros [= <-].
Qed.

(** Every pixel mutation of the document keeps the buffer length. *)
Lemma setPixelAt_buffer_length (d d' : RnPng.t) (pos : Pos) (data : Data) :
  RnPng.setPixelAt d pos data = Ok d' ->
  length (pixelDataOf d') = length (pixelDataOf d).
Proof.
  unfold RnPng.setPixelAt.
  destruct (_ <? _); [discriminate|].
  destruct (RnPng.hasAlphaChannel d).
  { intros [= <-]. apply writeTuple_length. }
  destruct (RnPng.isIndexed d).
  - destruct (RnPng.c_PLTE _) as [plte|]; [|discriminate].
    destruct (if PLTE.isColorInPalette _ _ then _ else _) as [r|e]; [|discriminate].
    cbn [rbind]. destruct (if _ <? _ then _ else _); intros [= <-]; apply writeAt_length.
  - destruct (if _ <? _ then _ else _) as [o|].
    + destruct (_ && _).
      * intros H. apply removeTransparency_pixelData in H. rewrite H.
        apply writeTuple_length.
      * intros [= <-]. apply writeTuple_length.
    + intros [= <-]. apply writeTuple_length.
Qed.

Lemma setOpacityAt_buffer_length (d d' : RnPng.t) (pos : Pos) (value : Z) :
  RnPng.setOpacityAt d pos value = Ok d' ->
  length (pixelDataOf d') = length (pixelDataOf d).
Proof.
  unfold RnPng.setOpacityAt.
  destruct (_ && _); [discriminate|].
  destruct (RnPng.hasAlphaChannel d).
  { intros [= <-]. apply writeAt_length. }
  destruct (RnPng.c_PLTE _); [|discriminate].
  destruct (IDATAccess.getValueAt _ _).
  - destruct (_ <=? _); [discriminate|]. now intros [= <-].
  - now intros [= <-].
Qed.

(** C4, at a failing input: a fresh 2x1 truecolor document of depth 8 has a
    sample buffer of 7 entries, where width * height * samples-per-pixel
    is 6; the constructor sizes the buffer with
    [calculatePixelAndFilterSize()], which counts one filter byte per row. *)
Theorem constructor_buffer_length_counts_filter_bytes :
  RnPng.new truecolorOptions = Ok truecolorDoc
  /\ length (pixelDataOf truecolorDoc) = 7%nat
  /\ RnPng._width truecolorDoc * RnPng._height truecolorDoc
     * Pixels.samplesPerPixel (RnPng._colorType truecolorDoc) = 6.
Proof. repeat split. Qed.

(* ================================================================== *)
(** * Saving and loading *)

(** ** Padded reads *)

Lemma takePad_length (n : nat) (l : list Z) : length (TypedArray.takePad n l) = n.
Proof.
  unfold TypedArray.takePad. rewrite length_take, length_app, length_replicate. lia.
Qed.

Lemma takePad_eq (n : nat) (l : list Z) :
  TypedArray.takePad n l = take n l ++ replicate (n - length l) 0.
Proof.
  unfold TypedArray.takePad. rewrite take_app, take_replicate. do 2 f_equal. lia.
Qed.

Lemma takePad_ge (n : nat) (l : list Z) :
  (n <= length l)%nat -> TypedArray.takePad n l = take n l.
Proof. intros H. unfold TypedArray.takePad. now rewrite take_app_le. Qed.

Lemma takePad_lt (n : nat) (l : list Z) :
  (length l <= n)%nat -> TypedArray.takePad n l = l ++ replicate (n - length l) 0.
Proof. intros H. rewrite takePad_eq. now rewrite take_ge. Qed.

Lemma take_takePad (m n : nat) (l : list Z) :
  (m <= n)%nat -> (m <= length l)%nat -> take m (TypedArray.takePad n l) = take m l.
Proof.
  intros Hmn Hml. unfold TypedArray.takePad. rewrite take_take.
  replace (m `min` n)%nat with m by lia. now rewrite take_app_le.
Qed.

Lemma takePad_app_drop (m n : nat) (l : list Z) :
  TypedArray.takePad m l ++ TypedArray.takePad n (drop m l) = TypedArray.takePad (m + n) l.
Proof.
  rewrite !takePad_eq, length_drop.
  destruct (Nat.le_gt_cases m (length l)) as [Hle|Hgt].
  - replace (m - length l)%nat with 0%nat by lia. cbn [replicate].
    rewrite app_nil_r, app_assoc, take_take_drop. do 2 f_equal. lia.
  - rewrite (take_ge l m), (take_ge l (m + n)), (drop_ge l m) by lia.
    rewrite take_nil. cbn [app]. rewrite <- app_assoc, <- replicate_add.
    do 2 f_equal. lia.
Qed.

Lemma map_clamp8_id (l : list Z) : Forall isByte l -> map clamp8 l = l.
Proof.
  induction 1 as [|x l Hx _ IH]; [reflexivity|].
  cbn. rewrite IH, clamp8_id by exact Hx. reflexivity.
Qed.

Lemma Forall_isByte_replicate (n : nat) : Forall isByte (replicate n 0).
Proof. apply Forall_replicate. unfold isByte. lia. Qed.

Lemma Forall_isByte_takePad (n : nat) (l : list Z) :
  Forall isByte l -> Forall isByte (TypedArray.takePad n l).
Proof.
  intros H. unfold TypedArray.takePad. apply Forall_take, Forall_app.
  split; [exact H|apply Forall_isByte_replicate].
Qed.

(** ** Filter-type bytes *)

Lemma Forall_isByte_addFilterRows (h rl : nat) (data : list Z) :
  Forall isByte data -> Forall isByte (Filters.addFilterRows h rl data).
Proof.
  revert data. induction h as [|h IH]; intros data H; cbn; [constructor|].
  constructor; [unfold isByte; lia|]. apply Forall_app. split.
  - now apply Forall_isByte_takePad.
  - apply IH. now apply Forall_drop.
Qed.

Lemma removeFilterRows_addFilterRows (h rl : nat) (data : list Z) :
  Filters.removeFilterRows h rl (Filters.addFilterRows h rl data)
  = TypedArray.takePad (h * rl) data.
Proof.
  revert data. induction h as [|h IH]; intros data; [reflexivity|].
  cbn [Filters.addFilterRows Filters.removeFilterRows].
  change (drop 1 (0 :: ?l)) with l.
  change (drop (S rl) (0 :: ?l)) with (drop rl l).
  rewrite (takePad_ge rl) by (rewrite length_app, takePad_length; lia).
  rewrite take_app_length' by (now rewrite takePad_length).
  rewrite drop_app_length' by (now rewrite takePad_length).
  rewrite IH. apply takePad_app_drop.
Qed.

Lemma defilterRow_None (bpp : nat) (prior raw : list Z) (i : nat) (recon : list Z) :
  Filters.defilterRow 0 bpp prior raw i recon = recon ++ raw.
Proof.
  revert i recon. induction raw as [|x raw IH]; intros i recon; cbn.
  - now rewrite app_nil_r.
  - rewrite IH. now rewrite <- app_assoc.
Qed.

Lemma defilterRows_addFilterRows (h fuel rl bpp : nat) (prior data : list Z) :
  Filters.defilterRows fuel rl bpp prior (Filters.addFilterRows h rl data)
  = Filters.addFilterRows h rl data.
Proof.
  revert fuel prior data. induction h as [|h IH]; intros fuel prior data.
  - destruct fuel; reflexivity.
  - destruct fuel as [|fuel]; [reflexivity|].
    cbn [Filters.addFilterRows Filters.defilterRows].
    rewrite take_app_length' by (now rewrite takePad_length).
    rewrite drop_app_length' by (now rewrite takePad_length).
    rewrite defilterRow_None. cbn [app]. now rewrite IH.
Qed.

(** ** Bit packing *)

Lemma unpackByte_packGroup (depth : Z) (g : list Z) :
  depth = 1 \/ depth = 2 \/ depth = 4 ->
  length g = TypedArray.samplesPerByte depth ->
  Forall (sampleInRange depth) g ->
  TypedArray.unpackByte depth (TypedArray.packGroup depth g) = g.
Proof.
  unfold sampleInRange.
  intros [-> | [-> | ->]] Hlen Hr;
    repeat (destruct g as [|? g]; [discriminate Hlen|]);
    (destruct g; [|discriminate Hlen]);
    repeat match goal with
           | H : Forall _ (_ :: _) |- _ => apply Forall_cons in H as [? H]
           end.
  - change (2 ^ 1) with 2 in *. unpack_arith 1.
  - change (2 ^ 2) with 4 in *. unpack_arith 2.
  - change (2 ^ 4) with 16 in *. unpack_arith 4.
Qed.

Lemma unpackByte_length (depth : Z) (b : Z) :
  length (TypedArray.unpackByte depth b) = TypedArray.samplesPerByte depth.
Proof. unfold TypedArray.unpackByte. now rewrite length_map, length_seq. Qed.

Lemma unpackByte_zero (depth : Z) :
  TypedArray.unpackByte depth 0 = replicate (TypedArray.samplesPerByte depth) 0.
Proof.
  unfold TypedArray.unpackByte.
  generalize (TypedArray.samplesPerByte depth - 1)%nat as m.
  generalize 0%nat as start.
  induction (TypedArray.samplesPerByte depth) as [|k IH]; intros start m; [reflexivity|].
  cbn [seq map replicate]. rewrite IH. reflexivity.
Qed.

Lemma flat_map_take_uniform {A B} (f : A -> list B) (k m : nat) (l : list A) :
  (forall x, length (f x) = k) ->
  flat_map f (take m l) = take (m * k) (flat_map f l).
Proof.
  intros Hk. revert l. induction m as [|m IH]; intros l.
  - now rewrite !take_0.
  - destruct l as [|x l]; [cbn; now rewrite take_nil|].
    cbn [take flat_map]. rewrite IH.
    replace (S m * k)%nat with (length (f x) + m * k)%nat by (rewrite Hk; lia).
    now rewrite take_app_add.
Qed.

Lemma flat_map_unpackByte_zeros (depth : Z) (n : nat) :
  flat_map (TypedArray.unpackByte depth) (replicate n 0)
  = replicate (n * TypedArray.samplesPerByte depth) 0.
Proof.
  induction n as [|n IH]; [reflexivity|].
  cbn [replicate flat_map]. rewrite IH, unpackByte_zero, <- replicate_add.
  f_equal.
Qed.

(** Unpacking what was packed gives the samples back, followed by the zeros
    that filled the last byte. *)
Lemma unpack_pack_groups (depth : Z) (fuel : nat) (data : list Z) :
  depth = 1 \/ depth = 2 \/ depth = 4 ->
  (length data <= fuel)%nat ->
  Forall (sampleInRange depth) data ->
  exists pad,
    flat_map (TypedArray.unpackByte depth)
      (map (TypedArray.packGroup depth)
           (TypedArray.groupsOf fuel (TypedArray.samplesPerByte depth) data))
    = data ++ replicate pad 0.
Proof.
  intros Hd.
  assert (Hk : (0 < TypedArray.samplesPerByte depth)%nat).
  { destruct Hd as [-> | [-> | ->]]; vm_compute; lia. }
  revert data. induction fuel as [|fuel IH]; intros data Hfuel Hr.
  - destruct data; [|cbn in Hfuel; lia]. exists 0%nat. reflexivity.
  - destruct data as [|x data]; [exists 0%nat; reflexivity|].
    cbn [TypedArray.groupsOf map flat_map].
    set (l := x :: data) in *. set (k := TypedArray.samplesPerByte depth) in *.
    rewrite unpackByte_packGroup; [|exact Hd|apply takePad_length|].
    2:{ unfold TypedArray.takePad. apply Forall_take, Forall_app. split; [exact Hr|].
        apply Forall_replicate. unfold sampleInRange.
        destruct Hd as [-> | [-> | ->]]; vm_compute; split; congruence. }
    destruct (IH (drop k l)) as [pad Hpad].
    { rewrite length_drop. subst l. cbn [length] in *. lia. }
    { now apply Forall_drop. }
    rewrite Hpad.
    destruct (Nat.le_gt_cases k (length l)) as [Hle|Hgt].
    + exists pad. rewrite takePad_ge by exact Hle.
      now rewrite app_assoc, take_drop.
    + exists (k - length l + pad)%nat. rewrite takePad_lt by lia.
      rewrite drop_ge by lia. cbn [app]. rewrite <- app_assoc, <- replicate_add.
      reflexivity.
Qed.

Lemma packGroup_isByte (depth : Z) (g : list Z) :
  depth = 1 \/ depth = 2 \/ depth = 4 ->
  length g = TypedArray.samplesPerByte depth ->
  isByte (TypedArray.packGroup depth g).
Proof.
  unfold isByte.
  intros [-> | [-> | ->]] Hlen;
    repeat (destruct g as [|? g]; [discriminate Hlen|]);
    (destruct g; [|discriminate Hlen]);
    unfold TypedArray.packGroup; cbn [fold_left];
    repeat match goal with
           | |- context [2 ^ ?e] =>
               let v := eval vm_compute in (2 ^ e) in change (2 ^ e) with v
           end;
    Z.div_mod_to_equations; lia.
Qed.

Lemma groupsOf_lengths (fuel k : nat) (data : list Z) :
  Forall (fun g => length g = k) (TypedArray.groupsOf fuel k data).
Proof.
  revert data. induction fuel as [|fuel IH]; intros data; [constructor|].
  destruct data; [constructor|]. cbn [TypedArray.groupsOf].
  constructor; [apply takePad_length|apply IH].
Qed.

Lemma packByteData_isByte (depth : Z) (data : list Z) :
  depth = 1 \/ depth = 2 \/ depth = 4 ->
  Forall isByte (TypedArray.packByteData data depth).
Proof.
  intros Hd. unfold TypedArray.packByteData.
  destruct (Z.leb_spec 8 depth); [lia|].
  apply Forall_map. eapply Forall_impl; [apply groupsOf_lengths|].
  intros g Hg. cbn. now apply packGroup_isByte.
Qed.

Lemma unpackByte_isByte (depth : Z) (b : Z) :
  depth = 1 \/ depth = 2 \/ depth = 4 ->
  Forall isByte (TypedArray.unpackByte depth b).
Proof.
  intros Hd. unfold TypedArray.unpackByte. apply Forall_map, Forall_forall.
  intros j _. cbn. unfold isByte.
  assert (0 <= (b / 2 ^ (depth * Z.of_nat (TypedArray.samplesPerByte depth - 1 - j)))
               mod 2 ^ depth < 2 ^ depth) as Hm.
  { apply Z.mod_pos_bound. destruct Hd as [-> | [-> | ->]]; reflexivity. }
  assert (2 ^ depth <= 16) by (destruct Hd as [-> | [-> | ->]]; vm_compute; congruence).
  lia.
Qed.

Lemma sampleInRange_isByte (depth : Z) (data : list Z) :
  depth = 1 \/ depth = 2 \/ depth = 4 \/ depth = 8 ->
  Forall (sampleInRange depth) data -> Forall isByte data.
Proof.
  intros Hd H. eapply Forall_impl; [exact H|].
  intros v. unfold sampleInRange, isByte.
  assert (2 ^ depth <= 256)
    by (destruct Hd as [-> | [-> | [-> | ->]]]; vm_compute; congruence).
  lia.
Qed.

(** Packing, framing with filter bytes, unframing and unpacking returns the
    first [n] samples unchanged, whenever the rows cover them. *)
Lemma reloadedSamples_take (depth : Z) (h rl n : nat) (data : list Z) :
  depth = 1 \/ depth = 2 \/ depth = 4 \/ depth = 8 ->
  Forall (sampleInRange depth) data ->
  (n <= length data)%nat ->
  (n <= h * rl * TypedArray.samplesPerByte depth)%nat ->
  take n (reloadedSamples depth h rl data) = take n data.
Proof.
  intros Hd Hr Hn Hcover. unfold reloadedSamples.
  assert (Hbytes : Forall isByte (TypedArray.packByteData data depth)).
  { destruct Hd as [Hd | [Hd | [Hd | ->]]];
      [apply packByteData_isByte; tauto ..|].
    cbn. now apply (sampleInRange_isByte 8); [tauto|]. }
  rewrite (map_clamp8_id (TypedArray.packByteData data depth)) by exact Hbytes.
  rewrite (map_clamp8_id (Filters.addFilterRows _ _ _))
    by now apply Forall_isByte_addFilterRows.
  rewrite removeFilterRows_addFilterRows.
  rewrite (map_clamp8_id (TypedArray.takePad _ _)) by now apply Forall_isByte_takePad.
  destruct Hd as [Hd | [Hd | [Hd | ->]]].
  4:{ change (TypedArray.samplesPerByte 8) with 1%nat in Hcover.
      cbn [TypedArray.unpackByteData TypedArray.packByteData Z.leb Z.compare
           Pos.compare Pos.compare_cont] in *.
      rewrite map_clamp8_id by now apply Forall_isByte_takePad.
      apply take_takePad; lia. }
  all: assert (Hd' : depth = 1 \/ depth = 2 \/ depth = 4) by tauto.
  all: unfold TypedArray.unpackByteData, TypedArray.packByteData in *.
  all: destruct (Z.leb_spec 8 depth); [lia|].
  all: rewrite map_clamp8_id
         by (apply Forall_flat_map, Forall_forall; intros b _;
             now apply unpackByte_isByte).
  all: unfold TypedArray.takePad at 1.
  all: rewrite (flat_map_take_uniform _ (TypedArray.samplesPerByte depth))
         by (intros b; apply unpackByte_length).
  all: rewrite flat_map_app.
  all: destruct (unpack_pack_groups depth (length data) data Hd' (le_n _) Hr)
         as [pad ->].
  all: rewrite take_take.
  all: replace (n `min` (h * rl * TypedArray.samplesPerByte depth))%nat with n by lia.
  all: rewrite <- app_assoc; now apply take_app_le.
Qed.

(** ** The pixel-data chunk through [update] and [load] *)

Lemma Forall_isByte_map_clamp8 (l : list Z) : Forall isByte (map clamp8 l).
Proof. apply Forall_map, Forall_forall. intros v _. cbn. unfold isByte, clamp8. lia. Qed.

Lemma rows_cover_samples (depth w h fps : Z) :
  depth = 1 \/ depth = 2 \/ depth = 4 \/ depth = 8 ->
  0 <= w -> 0 <= h -> 0 <= fps ->
  (Z.to_nat (w * h * fps)
   <= Z.to_nat h * Z.to_nat ((w * fps * depth + 7) / 8) * TypedArray.samplesPerByte depth)%nat.
Proof.
  intros Hd Hw Hh Hf.
  assert (Hx : 0 <= w * fps) by nia.
  set (x := w * fps) in *.
  assert (Hq : x <= (x * depth + 7) / 8 * Z.of_nat (TypedArray.samplesPerByte depth)
               /\ 0 <= (x * depth + 7) / 8).
  { destruct Hd as [-> | [-> | [-> | ->]]];
      [change (TypedArray.samplesPerByte 1) with 8%nat
      |change (TypedArray.samplesPerByte 2) with 4%nat
      |change (TypedArray.samplesPerByte 4) with 2%nat
      |change (TypedArray.samplesPerByte 8) with 1%nat];
      Z.div_mod_to_equations; lia. }
  destruct Hq as [Hq Hq0].
  apply Nat2Z.inj_le. rewrite !Nat2Z.inj_mul, !Z2Nat.id by nia.
  replace (w * h * fps) with (h * x) by (subst x; ring).
  rewrite <- Z.mul_assoc. apply Z.mul_le_mono_nonneg_l; [exact Hh|exact Hq].
Qed.

Lemma defilter_pixelAndFilterData (h rl : nat) (data : list Z) (width fps : Z) :
  Z.to_nat (width * fps) = rl ->
  Filters.defilter (map clamp8 (Filters.addFilterRows h rl (map clamp8 data))) width fps
  = map clamp8 (Filters.addFilterRows h rl (map clamp8 data)).
Proof.
  intros Hrl. rewrite (map_clamp8_id (Filters.addFilterRows _ _ _))
    by apply Forall_isByte_addFilterRows, Forall_isByte_map_clamp8.
  unfold Filters.defilter. rewrite Hrl. apply defilterRows_addFilterRows.
Qed.

Lemma subarrayFrom_dataOffset (a b c d e f g h : Z) (rest : list Z) :
  TypedArray.subarrayFrom (a :: b :: c :: d :: e :: f :: g :: h :: rest)
    Chunk.calculateDataOffset = rest.
Proof. reflexivity. Qed.

(** What [load] stores when it is handed, behind any suffix, the chunk that
    [update] wrote for a raster [c] of the same layout. *)
Lemma IDAT_load_update (deflate inflate : list Z -> list Z) (crc : list Z -> Z)
    (c c0 : IDAT.t) (info : IDAT.LayoutInformation) (suffix : list Z) :
  IDAT.applyLayoutInformation c info = c ->
  (IDAT.li_depth info = 1 \/ IDAT.li_depth info = 2
   \/ IDAT.li_depth info = 4 \/ IDAT.li_depth info = 8) ->
  0 <= IDAT.li_width info -> 0 <= IDAT.li_height info ->
  Forall (sampleInRange (IDAT.li_depth info)) (IDAT._pixelData c) ->
  IDAT.li_width info * IDAT.li_height info
    * Pixels.determineFullPixelSize (IDAT.li_colorType info)
  <= Z.of_nat (length (IDAT._pixelData c)) ->
  Z.of_nat (length (deflate (IDAT.pixelAndFilterData c))) <= IDAT.calculatePayloadSize c (-1) ->
  (forall t, inflate (deflate (IDAT.pixelAndFilterData c) ++ t) = IDAT.pixelAndFilterData c) ->
  let c' := IDAT.load inflate (IDAT.applyLayoutInformation c0 info)
              (IDAT.update deflate crc c ++ suffix) in
  IDAT.fullPixelSize c' = Pixels.determineFullPixelSize (IDAT.li_colorType info)
  /\ take (Z.to_nat (IDAT.li_width info * IDAT.li_height info
                     * Pixels.determineFullPixelSize (IDAT.li_colorType info)))
          (IDAT._pixelData c')
     = take (Z.to_nat (IDAT.li_width info * IDAT.li_height info
                       * Pixels.determineFullPixelSize (IDAT.li_colorType info)))
            (IDAT._pixelData c).
Proof.
  intros Hlay Hd Hw Hh Hr Hlen Hfit Hinf c'.
  split; [reflexivity|].
  subst c'. unfold IDAT.load, IDAT.update.
  cbn [TypedArray.writeUint32 ChunkHeaderSequences app].
  rewrite subarrayFrom_dataOffset.
  rewrite takePad_lt by lia. rewrite <- !app_assoc, Hinf.
  unfold IDAT.applyLayoutInformation.
  cbn [IDAT._depth IDAT._colorType IDAT._width IDAT._height IDAT._pixelColorSize
       IDAT._hasAlphaSample IDAT.setPixelData IDAT._pixelData].
  fold (Pixels.determineFullPixelSize (IDAT.li_colorType info)).
  unfold IDAT.pixelAndFilterData.
  assert (Ed : IDAT._depth c = IDAT.li_depth info) by (rewrite <- Hlay; reflexivity).
  assert (Ec : IDAT._colorType c = IDAT.li_colorType info)
    by (rewrite <- Hlay; reflexivity).
  assert (Ew : IDAT._width c = IDAT.li_width info) by (rewrite <- Hlay; reflexivity).
  assert (Eh : IDAT._height c = IDAT.li_height info) by (rewrite <- Hlay; reflexivity).
  rewrite Ed, Ec, Ew, Eh.
  unfold Filters.addFilterFields, Filters.removeFilterFields,
         Filters.determineDataRowLength.
  set (rl := Z.to_nat ((IDAT.li_width info
                        * Pixels.determineFullPixelSize (IDAT.li_colorType info)
                        * IDAT.li_depth info + 7) / 8)).
  set (h := Z.to_nat (IDAT.li_height info)).
  assert (Hfps : 0 <= Pixels.determineFullPixelSize (IDAT.li_colorType info)).
  { destruct (IDAT.li_colorType info); vm_compute; congruence. }
  match goal with
  | |- context [if ?b then Filters.defilter ?x ?w ?f else ?y] =>
      replace (if b then Filters.defilter x w f else y) with y
  end.
  2:{ destruct (_ && _) eqn:Hb; [|reflexivity].
      apply andb_true_iff in Hb as [Hb _]. unfold BitDepths_EIGHT in Hb.
      assert (IDAT.li_depth info = 8) as Hd8 by lia.
      symmetry. apply defilter_pixelAndFilterData.
      subst rl. rewrite Hd8. f_equal. Z.div_mod_to_equations; lia. }
  fold (reloadedSamples (IDAT.li_depth info) h rl (IDAT._pixelData c)).
  apply reloadedSamples_take; [exact Hd|exact Hr|lia|].
  subst rl h. now apply rows_cover_samples.
Qed.

(** ** Chunk framing *)

Lemma uint32_digits (n : Z) :
  0 <= n < 2 ^ 32 ->
  (n / 2 ^ 24) mod 256 * 2 ^ 24 + (n / 2 ^ 16) mod 256 * 2 ^ 16
  + (n / 2 ^ 8) mod 256 * 2 ^ 8 + n mod 256 = n.
Proof.
  change (2 ^ 32) with 4294967296. change (2 ^ 24) with 16777216.
  change (2 ^ 16) with 65536. change (2 ^ 8) with 256.
  intros H. Z.div_mod_to_equations. lia.
Qed.

Lemma readUint32At_writeUint32 (n : Z) (rest : list Z) :
  0 <= n < 2 ^ 32 ->
  TypedArray.readUint32At (TypedArray.writeUint32 n ++ rest) 0 = n.
Proof. intros H. cbn -[Z.pow Z.div Z.modulo Z.mul Z.add]. now apply uint32_digits. Qed.

Lemma ChunkHeaderSequences_length (h : ChunkHeader) :
  length (ChunkHeaderSequences h) = 4%nat.
Proof. destruct h; reflexivity. Qed.

Lemma frame_length (crc : list Z -> Z) (h : ChunkHeader) (payload : list Z) :
  length (frame crc h payload) = (12 + length payload)%nat.
Proof.
  unfold frame. rewrite !length_app, ChunkHeaderSequences_length. cbn. lia.
Qed.

Lemma payloadOf_frame (crc : list Z -> Z) (h : ChunkHeader) (payload rest : list Z) :
  Z.of_nat (length payload) < 2 ^ 32 ->
  payloadOf (frame crc h payload ++ rest) = payload.
Proof.
  intros Hlen. unfold payloadOf.
  assert (Hn : TypedArray.readUint32At (frame crc h payload ++ rest) 0
               = Z.of_nat (length payload)).
  { unfold frame. rewrite <- app_assoc. apply readUint32At_writeUint32. lia. }
  rewrite Hn, length_app, frame_length.
  replace (Z.min _ _) with (Z.of_nat (length payload)) by lia.
  rewrite Nat2Z.id. unfold frame. change (Z.to_nat Chunk.calculateDataOffset) with 8%nat.
  rewrite <- !app_assoc.
  rewrite (app_assoc (TypedArray.writeUint32 _)).
  rewrite drop_app_length' by (rewrite length_app, ChunkHeaderSequences_length; reflexivity).
  now rewrite take_app_length.
Qed.

Lemma toUint8_id (v : Z) : 0 <= v < 256 -> TypedArray.toUint8 v = v.
Proof. intros H. unfold TypedArray.toUint8. now apply Z.mod_small. Qed.

(** The header chunk parses back to the metadata it was written from. *)
Lemma IHDR_load_update (crc : list Z -> Z) (m : MetaData) (rest : list Z) :
  0 <= m_width m < 2 ^ 32 -> 0 <= m_height m < 2 ^ 32 ->
  0 <= m_depth m < 256 -> 0 <= m_colorType m < 256 ->
  0 <= m_compression m < 256 -> 0 <= m_filter m < 256 -> 0 <= m_interlace m < 256 ->
  IHDR.load (IHDR.update crc m ++ rest) = m.
Proof.
  intros Hw Hh Hd Hc Hco Hf Hi. destruct m as [w h d c co f i]. cbn in *.
  unfold IHDR.load, IHDR.update, frame, IHDR.payloadBytes.
  cbn -[Z.pow Z.div Z.modulo Z.mul Z.add TypedArray.toUint8].
  rewrite !toUint8_id by assumption.
  f_equal; now apply uint32_digits.
Qed.

(** ** Palette and transparency chunks *)

Lemma colorsOf_payloadBytes (palette : list (list Z)) (max : Z) :
  Forall isByteTriple palette ->
  PLTE.colorsOf (PLTE.payloadBytes (PLTE.mk max palette)) = palette.
Proof.
  unfold PLTE.payloadBytes. cbn [PLTE._palette].
  induction 1 as [|color palette [Hlen Hb] _ IH]; [reflexivity|].
  destruct color as [|r [|g [|b [|? ?]]]]; try discriminate Hlen.
  apply Forall_cons in Hb as [Hr Hb]. apply Forall_cons in Hb as [Hg Hb].
  apply Forall_cons in Hb as [Hb _]. unfold isByte in *.
  cbn [flat_map]. change (TypedArray.takePad 3 [r; g; b]) with [r; g; b].
  cbn [map app PLTE.colorsOf]. rewrite IH, !toUint8_id by lia. reflexivity.
Qed.

Lemma payloadBytes_length (plte : PLTE.t) :
  length (PLTE.payloadBytes plte) = (3 * length (PLTE._palette plte))%nat.
Proof.
  unfold PLTE.payloadBytes. induction (PLTE._palette plte) as [|c p IH]; [reflexivity|].
  cbn [flat_map length]. rewrite length_app, length_map, takePad_length, IH. lia.
Qed.

(** The palette chunk parses back to the table it was written from. *)
Lemma PLTE_load_update (crc : list Z -> Z) (plte : PLTE.t) (max : Z) (rest : list Z) :
  Forall isByteTriple (PLTE._palette plte) ->
  3 * Z.of_nat (length (PLTE._palette plte)) < 2 ^ 32 ->
  PLTE.load (PLTE.new max) (PLTE.update crc plte ++ rest)
  = PLTE.mk max (PLTE._palette plte).
Proof.
  intros Hp Hlen. unfold PLTE.load, PLTE.update.
  rewrite payloadOf_frame by (rewrite payloadBytes_length; lia).
  destruct plte as [m palette]. cbn [PLTE._palette PLTE.new PLTE._maxNumberOfColors] in *.
  now rewrite colorsOf_payloadBytes.
Qed.

(** The alpha a reader sees for a palette index: the stored one, else 255. *)
Lemma TRNS_load_update_alpha (crc : list Z -> Z) (trns : TRNS.t) (np max : Z)
    (rest : list Z) (i : Z) :
  Pixels.isIndexed (TRNS._colorType trns) = true ->
  alphasAreBytes (TRNS._alphas trns) ->
  Z.of_nat (length (TRNS._alphas trns)) < 2 ^ 32 ->
  default 255 (TRNS.getValueOf
                 (TRNS.load (TRNS.new (TRNS._colorType trns) np max)
                            (TRNS.update crc trns ++ rest)) i)
  = default 255 (TRNS.getValueOf trns i).
Proof.
  intros Hi Hb Hlen. unfold TRNS.load, TRNS.update.
  rewrite payloadOf_frame.
  2:{ unfold TRNS.payloadBytes. rewrite Hi, length_map. exact Hlen. }
  cbn [TRNS.new TRNS._colorType]. rewrite Hi.
  unfold TRNS.getValueOf, TRNS.payloadBytes. rewrite Hi. cbn [TRNS._alphas].
  destruct (i <? 0); [reflexivity|].
  rewrite !list_lookup_fmap.
  destruct (TRNS._alphas trns !! Z.to_nat i) as [o|] eqn:Ho; [|reflexivity].
  cbn. destruct o as [a|]; [|reflexivity]. cbn.
  apply toUint8_id.
  unfold alphasAreBytes in Hb. rewrite Forall_forall in Hb.
  specialize (Hb (Some a) ltac:(eapply list_elem_of_lookup_2; exact Ho) a eq_refl).
  unfold isByte in Hb. lia.
Qed.

(** Loading a background chunk into a fresh chunk object never fails. *)
Lemma BKGD_load_new_total (ct : ColorType) (bufView : list Z) :
  exists chunk,
    BKGD.load TypedArray.readUint8At TypedArray.readUint16At (BKGD.new ct) bufView
    = Ok chunk.
Proof. destruct ct; eexists; reflexivity. Qed.

(** ** Reading pixels from documents that look the same *)

Lemma take_eq_lookup (n i : nat) (l l' : list Z) :
  take n l' = take n l -> (i < n)%nat -> l' !! i = l !! i.
Proof.
  intros Ht Hi. rewrite <- (lookup_take_lt l' n i), <- (lookup_take_lt l n i) by exact Hi.
  now rewrite Ht.
Qed.

Lemma take_eq_slice (n i k : nat) (l l' : list Z) :
  take n l' = take n l -> (i + k <= n)%nat ->
  take k (drop i l') = take k (drop i l).
Proof.
  intros Ht Hik. rewrite !take_drop_commute.
  assert (Hin : forall m : list Z, take (i + k) m = take (i + k) (take n m)).
  { intros m. rewrite take_take. f_equal. lia. }
  now rewrite (Hin l'), (Hin l), Ht.
Qed.

Lemma take_eq_length (n : nat) (l l' : list Z) :
  take n l' = take n l -> (n <= length l)%nat -> (n <= length l')%nat.
Proof.
  intros Ht Hn. apply (f_equal length) in Ht. rewrite !length_take in Ht. lia.
Qed.

Lemma getColorOf_palette (p p' : PLTE.t) (i : Z) :
  PLTE._palette p' = PLTE._palette p -> PLTE.getColorOf p' i = PLTE.getColorOf p i.
Proof. intros H. unfold PLTE.getColorOf. now rewrite H. Qed.

Lemma pixel_index_bounds (w h fps x y : Z) :
  0 <= x < w -> 0 <= y < h -> 0 < fps ->
  0 <= y * (w * fps) + x * fps
  /\ y * (w * fps) + x * fps + fps <= w * h * fps.
Proof.
  intros Hx Hy Hf. split.
  - assert (0 <= w * fps) by (apply Z.mul_nonneg_nonneg; lia).
    assert (0 <= y * (w * fps)) by (apply Z.mul_nonneg_nonneg; lia).
    assert (0 <= x * fps) by (apply Z.mul_nonneg_nonneg; lia).
    lia.
  - replace (y * (w * fps) + x * fps + fps) with ((y * w + x + 1) * fps) by ring.
    replace (w * h * fps) with ((h * w) * fps) by ring.
    apply Z.mul_le_mono_nonneg_r; [lia|].
    assert (y * w <= (h - 1) * w) by (apply Z.mul_le_mono_nonneg_r; lia).
    lia.
Qed.

Lemma getPixelOf_sameView (c c' : IDAT.t) (n : nat) (index : Z) :
  IDAT.fullPixelSize c' = IDAT.fullPixelSize c ->
  take n (IDAT._pixelData c') = take n (IDAT._pixelData c) ->
  (n <= length (IDAT._pixelData c))%nat ->
  0 < IDAT.fullPixelSize c ->
  0 <= index -> index + IDAT.fullPixelSize c <= Z.of_nat n ->
  IDATAccess.getPixelOf c' index = IDATAccess.getPixelOf c index.
Proof.
  intros Hf Ht Hn Hpos Hi Hle.
  pose proof (take_eq_length n _ _ Ht Hn) as Hn'.
  unfold IDATAccess.getPixelOf. rewrite Hf.
  destruct (IDAT.fullPixelSize c =? 1).
  - unfold readAt. destruct (Z.ltb_spec index 0); [lia|].
    rewrite (take_eq_lookup n (Z.to_nat index) _ _ Ht) by lia. reflexivity.
  - unfold readTuple.
    destruct (Z.ltb_spec index 0); [lia|]. cbn [orb].
    destruct (Z.ltb_spec (Z.of_nat (length (IDAT._pixelData c')))
                (index + IDAT.fullPixelSize c)); [lia|].
    destruct (Z.ltb_spec (Z.of_nat (length (IDAT._pixelData c)))
                (index + IDAT.fullPixelSize c)); [lia|].
    rewrite (take_eq_slice n (Z.to_nat index) (Z.to_nat (IDAT.fullPixelSize c)) _ _ Ht)
      by lia.
    reflexivity.
Qed.

Lemma getPixelAt_sameView (d d' : RnPng.t) (x y : Z) :
  sameView d d' ->
  layoutApplied d ->
  RnPng._width d * RnPng._height d * Pixels.determineFullPixelSize (RnPng._colorType d)
  <= Z.of_nat (length (pixelDataOf d)) ->
  0 <= x < RnPng._width d -> 0 <= y < RnPng._height d ->
  RnPng.getPixelAt d' (XY x y) = RnPng.getPixelAt d (XY x y).
Proof.
  intros (Hw & Hct & Hfps & Htake & Hpal & Htr) Hlay Hlen Hx Hy.
  assert (Hpos : 0 < Pixels.determineFullPixelSize (RnPng._colorType d))
    by (destruct (RnPng._colorType d); reflexivity).
  pose proof (pixel_index_bounds _ (RnPng._height d) _ x y Hx Hy Hpos) as [Hi0 Hi1].
  assert (Hpx : IDATAccess.getPixelOf (RnPng.c_IDAT (RnPng._chunks d'))
                  (RnPng.resolvePos d' (XY x y))
                = IDATAccess.getPixelOf (RnPng.c_IDAT (RnPng._chunks d))
                    (RnPng.resolvePos d (XY x y))).
  { unfold RnPng.resolvePos, RnPng._translateXyToIndex. rewrite Hw, Hct.
    fold (Pixels.determineFullPixelSize (RnPng._colorType d)).
    eapply getPixelOf_sameView; [exact Hfps|exact Htake|..]; rewrite ?Hlay; try lia.
    unfold pixelDataOf in Hlen. lia. }
  unfold RnPng.getPixelAt, RnPng.hasAlphaChannel, RnPng.isIndexed in *.
  rewrite Hct, Hpx.
  destruct (Pixels.hasAlphaSample (RnPng._colorType d)); [reflexivity|].
  destruct (Pixels.isIndexed (RnPng._colorType d)); [|reflexivity].
  specialize (Htr eq_refl).
  destruct (RnPng.c_PLTE (RnPng._chunks d')) as [p'|],
           (RnPng.c_PLTE (RnPng._chunks d)) as [p|]; try discriminate; [|reflexivity].
  injection Hpal as Hpal.
  clear Hpx.
  destruct (IDATAccess.getPixelOf _ _) as [|v|l]; try reflexivity.
  rewrite (getColorOf_palette p p' v Hpal).
  destruct (PLTE.getColorOf p v); [|reflexivity]. cbn [rbind].
  destruct (RnPng.c_tRNS (RnPng._chunks d')) as [t'|],
           (RnPng.c_tRNS (RnPng._chunks d)) as [t|]; try contradiction; [|reflexivity].
  now rewrite Htr.
Qed.

(** ** The scan of [from] *)

Lemma isPrefixOf_app (seq rest : list Z) : TypedArray.isPrefixOf seq (seq ++ rest) = true.
Proof.
  induction seq as [|s seq IH]; [reflexivity|]. cbn. now rewrite Z.eqb_refl, IH.
Qed.

Lemma indexOfFrom_app_found (seq pre suffix : list Z) (i : Z) :
  seq <> [] -> TypedArray.isPrefixOf seq suffix = true ->
  i <= TypedArray.indexOfFrom (pre ++ suffix) seq i.
Proof.
  intros Hne Hp. revert i. induction pre as [|x pre IH]; intros i.
  - destruct suffix as [|y suffix].
    + destruct seq; [contradiction|discriminate].
    + cbn [app TypedArray.indexOfFrom]. rewrite Hp. lia.
  - cbn [app TypedArray.indexOfFrom].
    destruct (TypedArray.isPrefixOf seq (x :: pre ++ suffix)); [lia|].
    specialize (IH (i + 1)). lia.
Qed.

Lemma verify_found (seq pre rest : list Z) :
  seq <> [] -> RnPng.verify (pre ++ seq ++ rest) seq = true.
Proof.
  intros Hne. unfold RnPng.verify, TypedArray.indexOfSequence.
  change (drop (Z.to_nat 0) ?l) with l. change (Z.max 0 0) with 0.
  pose proof (indexOfFrom_app_found seq pre (seq ++ rest) 0 Hne (isPrefixOf_app _ _)).
  destruct (Z.eqb_spec (TypedArray.indexOfFrom (pre ++ seq ++ rest) seq 0) (-1)); [lia|].
  reflexivity.
Qed.

Lemma subarrayFrom_0 (l : list Z) : TypedArray.subarrayFrom l 0 = l.
Proof. reflexivity. Qed.

Lemma subarrayFrom_skip (x rest : list Z) (off : Z) :
  Z.of_nat (length x) <= off ->
  TypedArray.subarrayFrom (x ++ rest) off
  = TypedArray.subarrayFrom rest (off - Z.of_nat (length x)).
Proof.
  intros H. unfold TypedArray.subarrayFrom.
  destruct (Z.ltb_spec off 0); [lia|].
  destruct (Z.ltb_spec (off - Z.of_nat (length x)) 0); [lia|].
  rewrite drop_app_ge by lia. f_equal. lia.
Qed.

Lemma fromStep_found (inflate : list Z -> list Z) (bufView : list Z)
    (d d' : RnPng.t) (s p : Z) (h : ChunkHeader) :
  h <> H_IEND ->
  TypedArray.indexOfSequence bufView (ChunkHeaderSequences h) s = p ->
  0 <= p ->
  RnPng._loadChunk inflate d h (TypedArray.subarrayFrom bufView (p - 4)) = Ok d' ->
  RnPng.fromStep inflate bufView (Ok (d, s)) h = Ok (d', p + 4).
Proof.
  intros Hh Hidx Hp Hload. unfold RnPng.fromStep. cbn [rbind fst snd].
  rewrite Hidx. destruct (Z.eqb_spec p (-1)); [lia|].
  change Chunk.CHUNK_LENGTH_SIZE with 4. rewrite Hload.
  destruct h; try reflexivity. contradiction.
Qed.

Lemma fromStep_absent (inflate : list Z -> list Z) (bufView : list Z)
    (d : RnPng.t) (s : Z) (h : ChunkHeader) :
  TypedArray.indexOfSequence bufView (ChunkHeaderSequences h) s = -1 ->
  RnPng.fromStep inflate bufView (Ok (d, s)) h = Ok (d, s).
Proof.
  intros Hidx. unfold RnPng.fromStep. cbn [rbind fst snd]. rewrite Hidx.
  destruct h; reflexivity.
Qed.

Lemma colorTypeOfCode_colorTypeCode (ct : ColorType) :
  colorTypeOfCode (colorTypeCode ct) = Some ct.
Proof. destruct ct; reflexivity. Qed.

Lemma applyMetaData_getMetaData (ctxt d : RnPng.t) :
  validMetaData d ->
  RnPng._applyMetaData ctxt (RnPng.getMetaData d)
  = Ok (RnPng.mk (RnPng._width d) (RnPng._height d) (RnPng._depth d)
                 (RnPng._colorType d) (RnPng._compression d) (RnPng._filter d)
                 (RnPng._interlace d) (RnPng._chunks ctxt)).
Proof.
  intros (_ & _ & Hd & _). unfold RnPng._applyMetaData, RnPng.getMetaData.
  cbn [m_depth m_colorType m_width m_height m_compression m_filter m_interlace].
  rewrite colorTypeOfCode_colorTypeCode.
  destruct Hd as [-> | [-> | [-> | ->]]]; reflexivity.
Qed.

Lemma getBuffer_layout (deflate : list Z -> list Z) (crc : list Z -> Z) (d : RnPng.t) :
  RnPng.getBuffer deflate crc d
  = PNG_SIGNATURE
    ++ IHDR.update crc (RnPng.c_IHDR (RnPng._chunks d))
    ++ default [] (PLTE.update crc <$> RnPng.c_PLTE (RnPng._chunks d))
    ++ default [] (TRNS.update crc <$> RnPng.c_tRNS (RnPng._chunks d))
    ++ default [] (BKGD.update crc <$> RnPng.c_bKGD (RnPng._chunks d))
    ++ IDAT.update deflate crc (RnPng.c_IDAT (RnPng._chunks d))
    ++ IEND.update crc.
Proof.
  unfold RnPng.getBuffer, SupportedChunks. cbn [omap list_omap RnPng.chunkBuffer].
  destruct (RnPng.c_PLTE _), (RnPng.c_tRNS _), (RnPng.c_bKGD _);
    cbn [fmap option_fmap option_map concat default app];
    now rewrite ?app_nil_r.
Qed.

(** ** The stored-block codec *)

Lemma readBlocks_storedBlocks (fuel1 : nat) :
  forall (data tail : list Z) (fuel2 : nat),
    (length data < fuel1)%nat ->
    (length (StoredZlib.storedBlocks fuel1 data ++ tail) <= fuel2)%nat ->
    StoredZlib.readBlocks fuel2 (StoredZlib.storedBlocks fuel1 data ++ tail) = data.
Proof.
  induction fuel1 as [|fuel1 IH]; intros data tail fuel2 Hlt Hfuel; [lia|].
  cbn [StoredZlib.storedBlocks] in *.
  set (block := take StoredZlib.BLOCK_SIZE data) in *.
  set (rest := drop StoredZlib.BLOCK_SIZE data) in *.
  assert (Hdata : data = block ++ rest) by (symmetry; apply take_drop).
  assert (Hblock : (length block <= Z.to_nat 65535)%nat).
  { subst block. rewrite length_take. unfold StoredZlib.BLOCK_SIZE. lia. }
  cbn [app] in *. destruct fuel2 as [|fuel2]; [cbn [length] in Hfuel; lia|].
  cbn [StoredZlib.readBlocks].
  replace (Z.to_nat (Z.of_nat (length block) mod 256
                     + 256 * (Z.of_nat (length block) / 256)))
    with (length block)
    by (pose proof (Z.div_mod (Z.of_nat (length block)) 256 ltac:(lia)); lia).
  rewrite <- app_assoc, take_app_length, drop_app_length.
  destruct rest as [|r rest'] eqn:Hrest.
  - cbn [Z.eqb Pos.eqb]. rewrite Hdata. reflexivity.
  - change (0 =? 1) with false. cbv iota.
    rewrite IH.
    + exact (eq_sym Hdata).
    + assert (length data = (length block + length (r :: rest'))%nat)
        by (rewrite Hdata at 1; apply length_app).
      assert (length block = StoredZlib.BLOCK_SIZE).
      { subst block. rewrite length_take. apply Nat.min_l.
        destruct (Nat.le_gt_cases StoredZlib.BLOCK_SIZE (length data)) as [Hle|Hgt];
          [exact Hle|].
        subst rest. rewrite drop_ge in Hrest by lia. discriminate. }
      unfold StoredZlib.BLOCK_SIZE in *. lia.
    + cbn [length] in Hfuel. rewrite !length_app in Hfuel. rewrite !length_app. lia.
Qed.

(** The stored-block codec recovers its input whatever follows the stream. *)
Lemma StoredZlib_inflate_deflate (data trailing : list Z) :
  StoredZlib.inflate (StoredZlib.deflate data ++ trailing) = data.
Proof.
  unfold StoredZlib.inflate, StoredZlib.deflate.
  cbn [app drop]. rewrite <- app_assoc.
  apply readBlocks_storedBlocks; [lia|]. cbn [length]. rewrite !length_app. lia.
Qed.

(** ** Save, then load *)

Lemma subarrayFrom_here (l : list Z) (off : Z) : off = 0 -> TypedArray.subarrayFrom l off = l.
Proof. now intros ->. Qed.

Lemma IHDR_update_length (crc : list Z -> Z) (m : MetaData) :
  length (IHDR.update crc m) = 25%nat.
Proof. reflexivity. Qed.

Lemma getBuffer_verifies (deflate : list Z -> list Z) (crc : list Z -> Z) (d : RnPng.t) :
  let bufView := RnPng.getBuffer deflate crc d in
  RnPng.verify bufView PNG_SIGNATURE = true
  /\ RnPng.verify bufView (ChunkHeaderSequences H_IHDR) = true
  /\ RnPng.verify bufView (ChunkHeaderSequences H_IDAT) = true
  /\ RnPng.verify bufView (ChunkHeaderSequences H_IEND) = true.
Proof.
  intros bufView. subst bufView. rewrite getBuffer_layout.
  set (P := default [] (PLTE.update crc <$> _)).
  set (T := default [] (TRNS.update crc <$> _)).
  set (K := default [] (BKGD.update crc <$> _)).
  split; [|split; [|split]].
  - apply (verify_found PNG_SIGNATURE []). discriminate.
  - unfold IHDR.update, frame. rewrite <- !app_assoc.
    rewrite (app_assoc PNG_SIGNATURE). apply verify_found. discriminate.
  - unfold IDAT.update. cbv zeta. rewrite <- !app_assoc.
    rewrite 5!(app_assoc _ _ (ChunkHeaderSequences H_IDAT ++ _)).
    apply verify_found. discriminate.
  - unfold IEND.update, frame. rewrite <- ?app_assoc.
    rewrite 6!(app_assoc _ _ (ChunkHeaderSequences H_IEND ++ _)).
    apply verify_found. discriminate.
Qed.


Lemma fromStep_found_at (inflate : list Z -> list Z) (bufView : list Z)
    (d d' : RnPng.t) (s s0 p : Z) (h : ChunkHeader) :
  h <> H_IEND ->
  TypedArray.indexOfSequence bufView (ChunkHeaderSequences h) s0 = p ->
  s = s0 -> 0 <= p ->
  RnPng._loadChunk inflate d h (TypedArray.subarrayFrom bufView (p - 4)) = Ok d' ->
  RnPng.fromStep inflate bufView (Ok (d, s)) h = Ok (d', p + 4).
Proof. intros Hh Hidx -> Hp Hl. now apply fromStep_found. Qed.

Lemma fromStep_absent_at (inflate : list Z -> list Z) (bufView : list Z)
    (d : RnPng.t) (s s0 : Z) (h : ChunkHeader) :
  TypedArray.indexOfSequence bufView (ChunkHeaderSequences h) s0 = -1 ->
  s = s0 ->
  RnPng.fromStep inflate bufView (Ok (d, s)) h = Ok (d, s).
Proof. intros Hidx ->. now apply fromStep_absent. Qed.

Lemma BKGD_load_new_ok (ct : ColorType) (bufView : list Z) :
  BKGD.load TypedArray.readUint8At TypedArray.readUint16At (BKGD.new ct) bufView
  = Ok (match BKGD.load TypedArray.readUint8At TypedArray.readUint16At
                (BKGD.new ct) bufView with
        | Ok chunk => chunk
        | Err _ => BKGD.new ct
        end).
Proof. destruct (BKGD_load_new_total ct bufView) as [chunk ->]. reflexivity. Qed.

Lemma update_lengths (crc : list Z -> Z) :
  (forall p, length (PLTE.update crc p) = (12 + length (PLTE.payloadBytes p))%nat)
  /\ (forall t, length (TRNS.update crc t) = (12 + length (TRNS.payloadBytes t))%nat).
Proof. split; intros; apply frame_length. Qed.

(** The tactics that walk the chunk loop of [from] over a buffer laid out
    by [getBuffer]. *)
Ltac subarray_at HB :=
  rewrite HB;
  repeat (rewrite subarrayFrom_skip by (cbn [length PNG_SIGNATURE]; lia));
  rewrite subarrayFrom_here by (cbn [length PNG_SIGNATURE]; lia).

Ltac document_fields :=
  cbn [RnPng._width RnPng._height RnPng._depth RnPng._colorType RnPng._compression
       RnPng._filter RnPng._interlace RnPng._chunks RnPng.c_IHDR RnPng.c_PLTE
       RnPng.c_tRNS RnPng.c_bKGD RnPng.c_IDAT RnPng.setChunks RnPng.setIDAT
       RnPng.setPLTE RnPng.settRNS RnPng.setbKGD RnPng.setIHDR].

Ltac load_goal h HM Hpal :=
  lazymatch h with
  | H_IHDR => apply HM
  | H_PLTE =>
      unfold RnPng._loadChunk; document_fields;
      rewrite PLTE_load_update by (apply Hpal; reflexivity); reflexivity
  | H_bKGD =>
      unfold RnPng._loadChunk; document_fields;
      rewrite BKGD_load_new_ok; reflexivity
  | _ => unfold RnPng._loadChunk; document_fields; reflexivity
  end.

Ltac scan_step HB HM Hpal :=
  match goal with
  | H : TypedArray.indexOfSequence ?B (ChunkHeaderSequences ?h) ?s0 = -1 |- _ =>
      rewrite (fromStep_absent_at _ B _ _ s0 h H) by lia; clear H
  | H : TypedArray.indexOfSequence ?B (ChunkHeaderSequences ?h) ?s0 = ?p |- _ =>
      erewrite (fromStep_found_at _ B _ _ _ s0 p h ltac:(discriminate) H);
      [ clear H | lia | lia | subarray_at HB; load_goal h HM Hpal ]
  end.

Section RoundTrip.
Variable deflate : list Z -> list Z.
Variable inflate : list Z -> list Z.
Variable calculateCrc32 : list Z -> Z.


End RoundTrip.


(** ** Where the round trip breaks *)

(** C1: the round trip fails on a document the claim covers, by a defect
    of [from].  The stored-block codec satisfies inflate(deflate(b)) = b; the
    2x1 truecolor document with pixels (80,76,84) and (69,0,0) is built by
    the constructor and two calls of [setPixelAt], so its metadata is valid
    and its buffer fully written; its serialized pixel data contains the
    bytes of "PLTE", which the scan of [from] takes for a palette chunk, and
    the search for the pixel-data chunk then starts behind its type field.
    [from] returns normally, the pixel-data chunk is never loaded, and
    [getPixelAt([0,0])] on the reloaded document is undefined (on a fresh
    document of the same metadata: black) where the original returns
    (80,76,84). *)
Lemma roundtrip_fails_when_samples_spell_a_chunk_type :
  (forall b, StoredZlib.inflate (StoredZlib.deflate b) = b)
  /\ RnPng.new truecolorOptions = Ok truecolorDoc
  /\ (do d <- RnPng.setPixelAt truecolorDoc (XY 0 0) (Array [80; 76; 84]);
      RnPng.setPixelAt d (XY 1 0) (Array [69; 0; 0])) = Ok plteSpellingDoc
  /\ RnPng.new defaultOptions = Ok freshDocument
  /\ RnPng.getPixelAt plteSpellingDoc (XY 0 0) = Ok (PTuple [80; 76; 84])
  /\ (exists d',
        RnPng.from StoredZlib.inflate freshDocument
          (RnPng.getBuffer StoredZlib.deflate crc32 plteSpellingDoc) = Ok d'
        /\ RnPng.getMetaData d' = RnPng.getMetaData plteSpellingDoc
        /\ RnPng.getPixelAt d' (XY 0 0) = Ok PUndefined)
  /\ (exists d',
        RnPng.from StoredZlib.inflate truecolorDoc
          (RnPng.getBuffer StoredZlib.deflate crc32 plteSpellingDoc) = Ok d'
        /\ RnPng.getPixelAt d' (XY 0 0) = Ok (PTuple [0; 0; 0])).
Proof.
  split.
  { intros b. rewrite <- (app_nil_r (StoredZlib.deflate b)).
    apply StoredZlib_inflate_deflate. }
  do 4 (split; [vm_compute; reflexivity|]).
  split.
  - exists (orBlank (RnPng.from StoredZlib.inflate freshDocument
                       (RnPng.getBuffer StoredZlib.deflate crc32 plteSpellingDoc))).
    split; [|split]; vm_compute; reflexivity.
  - exists (orBlank (RnPng.from StoredZlib.inflate truecolorDoc
                       (RnPng.getBuffer StoredZlib.deflate crc32 plteSpellingDoc))).
    split; vm_compute; reflexivity.
Qed.

(** The codec law inflate(deflate(b)) = b alone does not suffice: [load]
    hands [inflate] every byte from the data offset to the end of the buffer,
    so a codec that reads its input backwards decodes the end marker
    instead of the pixel data. *)
Lemma roundtrip_fails_when_inflate_reads_trailing_bytes :
  (forall b : list Z, rev (rev b) = b)
  /\ RnPng.getPixelAt numberedDoc (XY 0 0) = Ok (PTuple [1; 2; 3])
  /\ exists d',
       RnPng.from (@rev Z) freshDocument
         (RnPng.getBuffer (@rev Z) crc32 numberedDoc) = Ok d'
       /\ RnPng.getPixelAt d' (XY 0 0) = Ok (PTuple [96; 66; 174]).
Proof.
  split; [apply rev_involutive|]. split; [vm_compute; reflexivity|].
  exists (orBlank (RnPng.from (@rev Z) freshDocument
                     (RnPng.getBuffer (@rev Z) crc32 numberedDoc))).
  split; vm_compute; reflexivity.
Qed.

(** ** What the constructor establishes *)

(** X26: a document built by the constructor with width and height below
    2^32 has accepted metadata, a header chunk equal to [getMetaData()], a
    pixel-data chunk with the document's layout, a sample buffer that covers
    every pixel with samples below 2^depth, a palette of byte triples, and
    neither a transparency nor a background chunk.  These are the conditions
    of the round trip that concern the document alone; what it asks of the
    codec and of the scan of [from] is not among them (a width whose four
    bytes spell a chunk type, such as 1347179589 = "PLTE", defeats the
    scan). *)
Lemma constructor_establishes_document_invariants (options : RnPng.Options) (d : RnPng.t) :
  RnPng.new options = Ok d ->
  0 <= RnPng._width d < 2 ^ 32 -> 0 <= RnPng._height d < 2 ^ 32 ->
  validMetaData d /\ chunksAgree d /\ fullyWritten d /\ tablesStorable d /\ isFresh d.
Proof.
  unfold RnPng.new, RnPng._applyMetaData.
  cbn [m_depth m_colorType m_width m_height m_compression m_filter m_interlace].
  set (width := RnPng.orDefault _ 0). set (height := RnPng.orDefault _ 0).
  set (depth := RnPng.orDefault _ BitDepths_EIGHT).
  destruct (existsb (Z.eqb depth) BitDepths) eqn:Hin; [|discriminate].
  cbn [negb]. destruct (Z.ltb_spec BitDepths_EIGHT depth) as [|Hle]; [discriminate|].
  destruct (colorTypeOfCode _) as [ct|] eqn:Hct; [|discriminate].
  cbn [rbind]. intros [= <-] Hw Hh.
  unfold RnPng._initializeChunks, RnPng.setChunks in *.
  cbn [RnPng._width RnPng._height RnPng._depth RnPng._colorType RnPng._compression
       RnPng._filter RnPng._interlace] in *.
  assert (Hd : depth = 1 \/ depth = 2 \/ depth = 4 \/ depth = 8).
  { unfold BitDepths, BitDepths_EIGHT in *. cbn [existsb] in Hin.
    repeat (apply orb_true_iff in Hin as [Hin|Hin]; [apply Z.eqb_eq in Hin; lia|]).
    discriminate. }
  assert (Hfps : 0 < Pixels.determineFullPixelSize ct) by (destruct ct; reflexivity).
  split; [|split; [|split; [|split]]].
  - unfold validMetaData.
    cbn [RnPng._width RnPng._height RnPng._depth RnPng._compression RnPng._filter
         RnPng._interlace].
    unfold DEFAULT_COMPRESSION, DEFAULT_FILTER, DEFAULT_INTERLACE.
    split; [exact Hw|]. split; [exact Hh|]. split; [exact Hd|]. lia.
  - split; [reflexivity|]. split; [reflexivity|]. intros trns H. discriminate H.
  - split.
    + unfold pixelDataOf. cbn [RnPng._chunks RnPng.c_IDAT RnPng._width RnPng._height
                              RnPng._colorType].
      rewrite IDAT_new_buffer_length by lia.
      rewrite samplesPerPixel_fullPixelSize. lia.
    + apply Forall_replicate. unfold sampleInRange. cbn [RnPng._depth].
      destruct Hd as [-> | [-> | [-> | ->]]]; vm_compute; split; congruence.
  - split.
    + cbn [RnPng._chunks RnPng.c_PLTE]. intros plte Hp.
      destruct (Pixels.isIndexed ct); [|discriminate Hp].
      injection Hp as <-. split; [constructor|reflexivity].
    + intros _ trns H. discriminate H.
  - split; reflexivity.
Qed.

(** The scan condition is not the constructor's to give.  The document
    built for [plteWideOptions] has no palette; the scan of [from] does not
    find the chunks of its buffer in place, and the reloaded document has a
    palette, read from the bytes that follow the width. *)
Lemma scan_takes_width_bytes_for_a_palette :
  exists d d',
    RnPng.new plteWideOptions = Ok d
    /\ RnPng.getPalette d = Err NoPalette
    /\ headersFoundInPlace StoredZlib.deflate crc32 d = false
    /\ RnPng.from StoredZlib.inflate freshDocument
         (RnPng.getBuffer StoredZlib.deflate crc32 d) = Ok d'
    /\ RnPng.getMetaData d' = RnPng.getMetaData d
    /\ exists palette, RnPng.getPalette d' = Ok palette /\ length palette = 14%nat.
Proof.
  exists (orBlank (RnPng.new plteWideOptions)),
         (orBlank (RnPng.from StoredZlib.inflate freshDocument
                     (RnPng.getBuffer StoredZlib.deflate crc32
                        (orBlank (RnPng.new plteWideOptions))))).
  do 5 (split; [lazy; reflexivity|]).
  eexists. split; lazy; reflexivity.
Qed.

(** ** The sample buffer after [load] *)

Lemma removeFilterRows_length (h rl : nat) (data : list Z) :
  length (Filters.removeFilterRows h rl data) = (h * rl)%nat.
Proof.
  revert data. induction h as [|h IH]; intros data; [reflexivity|].
  cbn [Filters.removeFilterRows]. rewrite length_app, takePad_length, IH. lia.
Qed.

(** At depth 8 [load] leaves exactly width * height * fullPixelSize samples,
    whatever the codec returns. *)
Lemma IDAT_load_buffer_length (inflate : list Z -> list Z) (c : IDAT.t) (abuf : list Z) :
  IDAT._depth c = 8 -> 0 <= IDAT._width c -> 0 <= IDAT._height c ->
  Z.of_nat (length (IDAT._pixelData (IDAT.load inflate c abuf)))
  = IDAT._width c * IDAT._height c * Pixels.determineFullPixelSize (IDAT._colorType c).
Proof.
  intros Hd Hw Hh. unfold IDAT.load. cbn [IDAT.setPixelData IDAT._pixelData].
  rewrite Hd. cbn [TypedArray.unpackByteData Z.leb Z.compare Pos.compare Pos.compare_cont].
  rewrite !length_map. unfold Filters.removeFilterFields, Filters.determineDataRowLength.
  rewrite removeFilterRows_length.
  assert (0 <= Pixels.determineFullPixelSize (IDAT._colorType c))
    by (destruct (IDAT._colorType c); vm_compute; congruence).
  replace ((IDAT._width c * Pixels.determineFullPixelSize (IDAT._colorType c) * 8 + 7) / 8)
    with (IDAT._width c * Pixels.determineFullPixelSize (IDAT._colorType c))
    by (Z.div_mod_to_equations; lia).
  rewrite Nat2Z.inj_mul, !Z2Nat.id by (try apply Z.mul_nonneg_nonneg; lia). ring.
Qed.

(* ================================================================== *)
(** * Further properties of the code *)

(** ** Metadata validation *)

Lemma BitDepths_accepted (depth : Z) :
  (existsb (Z.eqb depth) BitDepths = true /\ (BitDepths_EIGHT <? depth) = false)
  <-> acceptedDepth depth.
Proof.
  unfold BitDepths, BitDepths_EIGHT, acceptedDepth. cbn [existsb]. split.
  - intros [Hin Hle]. apply Z.ltb_ge in Hle.
    repeat (apply orb_true_iff in Hin as [Hin|Hin]; [apply Z.eqb_eq in Hin; lia|]).
    discriminate.
  - intros [-> | [-> | [-> | ->]]]; split; reflexivity.
Qed.

Lemma colorTypeOfCode_accepted (code : Z) :
  acceptedColorTypeCode code
  <-> exists ct, colorTypeOfCode code = Some ct /\ colorTypeCode ct = code.
Proof.
  unfold acceptedColorTypeCode, colorTypeOfCode. split.
  - intros [-> | [-> | [-> | [-> | ->]]]]; eexists; split; reflexivity.
  - intros (ct & Hc & Hcode).
    repeat match type of Hc with
           | (if ?b then _ else _) = _ => destruct b eqn:?
           end; try discriminate; lia.
Qed.

(** X1: [_applyMetaData] lets a metadata record pass exactly when its depth
    is 1, 2, 4 or 8 and its color type is one of the codes 0, 2, 3, 4, 6.  A
    record that passes becomes the document's metadata unchanged, whatever
    its width and height, and the chunks are not touched; every other record
    is refused with an error and nothing is stored. *)
Theorem applyMetaData_accepts_iff (ctxt : RnPng.t) (metaData : MetaData) :
  (acceptedDepth (m_depth metaData) /\ acceptedColorTypeCode (m_colorType metaData) ->
   exists d,
     RnPng._applyMetaData ctxt metaData = Ok d
     /\ RnPng.getMetaData d = metaData
     /\ RnPng._chunks d = RnPng._chunks ctxt)
  /\ (~ (acceptedDepth (m_depth metaData)
         /\ acceptedColorTypeCode (m_colorType metaData)) ->
      RnPng._applyMetaData ctxt metaData = Err InvalidMetadata).
Proof.
  unfold RnPng._applyMetaData. split.
  - intros [Hd Hc]. apply BitDepths_accepted in Hd as [Hin Hle].
    apply colorTypeOfCode_accepted in Hc as (ct & Hct & Hcode).
    rewrite Hin, Hle, Hct. cbn [negb]. eexists. split; [reflexivity|].
    split; [|reflexivity].
    unfold RnPng.getMetaData. cbn. rewrite Hcode. now destruct metaData.
  - intros Hno.
    destruct (existsb (Z.eqb (m_depth metaData)) BitDepths) eqn:Hin; [|reflexivity].
    cbn [negb].
    destruct (BitDepths_EIGHT <? m_depth metaData) eqn:Hle; [reflexivity|].
    destruct (colorTypeOfCode (m_colorType metaData)) as [ct|] eqn:Hct; [|reflexivity].
    exfalso. apply Hno. split.
    + apply BitDepths_accepted. now split.
    + apply colorTypeOfCode_accepted. exists ct. split; [exact Hct|].
      unfold colorTypeOfCode in Hct.
      repeat match type of Hct with
             | (if ?b then _ else _) = _ => destruct b eqn:?
             end; try discriminate; injection Hct as <-; cbn; lia.
Qed.

(** ** The constructor *)

Lemma new_inversion (options : RnPng.Options) (d : RnPng.t) :
  RnPng.new options = Ok d ->
  exists ct,
    colorTypeOfCode (RnPng.orDefault (RnPng.o_colorType options) (colorTypeCode INDEXED))
    = Some ct
    /\ d = RnPng._initializeChunks
             (RnPng.mk (RnPng.orDefault (RnPng.o_width options) 0)
                       (RnPng.orDefault (RnPng.o_height options) 0)
                       (RnPng.orDefault (RnPng.o_depth options) BitDepths_EIGHT)
                       ct DEFAULT_COMPRESSION DEFAULT_FILTER DEFAULT_INTERLACE
                       (RnPng._chunks RnPng.blank)).
Proof.
  unfold RnPng.new, RnPng._applyMetaData.
  cbn [m_depth m_colorType m_width m_height m_compression m_filter m_interlace].
  destruct (negb _); [discriminate|].
  destruct (_ <? _); [discriminate|].
  destruct (colorTypeOfCode _) as [ct|]; [|discriminate].
  cbn [rbind]. intros [= <-]. exists ct. split; reflexivity.
Qed.

(** X2: the constructor reads its options with [||], so the number 0 counts
    as an absent key: a document is never constructed as grayscale (color
    type 0); asking for color type 0 gives an indexed document with a palette
    chunk, and asking for depth 0 gives depth 8. *)
Theorem constructor_zero_options_fall_back (options : RnPng.Options) (d : RnPng.t) :
  RnPng.new options = Ok d ->
  RnPng._colorType d <> GRAYSCALE
  /\ (RnPng.o_colorType options = Some 0 ->
      RnPng._colorType d = INDEXED /\ RnPng.c_PLTE (RnPng._chunks d) <> None)
  /\ (RnPng.o_depth options = Some 0 -> RnPng._depth d = 8).
Proof.
  intros Hnew. apply new_inversion in Hnew as (ct & Hct & ->).
  cbn [RnPng._initializeChunks RnPng.setChunks RnPng._colorType RnPng._depth
       RnPng._chunks RnPng.c_PLTE].
  split; [|split].
  - intros ->. unfold RnPng.orDefault in Hct.
    destruct (RnPng.o_colorType options) as [v|]; [|discriminate].
    destruct (Z.eqb_spec v 0) as [Hv|Hv]; [subst v; discriminate|].
    unfold colorTypeOfCode in Hct. destruct (Z.eqb_spec v 0); [lia|].
    repeat match type of Hct with
           | (if ?b then _ else _) = _ => destruct b
           end; discriminate.
  - intros Ho. rewrite Ho in Hct. cbn in Hct. injection Hct as <-.
    split; [reflexivity|discriminate].
  - intros Ho. rewrite Ho. reflexivity.
Qed.

Lemma constructor_zero_options_fall_back_witness :
  RnPng.new (RnPng.mkOptions (Some 1) (Some 1) (Some 0) (Some 0))
  = Ok (orBlank (RnPng.new (RnPng.mkOptions (Some 1) (Some 1) (Some 0) (Some 0))))
  /\ RnPng._colorType
       (orBlank (RnPng.new (RnPng.mkOptions (Some 1) (Some 1) (Some 0) (Some 0))))
     <> GRAYSCALE.
Proof.
  split; [reflexivity|].
  apply (constructor_zero_options_fall_back
           (RnPng.mkOptions (Some 1) (Some 1) (Some 0) (Some 0))).
  reflexivity.
Defined.

(** X3: an indexed document comes out of the constructor with an empty
    palette and a zero-filled sample buffer, so until a pixel is set every
    palette lookup at a position of the buffer, and [getPixelAt] there, fails
    because the stored index 0 is not below the palette length 0. *)
Theorem fresh_indexed_document_lookups_fail (options : RnPng.Options) (d : RnPng.t)
    (i : Z) :
  RnPng.new options = Ok d ->
  RnPng.isIndexed d = true ->
  0 <= i < Z.of_nat (length (pixelDataOf d)) ->
  RnPng.getPalette d = Ok []
  /\ RnPng.getPaletteIndexAt d (Index i) = Err IndexOutOfRange
  /\ RnPng.getPaletteColorAt d (Index i) = Err IndexOutOfRange
  /\ RnPng.getPixelAt d (Index i) = Err IndexOutOfRange.
Proof.
  intros Hnew Hi Hr. apply new_inversion in Hnew as (ct & Hct & ->).
  unfold RnPng.isIndexed in Hi. cbn in Hi.
  destruct ct; try discriminate. clear Hi Hct.
  unfold pixelDataOf in Hr.
  cbn [RnPng._initializeChunks RnPng.setChunks RnPng._chunks RnPng.c_IDAT
       RnPng._width RnPng._height RnPng._depth RnPng._colorType IDAT.new
       IDAT._pixelData] in Hr.
  rewrite length_replicate in Hr.
  assert (Hv : readAt (replicate
                         (Z.to_nat (IDAT.calculatePixelAndFilterSize
                            (IDAT.applyLayoutInformation
                               (IDAT.mk 0 0 0 INDEXED 0 0 false [])
                               (IDAT.mkLayout
                                  (RnPng.orDefault (RnPng.o_width options) 0)
                                  (RnPng.orDefault (RnPng.o_height options) 0)
                                  (RnPng.orDefault (RnPng.o_depth options) BitDepths_EIGHT)
                                  INDEXED
                                  (Pixels.computeNumberOfPixels
                                     (RnPng.orDefault (RnPng.o_width options) 0)
                                     (RnPng.orDefault (RnPng.o_height options) 0))))))
                         0) i = Some 0).
  { unfold readAt. destruct (Z.ltb_spec i 0); [lia|].
    apply lookup_replicate. split; [reflexivity|lia]. }
  unfold RnPng.getPaletteColorAt, RnPng.getPaletteIndexAt, RnPng.getPalette,
         RnPng.getPixelAt, RnPng.hasAlphaChannel, RnPng.isIndexed,
         IDATAccess.getValueAt, IDATAccess.getPixelOf.
  cbn [RnPng._initializeChunks RnPng.setChunks RnPng._chunks RnPng.c_IDAT
       RnPng.c_PLTE RnPng._width RnPng._height RnPng._depth RnPng._colorType
       Pixels.isIndexed ColorType_eqb Pixels.hasAlphaSample RnPng.resolvePos
       IDAT.new IDAT._pixelData IDAT.fullPixelSize IDAT._pixelColorSize
       IDAT._hasAlphaSample IDAT.applyLayoutInformation IDAT.li_colorType
       Pixels.determinePixelColorSize PLTE.new PLTE.getPalette PLTE._palette
       rbind].
  cbn [Z.add Z.eqb Pos.eqb].
  rewrite Hv. cbn. repeat split.
Qed.

Lemma fresh_indexed_document_lookups_fail_witness :
  RnPng.getPixelAt (orBlank (RnPng.new (RnPng.mkOptions (Some 2) (Some 2) None None)))
                   (Index 3)
  = Err IndexOutOfRange.
Proof.
  apply (fresh_indexed_document_lookups_fail
           (RnPng.mkOptions (Some 2) (Some 2) None None) _ 3).
  - reflexivity.
  - reflexivity.
  - vm_compute. split; [discriminate|reflexivity].
Defined.

(** ** Coordinates *)

Lemma row_major_order (w fps x y x' y' : Z) :
  0 < fps -> 0 <= x < w -> 0 <= x' < w -> y < y' ->
  y * (w * fps) + x * fps + fps <= y' * (w * fps) + x' * fps.
Proof.
  intros Hf Hx Hx' Hy.
  assert (H1 : (x + 1) * fps <= w * fps) by (apply Z.mul_le_mono_nonneg_r; lia).
  assert (H2 : (y + 1) * (w * fps) <= y' * (w * fps)).
  { apply Z.mul_le_mono_nonneg_r; [|lia]. apply Z.mul_nonneg_nonneg; lia. }
  assert (H3 : 0 <= x' * fps) by (apply Z.mul_nonneg_nonneg; lia).
  lia.
Qed.

Lemma same_row_order (w fps x x' y : Z) :
  0 < fps -> x < x' ->
  y * (w * fps) + x * fps + fps <= y * (w * fps) + x' * fps.
Proof.
  intros Hf Hx.
  assert ((x + 1) * fps <= x' * fps) by (apply Z.mul_le_mono_nonneg_r; lia).
  lia.
Qed.

(** X4: [translateXyToIndex] lays the pixels out row by row without overlap:
    for coordinates inside the image the [fullPixelSize] samples of a pixel
    lie inside the first width * height * fullPixelSize entries, and the
    sample ranges of two different pixels are disjoint. *)
Theorem translateXyToIndex_ranges (c : IDAT.t) (x y x' y' : Z) :
  0 < IDAT.fullPixelSize c ->
  0 <= x < IDAT._width c -> 0 <= y < IDAT._height c ->
  0 <= x' < IDAT._width c -> 0 <= y' < IDAT._height c ->
  (0 <= IDAT.translateXyToIndex c x y
   /\ IDAT.translateXyToIndex c x y + IDAT.fullPixelSize c
      <= IDAT._width c * IDAT._height c * IDAT.fullPixelSize c)
  /\ ((x, y) <> (x', y') ->
      IDAT.translateXyToIndex c x y + IDAT.fullPixelSize c
      <= IDAT.translateXyToIndex c x' y'
      \/ IDAT.translateXyToIndex c x' y' + IDAT.fullPixelSize c
         <= IDAT.translateXyToIndex c x y).
Proof.
  intros Hf Hx Hy Hx' Hy'. unfold IDAT.translateXyToIndex. split.
  - apply pixel_index_bounds; assumption.
  - intros Hne.
    destruct (Z.lt_total y y') as [Hlt | [-> | Hgt]].
    + left. now apply row_major_order.
    + destruct (Z.lt_total x x') as [Hxl | [-> | Hxg]].
      * left. now apply same_row_order.
      * congruence.
      * right. now apply same_row_order.
    + right. now apply row_major_order.
Qed.

Lemma translateXyToIndex_ranges_witness :
  (0 <= IDAT.translateXyToIndex (RnPng.c_IDAT (RnPng._chunks truecolorDoc)) 1 0
   /\ IDAT.translateXyToIndex (RnPng.c_IDAT (RnPng._chunks truecolorDoc)) 1 0
      + IDAT.fullPixelSize (RnPng.c_IDAT (RnPng._chunks truecolorDoc))
      <= IDAT._width (RnPng.c_IDAT (RnPng._chunks truecolorDoc))
         * IDAT._height (RnPng.c_IDAT (RnPng._chunks truecolorDoc))
         * IDAT.fullPixelSize (RnPng.c_IDAT (RnPng._chunks truecolorDoc))).
Proof.
  apply (translateXyToIndex_ranges (RnPng.c_IDAT (RnPng._chunks truecolorDoc)) 1 0 0 0);
    vm_compute; repeat split; discriminate.
Defined.


(** ** Writes of the pixel-data chunk *)

Lemma readAt_writeAt_other (arr : list Z) (i j v : Z) :
  j <> i -> readAt (writeAt arr i v) j = readAt arr j.
Proof.
  intros Hne. unfold readAt, writeAt.
  destruct (Z.ltb_spec j 0); [reflexivity|].
  destruct (Z.ltb_spec i 0); [reflexivity|].
  apply list_lookup_insert_ne. lia.
Qed.

Lemma writeAt_outside (arr : list Z) (i v : Z) :
  i < 0 \/ Z.of_nat (length arr) <= i -> writeAt arr i v = arr.
Proof.
  intros Hout. unfold writeAt. destruct (Z.ltb_spec i 0); [reflexivity|].
  apply list_insert_ge. lia.
Qed.

Lemma setPixelData_same (c : IDAT.t) : IDAT.setPixelData c (IDAT._pixelData c) = c.
Proof. now destruct c. Qed.

(** X5: [setPixel] with an array writes three samples whatever the color
    type: the entries at index, index + 1 and index + 2 that lie inside the
    buffer receive the clamped first three entries of the array, a missing
    entry counting as 0; no other entry changes, the buffer keeps its length
    and the layout is untouched.  An array of one or two samples therefore
    zeroes the following entries, and a fourth sample is never written. *)
Theorem setPixel_array_writes_three (c : IDAT.t) (pos : Pos) (pixel : list Z) :
  let index := match pos with
               | XY x y => IDAT.translateXyToIndex c x y
               | Index i => i
               end in
  let c' := IDATAccess.setPixel c pos (Array pixel) in
  length (IDAT._pixelData c') = length (IDAT._pixelData c)
  /\ (forall k, 0 <= k < 3 ->
        0 <= index + k < Z.of_nat (length (IDAT._pixelData c)) ->
        readAt (IDAT._pixelData c') (index + k)
        = Some (clamp8 (default 0 (pixel !! Z.to_nat k))))
  /\ (forall j, j < index \/ index + 3 <= j ->
        readAt (IDAT._pixelData c') j = readAt (IDAT._pixelData c) j)
  /\ IDAT.fullPixelSize c' = IDAT.fullPixelSize c
  /\ IDAT._width c' = IDAT._width c.
Proof.
  intros index c'. subst c'. unfold IDATAccess.setPixel. fold index.
  unfold IDATAccess._setRgbPixel. cbn [IDAT.setPixelData IDAT._pixelData].
  split; [now rewrite !writeAt_length|]. split; [|split; [|split; reflexivity]].
  - intros k Hk Hin.
    assert (Hc : k = 0 \/ k = 1 \/ k = 2) by lia.
    destruct Hc as [-> | [-> | ->]].
    + rewrite !readAt_writeAt_other by lia. rewrite Z.add_0_r in *.
      now apply readAt_writeAt_same.
    + rewrite readAt_writeAt_other by lia.
      apply readAt_writeAt_same. now rewrite writeAt_length.
    + apply readAt_writeAt_same. now rewrite !writeAt_length.
  - intros j Hj. now rewrite !readAt_writeAt_other by lia.
Qed.

(** X6: [setPixel] with a number writes that one sample, clamped, when the
    index lies inside the buffer, and changes no other entry; with an index
    outside the buffer the write is dropped without an error and the chunk is
    left exactly as it was. *)
Theorem setPixel_number_writes_one (c : IDAT.t) (index value : Z) :
  let c' := IDATAccess.setPixel c (Index index) (Scalar value) in
  (0 <= index < Z.of_nat (length (IDAT._pixelData c)) ->
   readAt (IDAT._pixelData c') index = Some (clamp8 value))
  /\ (forall j, j <> index ->
        readAt (IDAT._pixelData c') j = readAt (IDAT._pixelData c) j)
  /\ (index < 0 \/ Z.of_nat (length (IDAT._pixelData c)) <= index -> c' = c).
Proof.
  intros c'. subst c'. unfold IDATAccess.setPixel, IDAT._setSingleValuePixel.
  cbn [IDAT.setPixelData IDAT._pixelData]. split; [|split].
  - intros Hin. now apply readAt_writeAt_same.
  - intros j Hj. now apply readAt_writeAt_other.
  - intros Hout. rewrite writeAt_outside by exact Hout. apply setPixelData_same.
Qed.

(** ** The palette indices in use *)

Lemma newSet_from (values acc : list Z) :
  NoDup acc ->
  let r := fold_left (fun acc v => if existsb (Z.eqb v) acc then acc else acc ++ [v])
                     values acc in
  NoDup r /\ (forall v, v ∈ r <-> v ∈ acc \/ v ∈ values).
Proof.
  revert acc. induction values as [|x values IH]; intros acc Hnd; cbn [fold_left].
  - split; [exact Hnd|]. intros v. rewrite elem_of_nil. tauto.
  - destruct (existsb (Z.eqb x) acc) eqn:Hex.
    + destruct (IH acc Hnd) as [Hr He]. split; [exact Hr|].
      intros v. rewrite He, elem_of_cons.
      apply existsb_exists in Hex as (x0 & Hin & Heq). apply Z.eqb_eq in Heq. subst x0.
      apply list_elem_of_In in Hin. split; [tauto|]. intros [H|[->|H]]; tauto.
    + assert (Hx : x ∉ acc).
      { intros Hin. apply list_elem_of_In in Hin.
        assert (existsb (Z.eqb x) acc = true); [|congruence].
        apply existsb_exists. exists x. split; [exact Hin|apply Z.eqb_refl]. }
      destruct (IH (acc ++ [x])) as [Hr He].
      { apply NoDup_app. split; [exact Hnd|]. split; [|apply NoDup_singleton].
        intros y Hy Hy'. apply list_elem_of_singleton in Hy'. now subst y. }
      split; [exact Hr|]. intros v. rewrite He, elem_of_app, list_elem_of_singleton, elem_of_cons.
      tauto.
Qed.

Lemma newSet_NoDup_id (values acc : list Z) :
  NoDup (acc ++ values) ->
  fold_left (fun acc v => if existsb (Z.eqb v) acc then acc else acc ++ [v]) values acc
  = acc ++ values.
Proof.
  revert acc. induction values as [|x values IH]; intros acc Hnd; cbn [fold_left].
  - now rewrite app_nil_r.
  - apply NoDup_app in Hnd as Hparts. destruct Hparts as (Ha & Hdis & Hv).
    destruct (existsb (Z.eqb x) acc) eqn:Hex.
    + apply existsb_exists in Hex as (x0 & Hin & Heq). apply Z.eqb_eq in Heq. subst x0.
      apply list_elem_of_In in Hin. exfalso. apply (Hdis x Hin). left.
    + rewrite IH; [now rewrite <- app_assoc|]. now rewrite <- app_assoc.
Qed.

Lemma insertAscending_Permutation (v : Z) (l : list Z) : insertAscending v l ≡ₚ v :: l.
Proof.
  induction l as [|x l IH]; cbn; [reflexivity|].
  destruct (v - x <? 0); [reflexivity|]. rewrite IH. apply Permutation_swap.
Qed.

Lemma insertAscending_sorted (v : Z) (l : list Z) :
  ascending l -> ascending (insertAscending v l).
Proof.
  induction l as [|x l IH]; cbn [insertAscending ascending].
  - intros _. split; [constructor|exact I].
  - intros [Hall Hs]. destruct (Z.ltb_spec (v - x) 0); cbn [ascending].
    + split; [|now split]. constructor; [lia|].
      eapply Forall_impl; [exact Hall|]. cbn. intros; lia.
    + split; [|now apply IH].
      rewrite insertAscending_Permutation. constructor; [lia|exact Hall].
Qed.

Lemma sortAscending_from (values acc : list Z) :
  ascending acc ->
  let r := fold_left (fun acc v => insertAscending v acc) values acc in
  ascending r /\ r ≡ₚ acc ++ values.
Proof.
  revert acc. induction values as [|x values IH]; intros acc Hs; cbn [fold_left].
  - split; [exact Hs|now rewrite app_nil_r].
  - destruct (IH (insertAscending x acc) (insertAscending_sorted x acc Hs)) as [Hr Hp].
    split; [exact Hr|]. rewrite Hp, insertAscending_Permutation.
    cbn [app]. apply Permutation_middle.
Qed.

Lemma sorted_NoDup_strictlyAscending (l : list Z) :
  ascending l -> NoDup l -> strictlyAscending l.
Proof.
  induction l as [|x l IH]; intros Hs Hnd i j a b Hij Ha Hb.
  - now rewrite lookup_nil in Ha.
  - destruct Hs as [Hall Hs]. apply NoDup_cons in Hnd as [Hx Hnd].
    destruct j as [|j]; [lia|]. cbn in Hb.
    destruct i as [|i]; cbn in Ha.
    + injection Ha as <-.
      assert (Hin : b ∈ l) by (eapply list_elem_of_lookup_2; exact Hb).
      rewrite Forall_forall in Hall. specialize (Hall b Hin).
      assert (x <> b) by (intros ->; contradiction). lia.
    + eapply (IH Hs Hnd i j); [lia|exact Ha|exact Hb].
Qed.

(** X7: on an indexed pixel-data chunk [getPixelPaletteIndices] lists exactly
    the values that occur in the sample buffer, each once and in strictly
    ascending order; on every other color type it is empty. *)
Theorem getPixelPaletteIndices_sorted_set (c : IDAT.t) :
  (IDAT._colorType c = INDEXED ->
   strictlyAscending (IDATReaders.getPixelPaletteIndices c)
   /\ forall v, v ∈ IDATReaders.getPixelPaletteIndices c <-> v ∈ IDAT._pixelData c)
  /\ (IDAT._colorType c <> INDEXED -> IDATReaders.getPixelPaletteIndices c = []).
Proof.
  unfold IDATReaders.getPixelPaletteIndices. split.
  - intros ->. cbn [ColorType_eqb negb].
    destruct (newSet_from (IDAT._pixelData c) [] (NoDup_nil_2)) as [Hnd He].
    fold (newSet (IDAT._pixelData c)) in Hnd, He.
    destruct (sortAscending_from (newSet (IDAT._pixelData c)) []) as [Hs Hp];
      [exact I|].
    fold (sortAscending (newSet (IDAT._pixelData c))) in Hs, Hp. cbn [app] in Hp.
    assert (Hnd' : NoDup (sortAscending (newSet (IDAT._pixelData c))))
      by now rewrite Hp.
    unfold newSet at 1 3. rewrite (newSet_NoDup_id _ []) by exact Hnd'. cbn [app].
    split; [now apply sorted_NoDup_strictlyAscending|].
    intros v. rewrite Hp, He, elem_of_nil. tauto.
  - intros Hne. destruct (IDAT._colorType c); try reflexivity. congruence.
Qed.

(** ** The checksum routine *)

Lemma adlerStep_NaN (c : IDAT.t) (st : IDATReaders.AdlerState) (x y : Z) :
  IDATReaders.s1 st = NaN -> IDATReaders.s2 st = NaN ->
  IDATReaders.s1 (IDATReaders.adlerStep c st x y) = NaN
  /\ IDATReaders.s2 (IDATReaders.adlerStep c st x y) = NaN.
Proof.
  intros H1 H2. unfold IDATReaders.adlerStep. rewrite H1, H2.
  destruct (readAt _ _); cbn; destruct (_ =? 0); split; reflexivity.
Qed.

Lemma adlerColumns_NaN (c : IDAT.t) (k : nat) (x y : Z) (st : IDATReaders.AdlerState) :
  IDATReaders.s1 st = NaN -> IDATReaders.s2 st = NaN ->
  IDATReaders.s1 (IDATReaders.adlerColumns c k x y st) = NaN
  /\ IDATReaders.s2 (IDATReaders.adlerColumns c k x y st) = NaN.
Proof.
  revert x st. induction k as [|k IH]; intros x st H1 H2; cbn; [now split|].
  destruct (adlerStep_NaN c st x y H1 H2). now apply IH.
Qed.

Lemma adlerRows_NaN (c : IDAT.t) (k : nat) (y : Z) (st : IDATReaders.AdlerState) :
  IDATReaders.s1 st = NaN -> IDATReaders.s2 st = NaN ->
  IDATReaders.s1 (IDATReaders.adlerRows c k y st) = NaN
  /\ IDATReaders.s2 (IDATReaders.adlerRows c k y st) = NaN.
Proof.
  revert y st. induction k as [|k IH]; intros y st H1 H2; cbn; [now split|].
  destruct (adlerColumns_NaN c (Z.to_nat (IDAT._width c + 1)) (-1) y st H1 H2).
  now apply IH.
Qed.

(** X8: [calculateAdler32] starts every row at column -1; in the first row
    that is a negative index, the read is [undefined] and the sums become
    [NaN].  So for every image with at least one row the routine returns
    [[NaN, NaN]], whatever the samples; only for an image without rows does
    it return the initial sums [[1, 0]]. *)
Theorem calculateAdler32_is_NaN (c : IDAT.t) :
  (0 < IDAT._height c -> 0 <= IDAT._width c -> 0 < IDAT.fullPixelSize c ->
   IDATReaders.calculateAdler32 c = (NaN, NaN))
  /\ (IDAT._height c <= 0 -> IDATReaders.calculateAdler32 c = (Num 1, Num 0)).
Proof.
  unfold IDATReaders.calculateAdler32. split.
  - intros Hh Hw Hf.
    destruct (Z.to_nat (IDAT._height c)) as [|rows] eqn:Hrows; [lia|].
    cbn [IDATReaders.adlerRows].
    destruct (Z.to_nat (IDAT._width c + 1)) as [|cols] eqn:Hcols; [lia|].
    cbn [IDATReaders.adlerColumns].
    set (st1 := IDATReaders.adlerStep c _ (-1) 0).
    assert (Hst : IDATReaders.s1 st1 = NaN /\ IDATReaders.s2 st1 = NaN).
    { subst st1. unfold IDATReaders.adlerStep, IDAT.translateXyToIndex, readAt.
      cbn [IDATReaders.s1 IDATReaders.s2 IDATReaders.n].
      destruct (Z.ltb_spec (0 * (IDAT._width c * IDAT.fullPixelSize c)
                            + -1 * IDAT.fullPixelSize c) 0); [|lia].
      cbn. split; reflexivity. }
    destruct Hst as [H1 H2].
    destruct (adlerColumns_NaN c cols (-1 + 1) 0 st1 H1 H2) as [H3 H4].
    destruct (adlerRows_NaN c rows (0 + 1) _ H3 H4) as [H5 H6].
    now rewrite H5, H6.
  - intros Hh. replace (Z.to_nat (IDAT._height c)) with 0%nat by lia. reflexivity.
Qed.

(** ** The background chunk *)

Lemma writeTuple_overwrite (vs pre arr : list Z) :
  length arr = length vs ->
  writeTuple (pre ++ arr) (Z.of_nat (length pre)) vs = pre ++ map clamp8 vs.
Proof.
  revert pre arr. induction vs as [|v vs IH]; intros pre arr Hl.
  - destruct arr; [reflexivity|discriminate].
  - destruct arr as [|a arr]; [discriminate|]. cbn [writeTuple map].
    unfold writeAt. destruct (Z.ltb_spec (Z.of_nat (length pre)) 0); [lia|].
    rewrite Nat2Z.id.
    replace (<[length pre := clamp8 v]> (pre ++ a :: arr))
      with ((pre ++ [clamp8 v]) ++ arr).
    2:{ rewrite insert_app_r_alt by lia. rewrite Nat.sub_diag. cbn.
        now rewrite <- app_assoc. }
    replace (Z.of_nat (length pre) + 1) with (Z.of_nat (length (pre ++ [clamp8 v])))
      by (rewrite length_app; cbn; lia).
    rewrite IH by (cbn in Hl; lia). now rewrite <- app_assoc.
Qed.

Lemma writeTuple_all (vs arr : list Z) :
  length arr = length vs -> writeTuple arr 0 vs = map clamp8 vs.
Proof. intros Hl. apply (writeTuple_overwrite vs [] arr Hl). Qed.

Lemma backgroundSized_new (ct : ColorType) : backgroundSized (BKGD.new ct).
Proof. unfold backgroundSized. destruct ct; reflexivity. Qed.

(** The two outcomes of [setBackgroundColor] on a chunk sized by its
    constructor. *)
Lemma BKGD_setBackgroundColor_cases (c : BKGD.t) (color : list Z) :
  backgroundSized c ->
  (Z.of_nat (length color)
   = Pixels.determineBackgroundSamplesPerEntry (BKGD._colorType c) ->
   exists c',
     BKGD.setBackgroundColor c color = Ok c'
     /\ BKGD.getBackgroundColor c' = map clamp8 color
     /\ BKGD._colorType c' = BKGD._colorType c
     /\ backgroundSized c')
  /\ (Z.of_nat (length color)
      <> Pixels.determineBackgroundSamplesPerEntry (BKGD._colorType c) ->
      BKGD.setBackgroundColor c color = Err SampleCountMismatch).
Proof.
  intros Hs. unfold BKGD.setBackgroundColor. split.
  - intros Hl. rewrite (proj2 (Z.eqb_eq _ _) Hl). cbn [negb].
    eexists. split; [reflexivity|].
    unfold BKGD.getBackgroundColor, backgroundSized in *.
    cbn [BKGD._backgroundColor BKGD._colorType].
    rewrite writeTuple_all by lia. rewrite length_map.
    split; [reflexivity|]. split; [reflexivity|exact Hl].
  - intros Hl. now rewrite (proj2 (Z.eqb_neq _ _) Hl).
Qed.

(** X9: [setBackgroundColor] of the background chunk accepts a color exactly
    when it has as many samples as the color type has background samples (1
    for grayscale and indexed types, 3 for the truecolor types); it then
    stores each sample clamped to 0..255, so that [getBackgroundColor]
    returns the clamped color, and it fails otherwise, leaving nothing
    stored.  Both implementations of the chunk behave so. *)
Theorem setBackgroundColor_accepts_iff :
  (forall (c : BKGD.t) (color : list Z),
      backgroundSized c ->
      (Z.of_nat (length color)
       = Pixels.determineBackgroundSamplesPerEntry (BKGD._colorType c) ->
       exists c',
         BKGD.setBackgroundColor c color = Ok c'
         /\ BKGD.getBackgroundColor c' = map clamp8 color
         /\ BKGD._colorType c' = BKGD._colorType c
         /\ backgroundSized c')
      /\ (Z.of_nat (length color)
          <> Pixels.determineBackgroundSamplesPerEntry (BKGD._colorType c) ->
          BKGD.setBackgroundColor c color = Err SampleCountMismatch))
  /\ (forall (c : SrcChunksBkgd.t) (color : list Z),
        Z.of_nat (length (SrcChunksBkgd._backgroundColor c))
        = SrcChunksBkgd._determineNumberOfSamples (SrcChunksBkgd._colorType c) ->
        (Z.of_nat (length color)
         = SrcChunksBkgd._determineNumberOfSamples (SrcChunksBkgd._colorType c) ->
         SrcChunksBkgd.setBackgroundColor c color
         = Ok (SrcChunksBkgd.mk (SrcChunksBkgd._colorType c) (map clamp8 color)))
        /\ (Z.of_nat (length color)
            <> SrcChunksBkgd._determineNumberOfSamples (SrcChunksBkgd._colorType c) ->
            SrcChunksBkgd.setBackgroundColor c color = Err SampleCountMismatch)).
Proof.
  split.
  - exact BKGD_setBackgroundColor_cases.
  - intros c color Hs. unfold SrcChunksBkgd.setBackgroundColor. split.
    + intros Hl. rewrite (proj2 (Z.eqb_eq _ _) Hl). cbn [negb].
      now rewrite writeTuple_all by lia.
    + intros Hl. now rewrite (proj2 (Z.eqb_neq _ _) Hl).
Qed.

Lemma setBackgroundColor_accepts_iff_witness :
  exists c',
    BKGD.setBackgroundColor (BKGD.new TRUECOLOR) [300; -5; 7] = Ok c'
    /\ BKGD.getBackgroundColor c' = map clamp8 [300; -5; 7]
    /\ BKGD._colorType c' = BKGD._colorType (BKGD.new TRUECOLOR)
    /\ backgroundSized c'.
Proof.
  apply (proj1 (proj1 setBackgroundColor_accepts_iff (BKGD.new TRUECOLOR) [300; -5; 7]
                  (backgroundSized_new TRUECOLOR))).
  reflexivity.
Defined.

Lemma flat_map_writeUint16_length (l : list Z) :
  length (flat_map TypedArray.writeUint16 l) = (2 * length l)%nat.
Proof. induction l as [|x l IH]; cbn; [reflexivity|]. rewrite IH. lia. Qed.

(** X10: the bytes that [update] of the background chunk writes fill the
    chunk exactly: for a chunk sized as its constructor sizes it they number
    [calculateChunkLength()], the length field holds [calculatePayloadSize()]
    and the type field spells bKGD. *)
Theorem bKGD_update_fills_chunk (crc : list Z -> Z) (c : BKGD.t) :
  backgroundSized c ->
  Z.of_nat (length (BKGD.update crc c)) = BKGD.calculateChunkLength c
  /\ TypedArray.readUint32At (BKGD.update crc c) 0 = BKGD.calculatePayloadSize c
  /\ take 4 (drop 4 (BKGD.update crc c)) = ChunkHeaderSequences H_bKGD.
Proof.
  unfold backgroundSized. intros Hs.
  unfold BKGD.update, BKGD.calculateChunkLength, BKGD.calculatePayloadSize.
  split; [|split].
  - rewrite !length_app.
    change Chunk.calculateChunkLength with 12.
    destruct (BKGD._colorType c); cbn in Hs |- *;
      rewrite ?flat_map_writeUint16_length; lia.
  - destruct (BKGD._colorType c); reflexivity.
  - reflexivity.
Qed.

Lemma bKGD_update_fills_chunk_witness :
  Z.of_nat (length (BKGD.update crc32 (BKGD.new TRUECOLOR)))
  = BKGD.calculateChunkLength (BKGD.new TRUECOLOR).
Proof.
  apply (bKGD_update_fills_chunk crc32 (BKGD.new TRUECOLOR)).
  apply backgroundSized_new.
Defined.

(** ** Background of the document *)

(** X11: on a document without a palette chunk [setBackground] is a plain
    store: a color with as many samples as the color type has background
    samples is accepted, a background chunk is created, [getBackground] then
    returns the color with each sample clamped to 0..255, and no other chunk
    and no metadata changes; a color of any other length is refused. *)
Theorem setBackground_then_getBackground (d : RnPng.t) (colorData : list Z) :
  RnPng.c_PLTE (RnPng._chunks d) = None ->
  RnPng.c_bKGD (RnPng._chunks d) = None ->
  (Z.of_nat (length colorData)
   = Pixels.determineBackgroundSamplesPerEntry (RnPng._colorType d) ->
   exists d',
     RnPng.setBackground d colorData = Ok d'
     /\ RnPng.getBackground d' = Some (map clamp8 colorData)
     /\ Document.removeBackground d' = d)
  /\ (Z.of_nat (length colorData)
      <> Pixels.determineBackgroundSamplesPerEntry (RnPng._colorType d) ->
      RnPng.setBackground d colorData = Err SampleCountMismatch).
Proof.
  intros Hp Hb. unfold RnPng.setBackground. rewrite Hp, Hb.
  destruct (BKGD_setBackgroundColor_cases (BKGD.new (RnPng._colorType d))
              colorData (backgroundSized_new _)) as [Hok Hbad].
  split.
  - intros Hl. destruct (Hok Hl) as (c' & Hset & Hget & _).
    rewrite Hset. cbn [rbind]. eexists. split; [reflexivity|].
    unfold RnPng.getBackground. cbn. split; [now rewrite Hget|].
    unfold Document.removeBackground, RnPng.setbKGD, RnPng.setChunks. cbn.
    destruct d as [w h dp ct cm f il [ih pl tr bk id]]. cbn in *. now subst.
  - intros Hl. now rewrite (Hbad Hl).
Qed.

Lemma setBackground_then_getBackground_witness :
  exists d',
    RnPng.setBackground truecolorDoc [10; 20; 999] = Ok d'
    /\ RnPng.getBackground d' = Some (map clamp8 [10; 20; 999])
    /\ Document.removeBackground d' = truecolorDoc.
Proof.
  apply (proj1 (setBackground_then_getBackground truecolorDoc [10; 20; 999]
                  eq_refl eq_refl)).
  reflexivity.
Defined.

(** ** A refused background *)

(** When [setBackground] returns, the document it leaves is the one it
    returns. *)
Lemma afterSetBackground_on_return (d d' : RnPng.t) (colorData : list Z) :
  RnPng.setBackground d colorData = Ok d' ->
  RnPng.afterSetBackground d colorData = d'.
Proof.
  unfold RnPng.setBackground, RnPng.afterSetBackground.
  destruct (RnPng.c_PLTE (RnPng._chunks d)) as [plte|],
           (RnPng.c_bKGD (RnPng._chunks d)) as [bkgd|];
    try (intros [= <-]; reflexivity);
    (destruct (BKGD.setBackgroundColor _ colorData); cbn [rbind];
     [intros [= <-]; reflexivity|discriminate]).
Qed.

(** X28: a refused [setBackground] is not without effect.  On a document
    with neither a palette nor a background chunk, a color whose length is
    not the background sample count of the color type makes the call throw
    [SampleCountMismatch]; the bKGD chunk created for the call stays
    attached, so that [getBackground()], undefined before the call, returns a
    background of zeros afterwards; nothing else of the document changes. *)
Theorem setBackground_refused_leaves_chunk (d : RnPng.t) (colorData : list Z) :
  RnPng.c_PLTE (RnPng._chunks d) = None ->
  RnPng.c_bKGD (RnPng._chunks d) = None ->
  Z.of_nat (length colorData)
  <> Pixels.determineBackgroundSamplesPerEntry (RnPng._colorType d) ->
  RnPng.setBackground d colorData = Err SampleCountMismatch
  /\ RnPng.getBackground d = None
  /\ RnPng.getBackground (RnPng.afterSetBackground d colorData)
     = Some (replicate
               (Z.to_nat (Pixels.determineBackgroundSamplesPerEntry (RnPng._colorType d)))
               0)
  /\ Document.removeBackground (RnPng.afterSetBackground d colorData) = d.
Proof.
  intros Hp Hb Hl.
  destruct (BKGD_setBackgroundColor_cases (BKGD.new (RnPng._colorType d))
              colorData (backgroundSized_new _)) as [_ Hbad].
  specialize (Hbad Hl).
  unfold RnPng.setBackground, RnPng.afterSetBackground, RnPng.getBackground.
  rewrite Hp, Hb, Hbad. cbn [rbind].
  split; [reflexivity|]. split; [reflexivity|]. split; [reflexivity|].
  unfold Document.removeBackground, RnPng.setbKGD, RnPng.setChunks. cbn.
  destruct d as [w h dp ct cm f il [ih pl tr bk id]]. cbn in *. now subst.
Qed.

Lemma setBackground_refused_leaves_chunk_witness :
  RnPng.setBackground truecolorDoc [10; 20] = Err SampleCountMismatch
  /\ RnPng.getBackground truecolorDoc = None
  /\ RnPng.getBackground (RnPng.afterSetBackground truecolorDoc [10; 20])
     = Some [0; 0; 0]
  /\ Document.removeBackground (RnPng.afterSetBackground truecolorDoc [10; 20])
     = truecolorDoc.
Proof.
  apply (setBackground_refused_leaves_chunk truecolorDoc [10; 20] eq_refl eq_refl).
  by_compute.
Defined.

(** ** Removing the transparency chunk *)

(** X12: [removeTransparencies] takes the alpha sample away from every pixel
    of an indexed image: where [getPixelAt] returned a palette color followed
    by an alpha sample, it returns the palette color alone afterwards.  On
    every other color type [getPixelAt] is unaffected.  In both cases no color
    is registered as transparent any more and [removeTransparency] fails for
    want of a transparency chunk. *)
Theorem removeTransparencies_getPixelAt (d : RnPng.t) (pos : Pos) :
  (RnPng.isIndexed d = false ->
   RnPng.getPixelAt (Document.removeTransparencies d) pos = RnPng.getPixelAt d pos)
  /\ (RnPng.isIndexed d = true ->
      RnPng.c_tRNS (RnPng._chunks d) <> None ->
      forall l, RnPng.getPixelAt d pos = Ok (PTuple l) ->
                exists color a,
                  l = color ++ [a]
                  /\ RnPng.getPixelAt (Document.removeTransparencies d) pos
                     = Ok (PTuple color))
  /\ (forall colorData,
        RnPng.doesColorExistInTransparencies (Document.removeTransparencies d) colorData
        = false
        /\ RnPng.removeTransparency (Document.removeTransparencies d) colorData
           = Err NoTransparency).
Proof.
  split; [|split].
  - intros Hi. unfold RnPng.getPixelAt.
    change (RnPng.isIndexed (Document.removeTransparencies d)) with (RnPng.isIndexed d).
    rewrite Hi. reflexivity.
  - intros Hi Ht l. unfold RnPng.getPixelAt.
    change (RnPng.isIndexed (Document.removeTransparencies d)) with (RnPng.isIndexed d).
    change (RnPng.hasAlphaChannel (Document.removeTransparencies d))
      with (RnPng.hasAlphaChannel d).
    rewrite Hi, (indexed_no_alpha d Hi).
    change (RnPng.c_PLTE (RnPng._chunks (Document.removeTransparencies d)))
      with (RnPng.c_PLTE (RnPng._chunks d)).
    change (RnPng.c_IDAT (RnPng._chunks (Document.removeTransparencies d)))
      with (RnPng.c_IDAT (RnPng._chunks d)).
    change (RnPng.resolvePos (Document.removeTransparencies d) pos)
      with (RnPng.resolvePos d pos).
    change (RnPng.c_tRNS (RnPng._chunks (Document.removeTransparencies d)))
      with (@None TRNS.t).
    destruct (RnPng.c_PLTE _) as [plte|]; [|discriminate].
    destruct (IDATAccess.getPixelOf _ _) as [|v|t]; try discriminate.
    destruct (PLTE.getColorOf plte v) as [color|e]; [|discriminate]. cbn [rbind].
    destruct (RnPng.c_tRNS (RnPng._chunks d)) as [trns|]; [|congruence].
    intros [= <-]. exists color, (default 255 (TRNS.getValueOf trns v)).
    split; reflexivity.
  - intros colorData. split; reflexivity.
Qed.

(** ** Opacity *)

Lemma hasAlpha_not_indexed (d : RnPng.t) :
  RnPng.hasAlphaChannel d = true -> RnPng.isIndexed d = false.
Proof.
  unfold RnPng.hasAlphaChannel, RnPng.isIndexed.
  destruct (RnPng._colorType d); try discriminate; reflexivity.
Qed.

(** X13: [setOpacityAt] is refused exactly on the two color types that have
    neither an alpha sample nor a palette, grayscale and truecolor; on a
    color type with an alpha sample it always succeeds, and it touches
    neither the palette nor the transparency nor the background chunk. *)
Theorem setOpacityAt_unsupported_iff (d : RnPng.t) (pos : Pos) (value : Z) :
  (RnPng.setOpacityAt d pos value = Err UnsupportedOperation
   <-> RnPng._colorType d = GRAYSCALE \/ RnPng._colorType d = TRUECOLOR)
  /\ (RnPng.hasAlphaChannel d = true ->
      exists d',
        RnPng.setOpacityAt d pos value = Ok d'
        /\ RnPng.c_PLTE (RnPng._chunks d') = RnPng.c_PLTE (RnPng._chunks d)
        /\ RnPng.c_tRNS (RnPng._chunks d') = RnPng.c_tRNS (RnPng._chunks d)
        /\ RnPng.c_bKGD (RnPng._chunks d') = RnPng.c_bKGD (RnPng._chunks d)).
Proof.
  unfold RnPng.setOpacityAt, RnPng.hasAlphaChannel, RnPng.isIndexed. split.
  - split.
    + destruct (RnPng._colorType d); cbn; try (intros _; tauto); intros H.
      * destruct (RnPng.c_PLTE _); [|discriminate].
        destruct (IDATAccess.getValueAt _ _); [|discriminate].
        destruct (_ <=? _); discriminate.
      * discriminate.
      * discriminate.
    + intros [-> | ->]; reflexivity.
  - intros Ha. rewrite Ha. cbn [negb andb]. eexists. split; [reflexivity|].
    repeat split.
Qed.

(** X14: on an indexed image [setOpacityAt] stores the value as the alpha of
    the palette entry the pixel refers to: when the pixel's stored index lies
    within the palette and the value is a byte, [getPixelAt] afterwards
    returns the palette color followed by that value, and neither the pixel data nor the palette has
    changed, so every other pixel that refers to the same entry shows the
    same alpha. *)
Theorem setOpacityAt_indexed_getPixelAt (d : RnPng.t) (pos pos' : Pos) (value : Z)
    (plte : PLTE.t) (i : Z) :
  RnPng.isIndexed d = true ->
  layoutApplied d ->
  RnPng.c_PLTE (RnPng._chunks d) = Some plte ->
  IDATAccess.getValueAt (RnPng.c_IDAT (RnPng._chunks d)) (RnPng.resolvePos d pos) = Some i ->
  0 <= i < Z.of_nat (length (PLTE.getPalette plte)) ->
  IDATAccess.getValueAt (RnPng.c_IDAT (RnPng._chunks d)) (RnPng.resolvePos d pos') = Some i ->
  0 <= value <= 255 ->
  exists d' color,
    RnPng.setOpacityAt d pos value = Ok d'
    /\ pixelDataOf d' = pixelDataOf d
    /\ RnPng.c_PLTE (RnPng._chunks d') = Some plte
    /\ PLTE.getPalette plte !! Z.to_nat i = Some color
    /\ RnPng.getPixelAt d' pos = Ok (PTuple (color ++ [value]))
    /\ RnPng.getPixelAt d' pos' = Ok (PTuple (color ++ [value])).
Proof.
  intros Hi Hl Hp Hv Hr Hv' _.
  destruct (getColorOf_lookup plte i Hr) as (color & Hc & Hg).
  pose proof (indexed_no_alpha d Hi) as Ha.
  unfold RnPng.setOpacityAt. rewrite Ha, Hi, Hp, Hv. cbn [negb andb].
  destruct (Z.leb_spec (Z.of_nat (length (PLTE.getPalette plte))) i); [lia|].
  eexists. exists color. split; [reflexivity|].
  split; [reflexivity|]. split; [exact Hp|]. split; [exact Hc|].
  assert (Hget : forall trns,
             TRNS.getValueOf (TRNS.setTransparency trns (Scalar value) i) i = Some value).
  { intros trns. unfold TRNS.setTransparency, TRNS.getValueOf.
    destruct (Z.eqb_spec i (-1)); [lia|].
    destruct (Z.ltb_spec i 0); [lia|]. cbn [TRNS._alphas].
    unfold TRNS.arraySet.
    destruct (Nat.ltb_spec (Z.to_nat i) (length (TRNS._alphas trns))).
    - now rewrite list_lookup_insert_eq by lia.
    - rewrite lookup_app_r by lia.
      rewrite lookup_app_r by (rewrite length_replicate; lia).
      rewrite length_replicate.
      replace (Z.to_nat i - length (TRNS._alphas trns)
               - (Z.to_nat i - length (TRNS._alphas trns)))%nat with 0%nat by lia.
      reflexivity. }
  assert (Hpix : forall p,
             IDATAccess.getValueAt (RnPng.c_IDAT (RnPng._chunks d)) (RnPng.resolvePos d p)
             = Some i ->
             RnPng.getPixelAt
               (RnPng.setTransparency d (Scalar value) i) p
             = Ok (PTuple (color ++ [value]))).
  { intros p Hvp. unfold RnPng.getPixelAt.
    change (RnPng.hasAlphaChannel (RnPng.setTransparency d (Scalar value) i))
      with (RnPng.hasAlphaChannel d).
    change (RnPng.isIndexed (RnPng.setTransparency d (Scalar value) i))
      with (RnPng.isIndexed d).
    rewrite Ha, Hi.
    change (RnPng.c_PLTE (RnPng._chunks (RnPng.setTransparency d (Scalar value) i)))
      with (RnPng.c_PLTE (RnPng._chunks d)).
    change (RnPng.c_IDAT (RnPng._chunks (RnPng.setTransparency d (Scalar value) i)))
      with (RnPng.c_IDAT (RnPng._chunks d)).
    change (RnPng.resolvePos (RnPng.setTransparency d (Scalar value) i) p)
      with (RnPng.resolvePos d p).
    rewrite Hp. unfold IDATAccess.getPixelOf.
    rewrite (indexed_fullPixelSize d Hi Hl). cbn [Z.eqb Pos.eqb].
    unfold IDATAccess.getValueAt in Hvp. rewrite Hvp, Hg. cbn [rbind].
    cbn [RnPng.setTransparency RnPng.settRNS RnPng.setChunks RnPng._chunks RnPng.c_tRNS].
    now rewrite Hget. }
  split; [now apply Hpix|now apply Hpix].
Qed.

Lemma setOpacityAt_indexed_getPixelAt_witness :
  exists d' color,
    RnPng.setOpacityAt redDoc (XY 0 0) 40 = Ok d'
    /\ pixelDataOf d' = pixelDataOf redDoc
    /\ RnPng.c_PLTE (RnPng._chunks d') = Some (PLTE.mk 256 [[255; 0; 0]])
    /\ PLTE.getPalette (PLTE.mk 256 [[255; 0; 0]]) !! Z.to_nat 0 = Some color
    /\ RnPng.getPixelAt d' (XY 0 0) = Ok (PTuple (color ++ [40]))
    /\ RnPng.getPixelAt d' (Index 0) = Ok (PTuple (color ++ [40])).
Proof.
  apply (setOpacityAt_indexed_getPixelAt redDoc (XY 0 0) (Index 0) 40
           (PLTE.mk 256 [[255; 0; 0]]) 0).
  - reflexivity.
  - reflexivity.
  - reflexivity.
  - reflexivity.
  - cbn. lia.
  - reflexivity.
  - lia.
Defined.

(** ** Opacities *)


Lemma setOpacityAt_metadata (d d' : RnPng.t) (pos : Pos) (value : Z) :
  RnPng.setOpacityAt d pos value = Ok d' ->
  RnPng._colorType d' = RnPng._colorType d
  /\ RnPng._width d' = RnPng._width d /\ RnPng._height d' = RnPng._height d.
Proof.
  unfold RnPng.setOpacityAt.
  destruct (_ && _); [discriminate|].
  destruct (RnPng.hasAlphaChannel d).
  { intros [= <-]. repeat split. }
  destruct (RnPng.c_PLTE _); [|discriminate].
  destruct (IDATAccess.getValueAt _ _).
  - destruct (_ <=? _); [discriminate|]. intros [= <-]. repeat split.
  - intros [= <-]. repeat split.
Qed.



Lemma reduceOpacities_skip (n : Z) (pre rest : list Z) (ind : Z) (acc : list Z) :
  0 < n -> 0 <= ind -> ind mod n + Z.of_nat (length pre) < n ->
  Document.reduceOpacities n (pre ++ rest) ind acc
  = Document.reduceOpacities n rest (ind + Z.of_nat (length pre)) acc.
Proof.
  intros Hn. revert ind. induction pre as [|x pre IH]; intros ind Hi Hlt.
  - cbn. now rewrite Z.add_0_r.
  - cbn [app Document.reduceOpacities length] in *.
    assert (Hm : (ind + 1) mod n = ind mod n + 1).
    { pose proof (Z.mod_pos_bound ind n Hn).
      rewrite Z.add_mod by lia. rewrite (Z.mod_small 1) by lia.
      apply Z.mod_small. lia. }
    pose proof (Z.mod_pos_bound ind n Hn).
    destruct (Z.eqb_spec ((ind + 1) mod n) 0); [lia|].
    rewrite IH by lia. f_equal. lia.
Qed.

Lemma reduceOpacities_keep (n : Z) (a : Z) (rest : list Z) (ind : Z) (acc : list Z) :
  0 < n -> 0 <= ind -> ind mod n = n - 1 ->
  Document.reduceOpacities n (a :: rest) ind acc
  = Document.reduceOpacities n rest (ind + 1) (acc ++ [a])
  /\ (ind + 1) mod n = 0.
Proof.
  intros Hn Hi Hm.
  assert (Hz : (ind + 1) mod n = 0).
  { rewrite Z.add_mod by lia. rewrite Hm.
    destruct (Z.eq_dec n 1) as [->|Hn1]; [reflexivity|].
    rewrite (Z.mod_small 1) by lia.
    replace (n - 1 + 1) with n by lia. apply Z.mod_same. lia. }
  split; [|exact Hz]. cbn [Document.reduceOpacities]. now rewrite Hz.
Qed.

(** Every [n]-th entry of [data], the (n-1)-th first. *)
Lemma reduceOpacities_lookup (n : nat) (fuel : nat) :
  (0 < n)%nat ->
  forall (data : list Z) (ind : Z) (acc : list Z),
    (length data <= fuel)%nat -> 0 <= ind -> ind mod Z.of_nat n = 0 ->
    exists tail,
      Document.reduceOpacities (Z.of_nat n) data ind acc = acc ++ tail
      /\ forall k : nat, tail !! k = data !! (k * n + n - 1)%nat.
Proof.
  intros Hn. induction fuel as [|fuel IH]; intros data ind acc Hlen Hi Hm.
  - destruct data; [|cbn in Hlen; lia]. exists []. split; [now rewrite app_nil_r|].
    intros k. reflexivity.
  - destruct (Nat.lt_ge_cases (length data) n) as [Hshort|Hlong].
    + exists []. split.
      * rewrite <- (app_nil_r data).
        rewrite reduceOpacities_skip by lia. cbn. now rewrite app_nil_r.
      * intros k. cbn. symmetry. apply lookup_ge_None. lia.
    + rewrite <- (take_drop (n - 1) data).
      destruct (drop (n - 1) data) as [|a rest] eqn:Hd.
      { apply (f_equal length) in Hd. rewrite length_drop in Hd. cbn in Hd. lia. }
      assert (Hpre : length (take (n - 1) data) = (n - 1)%nat)
        by (rewrite length_take; lia).
      rewrite reduceOpacities_skip by lia.
      rewrite Hpre.
      destruct (reduceOpacities_keep (Z.of_nat n) a rest
                  (ind + Z.of_nat (n - 1)) acc) as [Hk Hz]; [lia|lia| |].
      { rewrite Z.add_mod by lia. rewrite Hm, Z.add_0_l.
        rewrite Z.mod_mod by lia. rewrite Z.mod_small by lia. lia. }
      rewrite Hk.
      destruct (IH rest (ind + Z.of_nat (n - 1) + 1) (acc ++ [a])) as (tail & Ht & Hl).
      { apply (f_equal length) in Hd. rewrite length_drop in Hd. cbn in Hd. lia. }
      { lia. }
      { exact Hz. }
      exists (a :: tail). split; [now rewrite Ht, <- app_assoc|].
      intros [|k].
      * cbn [lookup list_lookup]. rewrite lookup_app_r by lia.
        rewrite Hpre. replace (0 * n + n - 1 - (n - 1))%nat with 0%nat by lia.
        reflexivity.
      * cbn [lookup list_lookup]. rewrite Hl.
        rewrite lookup_app_r by lia. rewrite Hpre.
        replace (S k * n + n - 1 - (n - 1))%nat with (S (k * n + n - 1)) by lia.
        reflexivity.
Qed.

(** X16: on a color type with an alpha sample [getOpacities] returns the
    alpha samples of the sample buffer in pixel order: its k-th entry is the
    buffer entry at k * fullPixelSize + fullPixelSize - 1, which is the last
    sample of the tuple [getPixelAt] returns for the k-th pixel.  The result
    has one entry for every complete tuple in the buffer. *)
Theorem getOpacities_alpha_samples (convertToPixels : PLTE.t -> Result unit)
    (d : RnPng.t) :
  RnPng.hasAlphaChannel d = true ->
  layoutApplied d ->
  let fps := Z.to_nat (Pixels.determineFullPixelSize (RnPng._colorType d)) in
  exists opacities,
    Document.getOpacities convertToPixels d = Ok opacities
    /\ (forall k : nat, opacities !! k = pixelDataOf d !! (k * fps + fps - 1)%nat)
    /\ (forall (k : nat) (l : list Z),
          RnPng.getPixelAt d (Index (Z.of_nat (k * fps))) = Ok (PTuple l) ->
          opacities !! k = last l).
Proof.
  intros Ha Hl fps.
  assert (Hct : RnPng._colorType d = GRAYSCALE_AND_ALPHA
                \/ RnPng._colorType d = TRUECOLOR_AND_ALPHA).
  { unfold RnPng.hasAlphaChannel in Ha.
    destruct (RnPng._colorType d); try discriminate; tauto. }
  assert (Hfps : (0 < fps)%nat /\ Z.of_nat fps = Pixels.determinePixelColorSize
                                                   (RnPng._colorType d) + 1
                 /\ Z.of_nat fps = Pixels.determineFullPixelSize (RnPng._colorType d)
                 /\ (1 < fps)%nat).
  { subst fps. destruct Hct as [-> | ->]; vm_compute; repeat split; lia. }
  destruct Hfps as (Hpos & Hn & Hfull & Hgt).
  destruct (reduceOpacities_lookup fps (length (pixelDataOf d)) Hpos
              (pixelDataOf d) 0 [] (le_n _) (Z.le_refl 0) (Z.mod_0_l (Z.of_nat fps) ltac:(lia)))
    as (tail & Ht & Hk).
  exists tail. split; [|split].
  - unfold Document.getOpacities, Document.isGrayscaleWithAlpha,
           Document.isTruecolorWithAlpha, Document.getData.
    rewrite (hasAlpha_not_indexed d Ha). cbn [rbind].
    rewrite <- Hn. unfold IDATReaders.getData. fold (pixelDataOf d). rewrite Ht.
    destruct Hct as [-> | ->]; reflexivity.
  - exact Hk.
  - intros k l. unfold RnPng.getPixelAt. rewrite Ha.
    cbn [RnPng.resolvePos]. unfold IDATAccess.getPixelOf. rewrite Hl, <- Hfull.
    destruct (Z.eqb_spec (Z.of_nat fps) 1); [lia|].
    unfold readTuple. fold (pixelDataOf d).
    destruct (_ || _) eqn:Hb; [discriminate|].
    apply orb_false_iff in Hb as [_ Hb]. apply Z.ltb_ge in Hb.
    intros [= <-]. rewrite Hk, last_lookup, !Nat2Z.id.
    rewrite length_take, length_drop.
    replace (Init.Nat.pred (fps `min` (length (pixelDataOf d) - k * fps)))
      with (fps - 1)%nat by lia.
    rewrite lookup_take_lt by lia. rewrite lookup_drop. f_equal. lia.
Qed.

Lemma getOpacities_alpha_samples_witness :
  exists opacities,
    Document.getOpacities (fun _ => Ok tt)
      (orBlank (do d <- RnPng.new (RnPng.mkOptions (Some 1) (Some 1) (Some 8) (Some 4));
                RnPng.setPixelAt d (Index 0) (Array [128; 10])))
    = Ok opacities
    /\ opacities !! 0%nat = Some 10.
Proof.
  destruct (getOpacities_alpha_samples (fun _ => Ok tt)
              (orBlank (do d <- RnPng.new (RnPng.mkOptions (Some 1) (Some 1) (Some 8) (Some 4));
                        RnPng.setPixelAt d (Index 0) (Array [128; 10])))
              eq_refl eq_refl) as (opacities & Hg & Hk & _).
  exists opacities. split; [exact Hg|]. rewrite Hk. reflexivity.
Defined.


(** ** Writing and reading a pixel *)

Lemma readAt_writeTuple_other (vs arr : list Z) (i j : Z) :
  j < i \/ i + Z.of_nat (length vs) <= j ->
  readAt (writeTuple arr i vs) j = readAt arr j.
Proof.
  revert arr i. induction vs as [|v vs IH]; intros arr i Hj; [reflexivity|].
  cbn [writeTuple length] in *. rewrite IH by lia.
  apply readAt_writeAt_other. lia.
Qed.

Lemma readAt_writeTuple_inside (vs arr : list Z) (i : Z) (k : nat) (v : Z) :
  0 <= i -> i + Z.of_nat (length vs) <= Z.of_nat (length arr) ->
  vs !! k = Some v ->
  readAt (writeTuple arr i vs) (i + Z.of_nat k) = Some (clamp8 v).
Proof.
  revert arr i k. induction vs as [|x vs IH]; intros arr i k Hi Hlen Hk.
  - now rewrite lookup_nil in Hk.
  - cbn [writeTuple length] in *. destruct k as [|k].
    + injection Hk as ->. rewrite readAt_writeTuple_other by lia.
      rewrite Z.add_0_r. apply readAt_writeAt_same. lia.
    + replace (i + Z.of_nat (S k)) with (i + 1 + Z.of_nat k) by lia.
      apply IH; [lia|rewrite writeAt_length; lia|exact Hk].
Qed.

Lemma readTuple_ext (arr arr' : list Z) (i n : Z) :
  length arr' = length arr ->
  (forall j, i <= j < i + n -> readAt arr' j = readAt arr j) ->
  readTuple arr' i n = readTuple arr i n.
Proof.
  intros Hlen Hext. unfold readTuple. rewrite Hlen.
  destruct (_ || _) eqn:Hb; [reflexivity|].
  apply orb_false_iff in Hb as [Hi Hn]. apply Z.ltb_ge in Hi, Hn.
  f_equal. apply list_eq. intros k.
  destruct (Nat.lt_ge_cases k (Z.to_nat n)) as [Hk|Hk].
  - rewrite !lookup_take_lt by exact Hk. rewrite !lookup_drop.
    specialize (Hext (i + Z.of_nat k) ltac:(lia)). unfold readAt in Hext.
    destruct (Z.ltb_spec (i + Z.of_nat k) 0); [lia|].
    now replace (Z.to_nat (i + Z.of_nat k)) with (Z.to_nat i + k)%nat in Hext by lia.
  - now rewrite !lookup_take_ge by exact Hk.
Qed.

Lemma readTuple_writeTuple (vs arr : list Z) (i : Z) :
  0 <= i -> i + Z.of_nat (length vs) <= Z.of_nat (length arr) ->
  readTuple (writeTuple arr i vs) i (Z.of_nat (length vs)) = Some (map clamp8 vs).
Proof.
  intros Hi Hlen. unfold readTuple. rewrite writeTuple_length.
  destruct (Z.ltb_spec i 0); [lia|].
  destruct (Z.ltb_spec (Z.of_nat (length arr)) (i + Z.of_nat (length vs))); [lia|].
  cbn [orb]. f_equal. apply list_eq. intros k. rewrite Nat2Z.id, list_lookup_fmap.
  destruct (vs !! k) as [v|] eqn:Hk.
  - pose proof (lookup_lt_Some _ _ _ Hk) as Hlt.
    rewrite lookup_take_lt by exact Hlt. rewrite lookup_drop.
    pose proof (readAt_writeTuple_inside vs arr i k v Hi Hlen Hk) as Hr.
    unfold readAt in Hr. destruct (Z.ltb_spec (i + Z.of_nat k) 0); [lia|].
    now replace (Z.to_nat (i + Z.of_nat k)) with (Z.to_nat i + k)%nat in Hr by lia.
  - apply lookup_ge_None in Hk. now rewrite lookup_take_ge by exact Hk.
Qed.

(** What [setPixelAt] does on an image that is not indexed: the first
    [fullPixelSize] samples are written at the resolved index. *)
Lemma setPixelAt_not_indexed (d : RnPng.t) (pos : Pos) (data : Data) :
  RnPng.isIndexed d = false ->
  layoutApplied d ->
  let fps := Pixels.determineFullPixelSize (RnPng._colorType d) in
  (Z.of_nat (length (samplesOf data)) < fps ->
   RnPng.setPixelAt d pos data = Err InsufficientSamples)
  /\ (fps <= Z.of_nat (length (samplesOf data)) ->
      exists d',
        RnPng.setPixelAt d pos data = Ok d'
        /\ pixelDataOf d'
           = writeTuple (pixelDataOf d) (RnPng.resolvePos d pos)
               (take (Z.to_nat fps) (samplesOf data))
        /\ RnPng._colorType d' = RnPng._colorType d
        /\ RnPng._width d' = RnPng._width d
        /\ IDAT.fullPixelSize (RnPng.c_IDAT (RnPng._chunks d'))
           = IDAT.fullPixelSize (RnPng.c_IDAT (RnPng._chunks d))).
Proof.
  intros Hi Hl fps. unfold RnPng.setPixelAt, RnPng.requiredSamples. rewrite Hi.
  fold fps. split.
  - intros Hlt. now rewrite (proj2 (Z.ltb_lt _ _) Hlt).
  - intros Hge. rewrite (proj2 (Z.ltb_ge _ _) Hge).
    assert (Hfps : 0 < fps) by (subst fps; destruct (RnPng._colorType d); reflexivity).
    assert (Htt : forall m, (Z.to_nat fps <= m)%nat ->
                take (Z.to_nat (IDAT.fullPixelSize (RnPng.c_IDAT (RnPng._chunks d))))
                     (take (Z.to_nat fps) (take m (samplesOf data)))
                = take (Z.to_nat fps) (samplesOf data)).
    { intros m Hm. rewrite Hl. fold fps. rewrite !take_take.
      f_equal. lia. }
    destruct (RnPng.hasAlphaChannel d).
    { eexists. split; [reflexivity|]. split; [|repeat split].
      unfold pixelDataOf. cbn. unfold slice0.
      rewrite <- (Htt (Z.to_nat fps)) by lia. now rewrite take_take, Nat.min_id. }
    unfold slice0.
    set (d1 := RnPng.setIDAT d _).
    assert (Hpx : pixelDataOf d1
                  = writeTuple (pixelDataOf d) (RnPng.resolvePos d pos)
                      (take (Z.to_nat fps) (samplesOf data))).
    { subst d1. unfold pixelDataOf. cbn. unfold slice0.
      now rewrite (Htt (Z.to_nat (fps + 1))) by lia. }
    destruct (if _ <? _ then _ else _) as [o|].
    + destruct (_ && _) eqn:Hb.
      * apply andb_true_iff in Hb as [_ Hex].
        unfold RnPng.doesColorExistInTransparencies in Hex.
        unfold RnPng.removeTransparency.
        change (RnPng.isIndexed d1) with (RnPng.isIndexed d). rewrite Hi.
        destruct (RnPng.c_tRNS (RnPng._chunks d1)); [|discriminate].
        eexists. split; [reflexivity|]. split; [exact Hpx|]. repeat split.
      * eexists. split; [reflexivity|]. split; [exact Hpx|]. repeat split.
    + eexists. split; [reflexivity|]. split; [exact Hpx|]. repeat split.
Qed.

(** X17: on every color type but the indexed one, a pixel written by
    [setPixelAt] at a position inside the sample buffer is read back by
    [getPixelAt]: the first [fullPixelSize] samples supplied, each clamped to
    0..255, as a single number when the color type has one sample per pixel
    and as a tuple otherwise.  Samples beyond [fullPixelSize] never reach the
    pixel. *)
Theorem setPixelAt_then_getPixelAt (d : RnPng.t) (pos : Pos) (data : Data) :
  RnPng.isIndexed d = false ->
  layoutApplied d ->
  let fps := Pixels.determineFullPixelSize (RnPng._colorType d) in
  fps <= Z.of_nat (length (samplesOf data)) ->
  0 <= RnPng.resolvePos d pos ->
  RnPng.resolvePos d pos + fps <= Z.of_nat (length (pixelDataOf d)) ->
  exists d',
    RnPng.setPixelAt d pos data = Ok d'
    /\ RnPng.getPixelAt d' pos
       = Ok (match map clamp8 (take (Z.to_nat fps) (samplesOf data)) with
             | [v] => PSample v
             | l => PTuple l
             end).
Proof.
  intros Hi Hl fps Hge H0 Hin.
  destruct (proj2 (setPixelAt_not_indexed d pos data Hi Hl) Hge)
    as (d' & Hs & Hpx & Hct & Hw & Hf).
  fold fps in Hpx. exists d'. split; [exact Hs|].
  assert (Hfps : 0 < fps) by (subst fps; destruct (RnPng._colorType d); reflexivity).
  assert (Hres : RnPng.resolvePos d' pos = RnPng.resolvePos d pos).
  { destruct pos; [reflexivity|]. cbn. unfold RnPng._translateXyToIndex.
    now rewrite Hct, Hw. }
  set (vs := take (Z.to_nat fps) (samplesOf data)) in *.
  assert (Hvs : Z.of_nat (length vs) = fps) by (subst vs; rewrite length_take; lia).
  clearbody vs.
  assert (Hpixel : IDATAccess.getPixelOf (RnPng.c_IDAT (RnPng._chunks d'))
                     (RnPng.resolvePos d pos)
                   = match map clamp8 vs with
                     | [v] => PSample v
                     | l => PTuple l
                     end).
  { unfold IDATAccess.getPixelOf. rewrite Hf, Hl. fold fps. fold (pixelDataOf d').
    rewrite Hpx. destruct (Z.eqb_spec fps 1) as [E|E].
    - destruct vs as [|v [|v' vs']]; cbn in Hvs; try lia.
      cbn [writeTuple map]. rewrite readAt_writeAt_same by lia. reflexivity.
    - rewrite <- Hvs. rewrite readTuple_writeTuple by lia.
      destruct vs as [|v [|v' vs']]; cbn in Hvs; try lia. reflexivity. }
  unfold RnPng.getPixelAt, RnPng.hasAlphaChannel, RnPng.isIndexed in *.
  rewrite Hct, Hres, Hi, Hpixel.
  destruct (Pixels.hasAlphaSample (RnPng._colorType d)); reflexivity.
Qed.

Lemma setPixelAt_then_getPixelAt_witness :
  exists d',
    RnPng.setPixelAt truecolorDoc (XY 1 0) (Array [300; 20; -4; 9; 9]) = Ok d'
    /\ RnPng.getPixelAt d' (XY 1 0) = Ok (PTuple [255; 20; 0]).
Proof.
  apply (setPixelAt_then_getPixelAt truecolorDoc (XY 1 0) (Array [300; 20; -4; 9; 9]));
    by_compute.
Defined.

(** X18: on every color type but the indexed one, [setPixelAt] changes the
    pixel it is given and no other: [getPixelAt] at any position whose
    samples do not overlap those of the written pixel returns what it
    returned before. *)
Theorem setPixelAt_leaves_other_pixels (d d' : RnPng.t) (pos pos' : Pos) (data : Data) :
  RnPng.isIndexed d = false ->
  layoutApplied d ->
  RnPng.setPixelAt d pos data = Ok d' ->
  let fps := Pixels.determineFullPixelSize (RnPng._colorType d) in
  RnPng.resolvePos d pos' + fps <= RnPng.resolvePos d pos
  \/ RnPng.resolvePos d pos + fps <= RnPng.resolvePos d pos' ->
  RnPng.getPixelAt d' pos' = RnPng.getPixelAt d pos'.
Proof.
  intros Hi Hl Hs fps Hdis.
  destruct (setPixelAt_not_indexed d pos data Hi Hl) as [Hbad Hok]. fold fps in Hbad, Hok.
  destruct (Z.lt_ge_cases (Z.of_nat (length (samplesOf data))) fps) as [Hlt|Hge].
  { rewrite (Hbad Hlt) in Hs. discriminate. }
  destruct (Hok Hge) as (d2 & Hs2 & Hpx & Hct & Hw & Hf).
  rewrite Hs in Hs2. injection Hs2 as <-. fold fps in Hpx.
  assert (Hfps : 0 < fps) by (subst fps; destruct (RnPng._colorType d); reflexivity).
  assert (Hres : RnPng.resolvePos d' pos' = RnPng.resolvePos d pos').
  { destruct pos'; [reflexivity|]. cbn. unfold RnPng._translateXyToIndex.
    now rewrite Hct, Hw. }
  set (vs := take (Z.to_nat fps) (samplesOf data)) in *.
  assert (Hvs : Z.of_nat (length vs) = fps) by (subst vs; rewrite length_take; lia).
  clearbody vs.
  assert (Hpixel : IDATAccess.getPixelOf (RnPng.c_IDAT (RnPng._chunks d'))
                     (RnPng.resolvePos d pos')
                   = IDATAccess.getPixelOf (RnPng.c_IDAT (RnPng._chunks d))
                       (RnPng.resolvePos d pos')).
  { unfold IDATAccess.getPixelOf. rewrite Hf, Hl. fold fps.
    fold (pixelDataOf d') (pixelDataOf d). rewrite Hpx.
    destruct (Z.eqb_spec fps 1).
    - rewrite readAt_writeTuple_other by lia. reflexivity.
    - rewrite (readTuple_ext (pixelDataOf d)); [reflexivity|apply writeTuple_length|].
      intros j Hj. apply readAt_writeTuple_other. lia. }
  unfold RnPng.getPixelAt, RnPng.hasAlphaChannel, RnPng.isIndexed in *.
  rewrite Hct, Hres, Hi, Hpixel. reflexivity.
Qed.

Lemma setPixelAt_leaves_other_pixels_witness :
  RnPng.getPixelAt
    (orBlank (RnPng.setPixelAt numberedDoc (XY 1 0) (Array [7; 8; 9]))) (XY 0 0)
  = RnPng.getPixelAt numberedDoc (XY 0 0).
Proof.
  apply (setPixelAt_leaves_other_pixels numberedDoc _ (XY 1 0) (XY 0 0) (Array [7; 8; 9]));
    [by_compute | by_compute | by_compute | left; by_compute].
Defined.

(** ** The pixel-data chunk through the codec *)

(** X19: [load] undoes [update] on the pixel-data chunk.  For a chunk with
    an accepted depth whose buffer holds a sample below 2^depth for every
    pixel, and a codec whose compressed bytes fit the predicted payload size
    and whose [inflate] recovers the data whatever bytes follow them, loading
    the bytes that [update] wrote (followed by any further bytes) into a
    chunk of the same layout restores every sample of the image. *)
Theorem IDAT_update_then_load (deflate inflate : list Z -> list Z) (crc : list Z -> Z)
    (c c0 : IDAT.t) (info : IDAT.LayoutInformation) (suffix : list Z) :
  IDAT.applyLayoutInformation c info = c ->
  acceptedDepth (IDAT.li_depth info) ->
  0 <= IDAT.li_width info -> 0 <= IDAT.li_height info ->
  Forall (sampleInRange (IDAT.li_depth info)) (IDAT._pixelData c) ->
  IDAT.li_width info * IDAT.li_height info
    * Pixels.determineFullPixelSize (IDAT.li_colorType info)
  <= Z.of_nat (length (IDAT._pixelData c)) ->
  Z.of_nat (length (deflate (IDAT.pixelAndFilterData c))) <= IDAT.calculatePayloadSize c (-1) ->
  (forall t, inflate (deflate (IDAT.pixelAndFilterData c) ++ t) = IDAT.pixelAndFilterData c) ->
  forall i : nat,
    Z.of_nat i < IDAT.li_width info * IDAT.li_height info
                 * Pixels.determineFullPixelSize (IDAT.li_colorType info) ->
    IDAT._pixelData (IDAT.load inflate (IDAT.applyLayoutInformation c0 info)
                       (IDAT.update deflate crc c ++ suffix)) !! i
    = IDAT._pixelData c !! i.
Proof.
  intros Hlay Hd Hw Hh Hr Hlen Hfit Hinf i Hi.
  destruct (IDAT_load_update deflate inflate crc c c0 info suffix
              Hlay Hd Hw Hh Hr Hlen Hfit Hinf) as [_ Ht].
  apply (f_equal (fun l => l !! i)) in Ht.
  now rewrite !lookup_take_lt in Ht by lia.
Qed.

Lemma IDAT_update_then_load_witness :
  IDAT._pixelData
    (IDAT.load StoredZlib.inflate
       (IDAT.applyLayoutInformation (RnPng.c_IDAT (RnPng._chunks freshDocument))
          (layoutOf numberedDoc))
       (IDAT.update StoredZlib.deflate crc32 (RnPng.c_IDAT (RnPng._chunks numberedDoc))
        ++ [1; 2; 3])) !! 4%nat
  = IDAT._pixelData (RnPng.c_IDAT (RnPng._chunks numberedDoc)) !! 4%nat.
Proof.
  apply (IDAT_update_then_load StoredZlib.deflate StoredZlib.inflate crc32
           (RnPng.c_IDAT (RnPng._chunks numberedDoc))
           (RnPng.c_IDAT (RnPng._chunks freshDocument))
           (layoutOf numberedDoc) [1; 2; 3]).
  - reflexivity.
  - unfold acceptedDepth. vm_compute. tauto.
  - vm_compute. discriminate.
  - vm_compute. discriminate.
  - repeat constructor; vm_compute; congruence.
  - vm_compute. discriminate.
  - vm_compute. discriminate.
  - intros t. apply StoredZlib_inflate_deflate.
  - vm_compute. reflexivity.
Defined.


(** ** What [from] accepts and what it keeps *)

Section FromProperties.
Variable inflate : list Z -> list Z.

Lemma loadChunk_never_NotAPng (ctxt : RnPng.t) (h : ChunkHeader) (bufView : list Z) :
  RnPng._loadChunk inflate ctxt h bufView <> Err NotAPng.
Proof.
  destruct h; cbn [RnPng._loadChunk]; try discriminate.
  - unfold RnPng._applyMetaData.
    destruct (negb _); [discriminate|]. destruct (_ <? _); [discriminate|].
    destruct (colorTypeOfCode _); discriminate.
  - unfold BKGD.load, BKGD.setBackgroundColor.
    destruct (negb _); discriminate.
Qed.

Lemma fromStep_never_NotAPng (bufView : list Z) (acc : Result (RnPng.t * Z))
    (h : ChunkHeader) :
  acc <> Err NotAPng -> RnPng.fromStep inflate bufView acc h <> Err NotAPng.
Proof.
  intros Hacc. unfold RnPng.fromStep. destruct acc as [st|e]; [|exact Hacc].
  cbn [rbind].
  assert (Hload : forall b,
             (do d <- RnPng._loadChunk inflate (fst st) h b;
              Ok (d, TypedArray.indexOfSequence bufView (ChunkHeaderSequences h) (snd st) + 4))
             <> Err NotAPng).
  { intros b. pose proof (loadChunk_never_NotAPng (fst st) h b) as Hl.
    destruct (RnPng._loadChunk inflate (fst st) h b); [discriminate|]. cbn. congruence. }
  destruct h; try (destruct (_ =? -1); [discriminate|apply Hload]). discriminate.
Qed.

Lemma fold_fromStep_never_NotAPng (bufView : list Z) (l : list ChunkHeader)
    (acc : Result (RnPng.t * Z)) :
  acc <> Err NotAPng -> fold_left (RnPng.fromStep inflate bufView) l acc <> Err NotAPng.
Proof.
  revert acc. induction l as [|h l IH]; intros acc Hacc; [exact Hacc|].
  cbn [fold_left]. apply IH. now apply fromStep_never_NotAPng.
Qed.

Lemma isPrefixOf_short (seq buf : list Z) :
  (length buf < length seq)%nat -> TypedArray.isPrefixOf seq buf = false.
Proof.
  revert buf. induction seq as [|s seq IH]; intros buf Hlen; [cbn in Hlen; lia|].
  destruct buf as [|b buf]; [reflexivity|]. cbn in *.
  rewrite IH by lia. apply andb_false_r.
Qed.

Lemma indexOfFrom_short (seq buf : list Z) (i : Z) :
  (length buf < length seq)%nat -> TypedArray.indexOfFrom buf seq i = -1.
Proof.
  revert i. induction buf as [|b buf IH]; intros i Hlen; [reflexivity|].
  cbn [TypedArray.indexOfFrom]. rewrite isPrefixOf_short by exact Hlen.
  apply IH. cbn in Hlen. lia.
Qed.

(** X20: [from] fails with the not-a-PNG error exactly when the signature or
    one of the type sequences IHDR, IDAT, IEND occurs nowhere in the buffer;
    where in the buffer they occur, and in which order, is not looked at.  In
    particular every buffer that [getBuffer] produces passes this check, and
    every buffer of fewer than 8 bytes fails it. *)
Theorem from_NotAPng_iff (d : RnPng.t) (bufView : list Z) :
  (RnPng.from inflate d bufView = Err NotAPng
   <-> (RnPng.verify bufView PNG_SIGNATURE = false
        \/ RnPng.verify bufView (ChunkHeaderSequences H_IHDR) = false
        \/ RnPng.verify bufView (ChunkHeaderSequences H_IDAT) = false
        \/ RnPng.verify bufView (ChunkHeaderSequences H_IEND) = false))
  /\ (forall deflate crc d0,
        RnPng.from inflate d (RnPng.getBuffer deflate crc d0) <> Err NotAPng)
  /\ ((length bufView < 8)%nat -> RnPng.from inflate d bufView = Err NotAPng).
Proof.
  assert (Hiff : forall buf,
             RnPng.from inflate d buf = Err NotAPng
             <-> (RnPng.verify buf PNG_SIGNATURE = false
                  \/ RnPng.verify buf (ChunkHeaderSequences H_IHDR) = false
                  \/ RnPng.verify buf (ChunkHeaderSequences H_IDAT) = false
                  \/ RnPng.verify buf (ChunkHeaderSequences H_IEND) = false)).
  { intros buf. unfold RnPng.from.
    destruct (RnPng.verify buf PNG_SIGNATURE),
             (RnPng.verify buf (ChunkHeaderSequences H_IHDR)),
             (RnPng.verify buf (ChunkHeaderSequences H_IDAT)),
             (RnPng.verify buf (ChunkHeaderSequences H_IEND));
      cbn [negb orb]; try (split; [intros _; tauto|reflexivity]).
    split; [|intros [H|[H|[H|H]]]; discriminate].
    intros Hf. exfalso.
    pose proof (fold_fromStep_never_NotAPng buf SupportedChunks
                  (Ok (RnPng.setPLTE d None, 0)) ltac:(discriminate)) as Hn.
    destruct (fold_left _ _ _); [discriminate|]. cbn in Hf. congruence. }
  split; [apply Hiff|]. split.
  - intros deflate crc d0 Hf. apply Hiff in Hf.
    destruct (getBuffer_verifies deflate crc d0) as (V1 & V2 & V3 & V4).
    destruct Hf as [H|[H|[H|H]]]; congruence.
  - intros Hlen. apply Hiff. left.
    unfold RnPng.verify, TypedArray.indexOfSequence.
    rewrite indexOfFrom_short; [reflexivity|].
    rewrite length_drop. cbn [length PNG_SIGNATURE]. lia.
Qed.

Lemma indexOfFrom_absent_suffix (seq buf : list Z) (i : Z) :
  0 <= i -> TypedArray.indexOfFrom buf seq i = -1 ->
  forall (k : nat) (j : Z), TypedArray.indexOfFrom (drop k buf) seq j = -1.
Proof.
  revert i. induction buf as [|b buf IH]; intros i Hi Habs k j.
  - now rewrite drop_nil.
  - cbn [TypedArray.indexOfFrom] in Habs.
    destruct (TypedArray.isPrefixOf seq (b :: buf)) eqn:Hp; [lia|].
    destruct k as [|k].
    + cbn [drop TypedArray.indexOfFrom]. rewrite Hp.
      apply (IH (i + 1) ltac:(lia) Habs 0%nat).
    + cbn [drop]. apply (IH (i + 1) ltac:(lia) Habs).
Qed.

Lemma verify_false_absent (bufView seq : list Z) (start : Z) :
  RnPng.verify bufView seq = false ->
  TypedArray.indexOfSequence bufView seq start = -1.
Proof.
  unfold RnPng.verify, TypedArray.indexOfSequence. intros Hv.
  apply negb_false_iff, Z.eqb_eq in Hv. cbn [Z.to_nat drop] in Hv.
  now apply (indexOfFrom_absent_suffix seq bufView (Z.max 0 0)).
Qed.

Lemma slotKept_refl (slot : ChunkHeader) (d : RnPng.t) : slotKept slot d d.
Proof. destruct slot; reflexivity || exact I. Qed.

Lemma slotKept_trans (slot : ChunkHeader) (d1 d2 d3 : RnPng.t) :
  slotKept slot d1 d2 -> slotKept slot d2 d3 -> slotKept slot d1 d3.
Proof. destruct slot; cbn; congruence || tauto. Qed.

Lemma loadChunk_slotKept (slot h : ChunkHeader) (ctxt d' : RnPng.t) (bufView : list Z) :
  slot <> h -> RnPng._loadChunk inflate ctxt h bufView = Ok d' -> slotKept slot ctxt d'.
Proof.
  intros Hne. destruct h; cbn [RnPng._loadChunk].
  - unfold RnPng._applyMetaData.
    destruct (negb _); [discriminate|]. destruct (_ <? _); [discriminate|].
    destruct (colorTypeOfCode _); [|discriminate]. intros [= <-].
    destruct slot; reflexivity || exact I.
  - intros [= <-]. destruct slot; try reflexivity; try exact I. congruence.
  - intros [= <-]. destruct slot; try reflexivity; try exact I. congruence.
  - destruct (BKGD.load _ _ _ _); [|discriminate]. intros [= <-].
    destruct slot; try reflexivity; try exact I. congruence.
  - intros [= <-]. destruct slot; reflexivity || exact I.
  - intros [= <-]. destruct slot; reflexivity || exact I.
Qed.

Lemma fromStep_slotKept (bufView : list Z) (slot h : ChunkHeader) (st st' : RnPng.t * Z) :
  (forall start,
      TypedArray.indexOfSequence bufView (ChunkHeaderSequences slot) start = -1) ->
  RnPng.fromStep inflate bufView (Ok st) h = Ok st' ->
  slotKept slot (fst st) (fst st').
Proof.
  intros Habs. unfold RnPng.fromStep. cbn [rbind].
  assert (Hsame : Ok st = Ok st' -> slotKept slot (fst st) (fst st')).
  { intros [= <-]. apply slotKept_refl. }
  assert (Hload : forall b p,
             slot <> h ->
             (do d <- RnPng._loadChunk inflate (fst st) h b; Ok (d, p)) = Ok st' ->
             slotKept slot (fst st) (fst st')).
  { intros b p Hne Hl.
    destruct (RnPng._loadChunk inflate (fst st) h b) as [d1|] eqn:Hd; [|discriminate].
    cbn in Hl. injection Hl as <-. now apply (loadChunk_slotKept slot h _ _ b). }
  destruct h; try exact Hsame;
    match goal with
    | |- context [TypedArray.indexOfSequence bufView ?s ?x =? -1] =>
        destruct (Z.eqb_spec (TypedArray.indexOfSequence bufView s x) (-1)) as [E|E];
        [exact Hsame|]
    end;
    (destruct slot;
     try (exfalso; apply E; apply Habs);
     apply Hload; discriminate).
Qed.

Lemma fold_fromStep_slotKept (bufView : list Z) (slot : ChunkHeader)
    (l : list ChunkHeader) (st st' : RnPng.t * Z) :
  (forall start,
      TypedArray.indexOfSequence bufView (ChunkHeaderSequences slot) start = -1) ->
  fold_left (RnPng.fromStep inflate bufView) l (Ok st) = Ok st' ->
  slotKept slot (fst st) (fst st').
Proof.
  intros Habs. revert st. induction l as [|h l IH]; intros st Hf.
  - cbn in Hf. injection Hf as <-. apply slotKept_refl.
  - cbn [fold_left] in Hf.
    destruct (RnPng.fromStep inflate bufView (Ok st) h) as [st1|e] eqn:Hs.
    + eapply slotKept_trans; [eapply fromStep_slotKept; eassumption|now apply IH].
    + exfalso. clear -Hf. induction l as [|h' l IHl]; [discriminate|].
      cbn [fold_left] in Hf. now apply IHl.
Qed.

(** X21: [from] drops the palette of the receiving document before it scans
    the buffer, but not its transparency or background chunk.  When [from]
    succeeds on a buffer in which the type sequence PLTE occurs nowhere, the
    loaded document has no palette, whatever its color type; when tRNS,
    respectively bKGD, occurs nowhere, the loaded document still carries the
    transparency, respectively background, chunk that the receiving document
    had before the load. *)
Theorem from_keeps_chunks_without_marker (d d' : RnPng.t) (bufView : list Z) :
  RnPng.from inflate d bufView = Ok d' ->
  (RnPng.verify bufView (ChunkHeaderSequences H_PLTE) = false ->
   RnPng.c_PLTE (RnPng._chunks d') = None)
  /\ (RnPng.verify bufView (ChunkHeaderSequences H_tRNS) = false ->
      RnPng.c_tRNS (RnPng._chunks d') = RnPng.c_tRNS (RnPng._chunks d))
  /\ (RnPng.verify bufView (ChunkHeaderSequences H_bKGD) = false ->
      RnPng.c_bKGD (RnPng._chunks d') = RnPng.c_bKGD (RnPng._chunks d)).
Proof.
  unfold RnPng.from. destruct (_ || _); [discriminate|].
  destruct (fold_left _ _ _) as [st|e] eqn:Hf; [|discriminate].
  cbn [rbind]. intros [= <-].
  assert (Hk : forall slot,
             RnPng.verify bufView (ChunkHeaderSequences slot) = false ->
             slotKept slot (RnPng.setPLTE d None) (fst st)).
  { intros slot Hv.
    apply (fold_fromStep_slotKept bufView slot SupportedChunks (RnPng.setPLTE d None, 0) st);
      [|exact Hf].
    intros start. now apply verify_false_absent. }
  split; [|split]; intros Hv.
  - exact (Hk H_PLTE Hv).
  - exact (Hk H_tRNS Hv).
  - exact (Hk H_bKGD Hv).
Qed.

End FromProperties.

Lemma from_keeps_chunks_without_marker_witness :
  RnPng.c_tRNS
    (RnPng._chunks
       (orBlank (RnPng.from StoredZlib.inflate indexedDoc
                   (RnPng.getBuffer StoredZlib.deflate crc32 numberedDoc))))
  = RnPng.c_tRNS (RnPng._chunks indexedDoc).
Proof.
  apply (from_keeps_chunks_without_marker StoredZlib.inflate indexedDoc
           (orBlank (RnPng.from StoredZlib.inflate indexedDoc
                       (RnPng.getBuffer StoredZlib.deflate crc32 numberedDoc)))
           (RnPng.getBuffer StoredZlib.deflate crc32 numberedDoc)).
  - vm_compute. reflexivity.
  - vm_compute. reflexivity.
Defined.

(** ** The sample buffer under mutation *)

Lemma removeTransparency_metadata (d d' : RnPng.t) (color : list Z) :
  RnPng.removeTransparency d color = Ok d' -> RnPng.getMetaData d' = RnPng.getMetaData d.
Proof.
  unfold RnPng.removeTransparency.
  destruct (RnPng.c_tRNS _); [|discriminate].
  destruct (RnPng.isIndexed d).
  - destruct (RnPng.c_PLTE _); [|discriminate]. now intros [= <-].
  - now intros [= <-].
Qed.

Lemma setPixelAt_getMetaData (d d' : RnPng.t) (pos : Pos) (data : Data) :
  RnPng.setPixelAt d pos data = Ok d' -> RnPng.getMetaData d' = RnPng.getMetaData d.
Proof.
  unfold RnPng.setPixelAt.
  destruct (_ <? _); [discriminate|].
  destruct (RnPng.hasAlphaChannel d).
  { now intros [= <-]. }
  destruct (RnPng.isIndexed d).
  - destruct (RnPng.c_PLTE _) as [plte|]; [|discriminate].
    destruct (if PLTE.isColorInPalette _ _ then _ else _) as [r|e]; [|discriminate].
    cbn [rbind]. destruct (if _ <? _ then _ else _); now intros [= <-].
  - destruct (if _ <? _ then _ else _) as [o|].
    + destruct (_ && _).
      * intros H. now apply removeTransparency_metadata in H.
      * now intros [= <-].
    + now intros [= <-].
Qed.

Lemma setOpacityAt_getMetaData (d d' : RnPng.t) (pos : Pos) (value : Z) :
  RnPng.setOpacityAt d pos value = Ok d' -> RnPng.getMetaData d' = RnPng.getMetaData d.
Proof.
  unfold RnPng.setOpacityAt.
  destruct (_ && _); [discriminate|].
  destruct (RnPng.hasAlphaChannel d).
  { now intros [= <-]. }
  destruct (RnPng.c_PLTE _); [|discriminate].
  destruct (IDATAccess.getValueAt _ _).
  - destruct (_ <=? _); [discriminate|]. now intros [= <-].
  - now intros [= <-].
Qed.

Lemma mutate_keeps_shape (d d' : RnPng.t) (m : Mutation) :
  mutate d m = Ok d' ->
  length (pixelDataOf d') = length (pixelDataOf d)
  /\ RnPng.getMetaData d' = RnPng.getMetaData d.
Proof.
  destruct m; cbn [mutate]; intros H.
  - split; [now apply setPixelAt_buffer_length in H|now apply setPixelAt_getMetaData in H].
  - split; [now apply setOpacityAt_buffer_length in H
           |now apply setOpacityAt_getMetaData in H].
  - injection H as <-. split; reflexivity.
  - split; [apply removeTransparency_pixelData in H; now rewrite H
           |now apply removeTransparency_metadata in H].
  - injection H as <-. split; reflexivity.
  - unfold RnPng.setBackground in H.
    destruct (RnPng.c_PLTE _), (RnPng.c_bKGD _);
      try (injection H as <-; split; reflexivity);
      (destruct (BKGD.setBackgroundColor _ _); [|discriminate];
       injection H as <-; split; reflexivity).
  - injection H as <-. split; reflexivity.
  - unfold Document.setPaletteColorOf in H.
    destruct (RnPng.c_PLTE _); [|discriminate]. injection H as <-. split; reflexivity.
Qed.

Lemma mutateAll_keeps_shape (ms : list Mutation) (d d' : RnPng.t) :
  mutateAll d ms = Ok d' ->
  length (pixelDataOf d') = length (pixelDataOf d)
  /\ RnPng.getMetaData d' = RnPng.getMetaData d.
Proof.
  unfold mutateAll. revert d. induction ms as [|m ms IH]; intros d H.
  - injection H as <-. split; reflexivity.
  - cbn [fold_left rbind] in H.
    destruct (mutate d m) as [d1|e] eqn:Hm.
    + destruct (mutate_keeps_shape d d1 m Hm) as [Hl Hmeta].
      destruct (IH d1 H) as [Hl' Hmeta']. split; congruence.
    + exfalso. clear -H. induction ms as [|m' ms IHm]; [discriminate|].
      cbn [fold_left rbind] in H. now apply IHm.
Qed.

(** X22: no mutator of the document resizes the sample buffer or changes the
    metadata.  A document built by the constructor and then taken through any
    chain of successful calls of [setPixelAt], [setOpacityAt],
    [setTransparency], [removeTransparency], [removeTransparencies],
    [setBackground], [removeBackground] and [setPaletteColorOf] still has the
    metadata the constructor gave it and a sample buffer of
    width * height * samples-per-pixel + height entries, the length the
    constructor allocated. *)
Theorem sample_buffer_length_invariant (options : RnPng.Options) (d0 d : RnPng.t)
    (ms : list Mutation) :
  RnPng.new options = Ok d0 ->
  0 <= RnPng._width d0 -> 0 <= RnPng._height d0 ->
  mutateAll d0 ms = Ok d ->
  RnPng.getMetaData d = RnPng.getMetaData d0
  /\ Z.of_nat (length (pixelDataOf d))
     = RnPng._width d * RnPng._height d * Pixels.samplesPerPixel (RnPng._colorType d)
       + RnPng._height d.
Proof.
  intros Hnew Hw Hh Hms.
  destruct (mutateAll_keeps_shape ms d0 d Hms) as [Hl Hmeta].
  split; [exact Hmeta|]. rewrite Hl.
  assert (Hf : RnPng._width d = RnPng._width d0 /\ RnPng._height d = RnPng._height d0
               /\ RnPng._colorType d = RnPng._colorType d0).
  { unfold RnPng.getMetaData in Hmeta. injection Hmeta as Ew Eh _ Ec _ _ _.
    split; [exact Ew|]. split; [exact Eh|].
    destruct (RnPng._colorType d), (RnPng._colorType d0); try discriminate; reflexivity. }
  destruct Hf as (-> & -> & ->).
  apply new_inversion in Hnew as (ct & _ & ->).
  unfold pixelDataOf.
  cbn [RnPng._initializeChunks RnPng.setChunks RnPng._chunks RnPng.c_IDAT
       RnPng._width RnPng._height RnPng._depth RnPng._colorType] in *.
  now apply IDAT_new_buffer_length.
Qed.

Lemma sample_buffer_length_invariant_witness :
  Z.of_nat (length (pixelDataOf numberedDoc))
  = RnPng._width numberedDoc * RnPng._height numberedDoc
    * Pixels.samplesPerPixel (RnPng._colorType numberedDoc)
    + RnPng._height numberedDoc.
Proof.
  apply (sample_buffer_length_invariant truecolorOptions truecolorDoc numberedDoc
           [SetPixelAt (XY 0 0) (Array [1; 2; 3]); SetPixelAt (XY 1 0) (Array [4; 5; 6])]).
  - reflexivity.
  - vm_compute. discriminate.
  - vm_compute. discriminate.
  - reflexivity.
Defined.


(** ** Positions outside the sample buffer *)

Lemma readAt_outside (arr : list Z) (i : Z) :
  i < 0 \/ Z.of_nat (length arr) <= i -> readAt arr i = None.
Proof.
  intros Hout. unfold readAt. destruct (Z.ltb_spec i 0); [reflexivity|].
  apply lookup_ge_None. lia.
Qed.

(** X23: the document does not check a position against the sample buffer.
    On an indexed image with a palette, at a position outside the buffer
    [getPaletteIndexAt] returns undefined instead of failing, and [setPixelAt]
    with a color that is not yet in a palette with room succeeds, appends the
    color to the palette and writes no pixel. *)
Theorem indexed_position_outside_buffer (d : RnPng.t) (pos : Pos) (plte : PLTE.t)
    (data : Data) :
  RnPng.isIndexed d = true ->
  RnPng.c_PLTE (RnPng._chunks d) = Some plte ->
  RnPng.resolvePos d pos < 0
  \/ Z.of_nat (length (pixelDataOf d)) <= RnPng.resolvePos d pos ->
  RnPng.getPaletteIndexAt d pos = Ok None
  /\ (3 <= Z.of_nat (length (samplesOf data)) ->
      PLTE.isColorInPalette plte (take 3 (samplesOf data)) = false ->
      Z.of_nat (length (PLTE.getPalette plte)) < PLTE._maxNumberOfColors plte ->
      exists d',
        RnPng.setPixelAt d pos data = Ok d'
        /\ pixelDataOf d' = pixelDataOf d
        /\ (PLTE.getPalette <$> RnPng.c_PLTE (RnPng._chunks d'))
           = Some (PLTE.getPalette plte ++ [take 3 (samplesOf data)])).
Proof.
  intros Hi Hp Hout. split.
  - unfold RnPng.getPaletteIndexAt, RnPng.getPalette, IDATAccess.getValueAt.
    rewrite Hp. fold (pixelDataOf d). now rewrite readAt_outside by exact Hout.
  - intros Hlen Hnew Hroom.
    destruct (setPixelAt_indexed d pos data plte Hi Hp Hlen
                (PLTE.mk (PLTE._maxNumberOfColors plte)
                         (PLTE._palette plte ++ [take 3 (samplesOf data)]))
                (Z.of_nat (length (PLTE._palette plte))))
      as (d' & Hs & Hp' & _ & Hpx).
    { rewrite Hnew. unfold PLTE.addColor. unfold PLTE.getPalette in Hroom.
      destruct (Z.ltb_spec (PLTE._maxNumberOfColors plte)
                  (Z.of_nat (length (PLTE._palette plte)) + 1)); [lia|reflexivity]. }
    exists d'. split; [exact Hs|]. split.
    + rewrite Hpx. now apply writeAt_outside.
    + now rewrite Hp'.
Qed.

Lemma indexed_position_outside_buffer_witness :
  RnPng.getPaletteIndexAt redDoc (Index 99) = Ok None
  /\ exists d',
       RnPng.setPixelAt redDoc (Index 99) (Array [0; 0; 255]) = Ok d'
       /\ pixelDataOf d' = pixelDataOf redDoc
       /\ (PLTE.getPalette <$> RnPng.c_PLTE (RnPng._chunks d'))
          = Some (PLTE.getPalette (PLTE.mk 256 [[255; 0; 0]])
                  ++ [take 3 (samplesOf (Array [0; 0; 255]))]).
Proof.
  destruct (indexed_position_outside_buffer redDoc (Index 99) (PLTE.mk 256 [[255; 0; 0]])
              (Array [0; 0; 255]) eq_refl eq_refl ltac:(right; by_compute))
    as [Hg Hs].
  split; [exact Hg|]. apply Hs; by_compute.
Defined.

(** ** Recoloring a palette entry *)

(** X24: [setPaletteColorOf] fails when the document has no palette chunk;
    otherwise it recolors every pixel that refers to the entry at once: for
    an index within the palette, [getPaletteColorAt] afterwards returns the
    new color at every position that stores this index and the color it
    returned before at every position that stores another index within the
    palette, while the pixel data itself is unchanged. *)
Theorem setPaletteColorOf_recolors (d : RnPng.t) (index : Z) (colorData : list Z) :
  (RnPng.c_PLTE (RnPng._chunks d) = None ->
   Document.setPaletteColorOf d index colorData = Err NoPalette)
  /\ (forall plte,
        RnPng.c_PLTE (RnPng._chunks d) = Some plte ->
        0 <= index < Z.of_nat (length (PLTE.getPalette plte)) ->
        exists d',
          Document.setPaletteColorOf d index colorData = Ok d'
          /\ pixelDataOf d' = pixelDataOf d
          /\ forall pos i,
               IDATAccess.getValueAt (RnPng.c_IDAT (RnPng._chunks d))
                                     (RnPng.resolvePos d pos) = Some i ->
               0 <= i < Z.of_nat (length (PLTE.getPalette plte)) ->
               RnPng.getPaletteColorAt d' pos
               = if i =? index then Ok (PTuple colorData)
                 else RnPng.getPaletteColorAt d pos).
Proof.
  unfold Document.setPaletteColorOf. split.
  - now intros ->.
  - intros plte Hp Hidx. rewrite Hp. eexists. split; [reflexivity|].
    split; [reflexivity|]. intros pos i Hv Hi.
    unfold RnPng.getPaletteColorAt, RnPng.getPaletteIndexAt, RnPng.getPalette.
    change (RnPng.resolvePos (RnPng.setPLTE d _) pos) with (RnPng.resolvePos d pos).
    cbn [RnPng.setPLTE RnPng.setChunks RnPng._chunks RnPng.c_PLTE RnPng.c_IDAT].
    rewrite Hp, Hv. cbn [rbind].
    rewrite (setColorOf_in_range plte index colorData Hidx).
    unfold PLTE.getPalette in *. cbn [PLTE._palette].
    rewrite length_insert.
    destruct (Z.leb_spec (Z.of_nat (length (PLTE._palette plte))) i); [lia|].
    cbn [rbind]. unfold PLTE.getColorOf. cbn [PLTE._palette]. rewrite length_insert.
    destruct (Z.leb_spec (Z.of_nat (length (PLTE._palette plte))) i); [lia|].
    destruct (Z.ltb_spec i 0); [lia|].
    destruct (Z.eqb_spec i index) as [->|Hne].
    + rewrite list_lookup_insert_eq by lia. reflexivity.
    + rewrite list_lookup_insert_ne by lia. reflexivity.
Qed.

(** ** The size prediction against a stream of stored blocks *)

Lemma storedBlocks_length (fuel : nat) :
  forall data : list Z,
    (length data < fuel)%nat -> data <> [] ->
    Z.of_nat (length (StoredZlib.storedBlocks fuel data))
    = Z.of_nat (length data) + 5 * ((0xfffe + Z.of_nat (length data)) / 0xffff).
Proof.
  induction fuel as [|fuel IH]; intros data Hf Hne; [lia|].
  cbn [StoredZlib.storedBlocks].
  destruct (drop StoredZlib.BLOCK_SIZE data) as [|r rest] eqn:Hd.
  - assert (Hn : (length data <= StoredZlib.BLOCK_SIZE)%nat).
    { apply (f_equal length) in Hd. rewrite length_drop in Hd. cbn in Hd. lia. }
    rewrite take_ge by exact Hn. rewrite app_nil_r.
    cbn [app length]. unfold StoredZlib.BLOCK_SIZE in Hn.
    assert (0 < Z.of_nat (length data)) by (destruct data; [congruence|cbn; lia]).
    replace ((65534 + Z.of_nat (length data)) / 65535) with 1
      by (apply Z.div_unique with (r := Z.of_nat (length data) - 1); lia).
    lia.
  - assert (Hn : (StoredZlib.BLOCK_SIZE < length data)%nat).
    { apply (f_equal length) in Hd. rewrite length_drop in Hd. cbn in Hd. lia. }
    assert (Hr : length (r :: rest) = (length data - StoredZlib.BLOCK_SIZE)%nat)
      by (rewrite <- Hd; apply length_drop).
    cbn [app]. rewrite !length_cons, length_app, length_take.
    unfold StoredZlib.BLOCK_SIZE in *.
    rewrite !Nat2Z.inj_succ, Nat2Z.inj_add, IH; [|lia|discriminate].
    rewrite Hr.
    replace (Z.of_nat (length data - Z.to_nat 65535))
      with (Z.of_nat (length data) - 65535) by lia.
    replace (Z.of_nat (Z.to_nat 65535 `min` length data)) with 65535 by lia.
    replace (65534 + Z.of_nat (length data))
      with (65534 + (Z.of_nat (length data) - 65535) + 1 * 65535) by lia.
    rewrite Z.div_add by lia. lia.
Qed.

(** X25: the payload size that [calculatePayloadSize] predicts for P bytes of
    filtered pixel data is exactly the length of a zlib stream that holds
    those bytes in stored blocks of at most 0xFFFF bytes, whenever there is at
    least one byte.  For no bytes at all the prediction is 6, five bytes short
    of the 11-byte stream of one empty stored block. *)
Theorem calculatePayloadSize_matches_stored_blocks (c : IDAT.t) (data : list Z) :
  (data <> [] ->
   Z.of_nat (length (StoredZlib.deflate data))
   = IDAT.calculatePayloadSize c (Z.of_nat (length data)))
  /\ IDAT.calculatePayloadSize c 0 = 6
  /\ length (StoredZlib.deflate []) = 11%nat.
Proof.
  split; [|split; reflexivity].
  intros Hne. unfold StoredZlib.deflate, IDAT.calculatePayloadSize.
  assert (Hpos : 0 < Z.of_nat (length data)) by (destruct data; [congruence|cbn; lia]).
  destruct (Z.eqb_spec (Z.of_nat (length data)) (-1)); [lia|].
  rewrite !length_app. cbn [length TypedArray.writeUint32].
  rewrite !Nat2Z.inj_add, storedBlocks_length by (lia || exact Hne).
  unfold IDAT.DEFLATE_BLOCKS_SIZE, IDAT.ZLIB_HEADER_SIZE, IDAT.ADLER_CHECKSUM_SIZE.
  lia.
Qed.

(** ** What the constructor establishes, on the 2x1 truecolor document *)

Lemma constructor_establishes_document_invariants_witness :
  validMetaData truecolorDoc /\ chunksAgree truecolorDoc /\ fullyWritten truecolorDoc
  /\ tablesStorable truecolorDoc /\ isFresh truecolorDoc.
Proof.
  apply (constructor_establishes_document_invariants truecolorOptions truecolorDoc).
  - reflexivity.
  - vm_compute. split; [discriminate|reflexivity].
  - vm_compute. split; [discriminate|reflexivity].
Defined.
